(** * kyucollect-backend: the authentication and store-provisioning service

    A shallow embedding of [src/services/auth/auth.service.ts], of the
    handlers of [src/controllers/auth/auth.controller.ts] that call it and of
    [src/middlewares/auth.middleware.ts], followed by the properties of the
    specification that concern them.

    The PostgreSQL tables are lists of rows, a JSON column that is used as a
    map is a [gmap], a thrown exception is the left summand of a result, and
    every service method is a computation in a state-and-exception monad over
    the database: a write is committed when it is executed, exactly as a
    TypeORM [Repository.save] outside of a [QueryRunner] transaction is. *)

From Stdlib Require Import ZArith String Ascii List Lia DecimalString.
From stdpp Require Import base option list strings gmap.

Open Scope string_scope.
Open Scope Z_scope.

(** ** Data model *)

(** [UserRole] and [UserType] of [entities/auth/User]. *)
Inductive UserRole := CUSTOMER | STORE_OWNER.
Inductive UserType := LOCAL | GOOGLE | APPLE.

(** The [businessType] union of [StoreOwnerRegisterRequest]. *)
Inductive BusinessType :=
  sole_proprietorship | partnership | llc | corporation | other.

(** The three states of one entry of [Store.documentVerificationStatus]. *)
Inductive DocStatus := pending | verified | rejected.

#[global] Instance UserRole_eq_dec : EqDecision UserRole.
Proof. solve_decision. Defined.
#[global] Instance UserType_eq_dec : EqDecision UserType.
Proof. solve_decision. Defined.
#[global] Instance BusinessType_eq_dec : EqDecision BusinessType.
Proof. solve_decision. Defined.
#[global] Instance DocStatus_eq_dec : EqDecision DocStatus.
Proof. solve_decision. Defined.

(** A JavaScript [Date], through the two observations the code makes of it:
    the instant ([getTime], milliseconds since the epoch) and the calendar
    year in local time ([getFullYear]). *)
Record Date := mkDate { getTime : Z; getFullYear : Z }.

#[global] Instance Date_eq_dec : EqDecision Date.
Proof. solve_decision. Defined.

(** The address object shared by requests, [User.businessAddress] and
    [Store.legalAddress]. *)
Record Address := mkAddress {
  street : string;
  city : string;
  postalCode : string;
  country : string
}.

#[global] Instance Address_eq_dec : EqDecision Address.
Proof. solve_decision. Defined.

(** A primary key. The entities declare [@PrimaryGeneratedColumn("uuid")]:
    an opaque key that PostgreSQL generates and never hands out twice; the
    model draws it from a counter kept with the tables. *)
Abbreviation Uuid := nat.

(** [countrySpecificFields] is a JSON object whose values are all strings
    ([siren], [siret], [ein], ...): a finite map from field name to value. *)
Abbreviation CountryFields := (gmap string string).

(** The rows of the [users] table, with the columns the service reads or
    writes. *)
Module User.
Record t := mk {
  id : Uuid;
  email : string;
  password : option string;
  firstName : string;
  lastName : string;
  role : UserRole;
  type : UserType;
  isActive : bool;
  isFullyRegistered : bool;
  lastLoginAt : option Date;
  businessName : option string;
  businessType : option BusinessType;
  businessAddress : option Address;
  countrySpecificFields : option CountryFields;
  ownerPhone : option string;
  ownerDateOfBirth : option Date;
  acceptedTerms : bool;
  acceptedPrivacyPolicy : bool;
  acceptedDataProcessing : bool;
  marketingConsent : option bool;
  termsAcceptedAt : option Date;
  privacyPolicyAcceptedAt : option Date;
  dataProcessingAcceptedAt : option Date;
  marketingConsentGivenAt : option Date;
  registrationIpAddress : option string;
  registrationUserAgent : option string
}.
End User.

(** The rows of the [stores] table (the [Store] entity), without the [menus]
    and [orders] relations and the two maintenance timestamps. *)
Module Store.
Record t := mk {
  id : Uuid;
  ownerId : option Uuid;
  name : string;
  slug : option string;
  description : option string;
  address : option string;
  phone : option string;
  email : option string;
  timezone : option string;
  isHoliday : bool;
  holidayMessage : option string;
  isActive : bool;
  legalBusinessName : option string;
  legalBusinessType : option BusinessType;
  legalAddress : option Address;
  countrySpecificFields : option CountryFields;
  businessDocuments : option (gmap string string);
  documentVerificationStatus : option (gmap string DocStatus);
  verificationNotes : option string;
  isLegallyVerified : bool;
  verifiedAt : option Date;
  verifiedBy : option string
}.
End Store.

(** Modelled from the spec: the audit service ([services/audit/audit.service])
    is not part of the sources at hand. The specification describes one
    appended, immutable event per call, with an event kind, the subject, the
    acting principal and the request provenance. *)
Inductive AuditKind :=
  | USER_REGISTRATION
  | STORE_REGISTRATION
  | CONSENT_ACCEPTANCE (consentType : string).

Record AuditLog := mkAuditLog {
  auditKind : AuditKind;
  auditSubject : Uuid;
  auditActor : Uuid;
  auditIp : string;
  auditUserAgent : string
}.

(** The stored state: the three tables and the key generator. *)
Record Db := mkDb {
  users : list User.t;
  stores : list Store.t;
  auditLogs : list AuditLog;
  nextId : Uuid
}.

Definition emptyDb : Db := mkDb [] [] [] 1%nat.

(** ** Thrown values *)

(** The error classes of [jsonwebtoken]. [TokenExpiredError] and
    [NotBeforeError] are subclasses of [JsonWebTokenError] in that library. *)
Inductive JwtError :=
  | JsonWebTokenError (reason : string)
  | TokenExpiredError
  | NotBeforeError.

(** What a [throw] carries: an [Error] built by the service, the
    [QueryFailedError] of the storage layer, or an error of [jsonwebtoken]. *)
Inductive Exn :=
  | Error (msg : string)
  | QueryFailedError (msg : string)
  | JwtThrown (e : JwtError).

(** [error.message]. *)
Definition message (e : Exn) : string :=
  match e with
  | Error m => m
  | QueryFailedError m => m
  | JwtThrown (JsonWebTokenError m) => m
  | JwtThrown TokenExpiredError => "jwt expired"
  | JwtThrown NotBeforeError => "jwt not active"
  end.

(** The claims of a token. The service puts a [userId] in every token it
    signs; what [jwt.verify] returns is cast to the payload type without a
    check, so that the [userId] of a verified token the service did not sign
    may be missing. *)
Record JwtPayload := mkPayload {
  userId : option Uuid;
  payloadEmail : string;
  payloadRole : UserRole
}.

(** ** What the service takes from its runtime

    The string library of JavaScript, [bcryptjs], [jsonwebtoken], the slug
    helper [utils/slug] (not part of the sources at hand) and the process
    environment. The development is parametric in them. *)
Class Runtime := {
  (** [String.prototype.toLowerCase] *)
  toLowerCase : string → string;
  (** [bcrypt.hash(password, rounds)], with the salt it draws made explicit *)
  bcrypt_hash : string → nat → string → string;
  (** [bcrypt.compare(password, hash)] *)
  bcrypt_compare : string → string → bool;
  (** [jwt.sign(payload, secret, { expiresIn })] at a given instant *)
  jwt_sign : JwtPayload → string → string → Date → string;
  (** [jwt.verify(token, secret)] at a given instant: the payload, or the
      error it throws *)
  jwt_verify : string → string → Date → JwtError + JwtPayload;
  (** [createSlug(name)] *)
  createSlug : string → string;
  (** [new Date(isoString)]; [None] is an Invalid Date, which a string that
      does not parse gives *)
  Date_parse : string → option Date;
  (** [process.env.JWT_SECRET] *)
  JWT_SECRET : option string;
  (** Column defaults of the [User] entity (its source is not at hand) *)
  User_default_isActive : bool;
  User_default_isFullyRegistered : bool
}.

(** What one call draws from outside the program: the clock and the salt
    [bcrypt] generates. *)
Record Ambient := mkAmbient {
  now : Date;
  salt : string
}.

(** ** The monad of service methods

    A computation reads and writes the database and either returns or
    throws. The database that comes out of a throwing computation is the one
    reached when the exception was raised: nothing is undone. *)
Definition M (A : Type) : Type := Db → (Exn + A) * Db.

Definition ret {A} (a : A) : M A := fun db => (inr a, db).

Definition throw {A} (e : Exn) : M A := fun db => (inl e, db).

Definition bind {A B} (m : M A) (k : A → M B) : M B :=
  fun db =>
    match m db with
    | (inr a, db') => k a db'
    | (inl e, db') => (inl e, db')
    end.

Declare Scope svc_scope.
Delimit Scope svc_scope with svc.
Notation "'let*' x ':=' c 'in' k" := (bind c (fun x => k))
  (at level 10, x name, c at level 100, k at level 200) : svc_scope.
Notation "c ';;;' k" := (bind c (fun _ => k))
  (at level 100, k at level 200, right associativity) : svc_scope.
Open Scope svc_scope.

(** [when c m]: the statement [if (c) { await m }]. *)
Definition when (c : bool) (m : M unit) : M unit :=
  if c then m else ret tt.

(** Outcome and final database of a call. *)
Definition outcome {A} (r : (Exn + A) * Db) : Exn + A := fst r.
Definition final {A} (r : (Exn + A) * Db) : Db := snd r.

(** ** Requests and responses of [auth.service.ts] *)

Module LoginRequest.
Record t := mk { email : string; password : string }.
End LoginRequest.

Module CustomerRegisterRequest.
Record t := mk {
  email : string;
  password : string;
  firstName : string;
  lastName : string
}.
End CustomerRegisterRequest.

Module StoreOwnerRegisterRequest.
Record t := mk {
  email : string;
  password : string;
  storeName : string;
  businessName : string;
  businessType : BusinessType;
  businessAddress : Address;
  ownerFirstName : string;
  ownerLastName : string;
  ownerPhone : string;
  ownerDateOfBirth : Date;
  acceptedTerms : bool;
  acceptedPrivacyPolicy : bool;
  acceptedDataProcessing : bool;
  marketingConsent : option bool;
  countrySpecificFields : option CountryFields;
  ipAddress : string;
  userAgent : string
}.
End StoreOwnerRegisterRequest.

(** The second argument of [completeOnboarding]. [acceptedCGUAt] is declared
    a string; the handler passes on what the request body holds, where it may
    be missing. *)
Module OnboardingData.
Record t := mk {
  phoneNumber : string;
  storeName : string;
  siret : string;
  storeAddress : Address;
  billingAddress : Address;
  acceptedCGU : bool;
  acceptedCGUAt : option string
}.
End OnboardingData.

(** The [Partial<User>] the methods return: the seven fields every method
    copies, and the two that only some of them copy. *)
Module UserView.
Record t := mk {
  id : Uuid;
  email : string;
  firstName : string;
  lastName : string;
  role : UserRole;
  type : UserType;
  isActive : bool;
  lastLoginAt : option (option Date);
  isFullyRegistered : option bool
}.
End UserView.

Module StoreView.
Record t := mk {
  id : Uuid;
  name : string;
  isActive : bool;
  isLegallyVerified : option bool
}.
End StoreView.

Record AuthResponse := mkAuthResponse {
  token : string;
  user : UserView.t;
  store : option StoreView.t
}.

(** ** The repositories

    [findOne] returns the first row that satisfies the [where] clause. [save]
    of an entity that [create] built inserts a row under a generated primary
    key; [save] of an entity that [findOne] loaded rewrites the row with that
    primary key. Each of them is its own committed statement. *)

Definition userRepository_findOne (where_ : User.t → bool)
  : M (option User.t) :=
  fun db => (inr (find where_ (users db)), db).

Definition storeRepository_findOne (where_ : Store.t → bool)
  : M (option Store.t) :=
  fun db => (inr (find where_ (stores db)), db).

Definition User_withId (i : Uuid) (u : User.t) : User.t :=
  let 'User.mk _ e pw fn ln r ty act full ll bn bt ba csf ph dob
        at_ ap ad mc tat pat dat mat ip ua := u in
  User.mk i e pw fn ln r ty act full ll bn bt ba csf ph dob
        at_ ap ad mc tat pat dat mat ip ua.

Definition User_withLastLoginAt (d : option Date) (u : User.t) : User.t :=
  let 'User.mk i e pw fn ln r ty act full _ bn bt ba csf ph dob
        at_ ap ad mc tat pat dat mat ip ua := u in
  User.mk i e pw fn ln r ty act full d bn bt ba csf ph dob
        at_ ap ad mc tat pat dat mat ip ua.

Definition Store_withId (i : Uuid) (s : Store.t) : Store.t :=
  let 'Store.mk _ o n sl de ad ph em tz hol hm act lbn lbt la csf bd dvs
        vn lv vat vby := s in
  Store.mk i o n sl de ad ph em tz hol hm act lbn lbt la csf bd dvs
        vn lv vat vby.

(** [userRepository.save(user)] for a [user] that [create] built. *)
Definition userRepository_insert (draft : User.t) : M User.t :=
  fun db =>
    let u := User_withId (nextId db) draft in
    (inr u, mkDb (users db ++ [u]) (stores db) (auditLogs db)
                 (S (nextId db))).

(** [userRepository.save(user)] for a [user] that [findOne] loaded. *)
Definition userRepository_save (u : User.t) : M User.t :=
  fun db =>
    (inr u,
     mkDb (map (fun x => if Nat.eqb (User.id x) (User.id u) then u else x)
               (users db))
          (stores db) (auditLogs db) (nextId db)).

(** [@Column({ unique: true, nullable: true }) slug]: an insert is refused
    when a stored row already has the same non-null slug. *)
Definition slug_taken (sl : option string) (db : Db) : bool :=
  match sl with
  | Some s =>
      existsb (fun x => match Store.slug x with
                        | Some s' => String.eqb s' s
                        | None => false
                        end) (stores db)
  | None => false
  end.

(** [storeRepository.save(store)] for a [store] that [create] built. *)
Definition storeRepository_save (draft : Store.t) : M Store.t :=
  fun db =>
    if slug_taken (Store.slug draft) db
    then (inl (QueryFailedError
                 "duplicate key value violates unique constraint"), db)
    else
      let s := Store_withId (nextId db) draft in
      (inr s, mkDb (users db) (stores db ++ [s]) (auditLogs db)
                   (S (nextId db))).

(** Modelled from the spec: one call of the audit service appends one
    event. *)
Definition auditService_log (k : AuditKind) (subject actor : Uuid)
  (ip ua : string) : M unit :=
  fun db =>
    (inr tt,
     mkDb (users db) (stores db)
          (auditLogs db ++ [mkAuditLog k subject actor ip ua]) (nextId db)).

(** The object literal both store-creating methods pass as
    [documentVerificationStatus]. *)
Definition initialDocumentVerificationStatus : gmap string DocStatus :=
  {[ "registrationCertificate" := pending;
     "sirenCertificate" := pending;
     "taxCertificate" := pending;
     "identityDocument" := pending;
     "proofOfAddress" := pending;
     "bankDetails" := pending ]}.

(** The six document kinds of the [Store] entity. *)
Definition documentKinds : gset string :=
  {[ "registrationCertificate"; "sirenCertificate"; "taxCertificate";
     "identityDocument"; "proofOfAddress"; "bankDetails" ]}.

(** JavaScript truthiness of an optional string: present and not empty. *)
Definition truthy (s : option string) : bool :=
  match s with
  | Some s => negb (String.eqb s EmptyString)
  | None => false
  end.

(** ** [AuthService] *)

Section AuthService.
Context `{Runtime}.

(** [process.env.JWT_SECRET || "default-secret-key"]. *)
Definition jwtSecret : string :=
  if truthy JWT_SECRET then default EmptyString JWT_SECRET
  else "default-secret-key".

(** [generateToken(user)]. *)
Definition generateToken (u : User.t) (at_ : Date) : string :=
  jwt_sign (mkPayload (Some (User.id u)) (User.email u) (User.role u))
           jwtSecret "7d" at_.

(** [where: { email: email.toLowerCase() }]. *)
Definition byEmail (email : string) (u : User.t) : bool :=
  String.eqb (User.email u) (toLowerCase email).

(** [where: { id }]. *)
Definition byId (i : Uuid) (u : User.t) : bool :=
  Nat.eqb (User.id u) i.

(** [where: { id, isActive: true }]. *)
Definition byIdActive (i : Uuid) (u : User.t) : bool :=
  Nat.eqb (User.id u) i && User.isActive u.

(** [where: { id: payload.userId, isActive: true }] for the [userId] of a
    verified token: [findOne] leaves out a condition whose value is
    [undefined], and returns the first active principal. *)
Definition byPayloadActive (i : option Uuid) (u : User.t) : bool :=
  match i with
  | Some i => byIdActive i u
  | None => User.isActive u
  end.

(** [where: { slug }]. *)
Definition bySlug (sl : string) (s : Store.t) : bool :=
  match Store.slug s with
  | Some s' => String.eqb s' sl
  | None => false
  end.

Definition login (credentials : LoginRequest.t) (amb : Ambient)
  : M AuthResponse :=
  let email := LoginRequest.email credentials in
  let password := LoginRequest.password credentials in
  let* found := userRepository_findOne (byEmail email) in
  match found with
  | None => throw (Error "Invalid credentials")
  | Some user =>
      if negb (truthy (User.password user))
      then throw (Error "Invalid credentials")
      else
        let isValidPassword :=
          bcrypt_compare password (default EmptyString (User.password user)) in
        if negb isValidPassword
        then throw (Error "Invalid credentials")
        else if negb (User.isActive user)
        then throw (Error "Account is deactivated")
        else
          let user := User_withLastLoginAt (Some (now amb)) user in
          let* _ := userRepository_save user in
          let token := generateToken user (now amb) in
          ret (mkAuthResponse token
                 (UserView.mk (User.id user) (User.email user)
                    (User.firstName user) (User.lastName user)
                    (User.role user) (User.type user) (User.isActive user)
                    (Some (User.lastLoginAt user)) None)
                 None)
  end.

Definition registerCustomer (data : CustomerRegisterRequest.t)
  (amb : Ambient) : M AuthResponse :=
  let email := CustomerRegisterRequest.email data in
  let password := CustomerRegisterRequest.password data in
  let firstName := CustomerRegisterRequest.firstName data in
  let lastName := CustomerRegisterRequest.lastName data in
  let* existingUser := userRepository_findOne (byEmail email) in
  match existingUser with
  | Some _ => throw (Error "Email already registered")
  | None =>
      let hashedPassword := bcrypt_hash password 12%nat (salt amb) in
      let user :=
        User.mk 0%nat (toLowerCase email) (Some hashedPassword)
          firstName lastName CUSTOMER LOCAL
          User_default_isActive User_default_isFullyRegistered None
          None None None None None None
          false false false None None None None None
          None None in
      let* savedUser := userRepository_insert user in
      let token := generateToken savedUser (now amb) in
      ret (mkAuthResponse token
             (UserView.mk (User.id savedUser) (User.email savedUser)
                (User.firstName savedUser) (User.lastName savedUser)
                (User.role savedUser) (User.type savedUser)
                (User.isActive savedUser) None None)
             None)
  end.

(** [flag ? new Date() : undefined]. *)
Definition stamp (flag : bool) (d : Date) : option Date :=
  if flag then Some d else None.

(** The entity [registerStoreOwner] passes to [userRepository.create]. *)
Definition newStoreOwner (data : StoreOwnerRegisterRequest.t)
  (amb : Ambient) : User.t :=
  let acceptedTerms := StoreOwnerRegisterRequest.acceptedTerms data in
  let acceptedPrivacyPolicy :=
    StoreOwnerRegisterRequest.acceptedPrivacyPolicy data in
  let acceptedDataProcessing :=
    StoreOwnerRegisterRequest.acceptedDataProcessing data in
  let marketingConsent := StoreOwnerRegisterRequest.marketingConsent data in
  User.mk 0%nat
    (toLowerCase (StoreOwnerRegisterRequest.email data))
    (Some (bcrypt_hash (StoreOwnerRegisterRequest.password data) 12%nat
             (salt amb)))
    (StoreOwnerRegisterRequest.ownerFirstName data)
    (StoreOwnerRegisterRequest.ownerLastName data)
    STORE_OWNER LOCAL
    User_default_isActive
    false (* isFullyRegistered: false, "Will be true after dashboard
             completion" *)
    None
    (Some (StoreOwnerRegisterRequest.businessName data))
    (Some (StoreOwnerRegisterRequest.businessType data))
    (Some (StoreOwnerRegisterRequest.businessAddress data))
    (StoreOwnerRegisterRequest.countrySpecificFields data)
    (Some (StoreOwnerRegisterRequest.ownerPhone data))
    (Some (StoreOwnerRegisterRequest.ownerDateOfBirth data))
    acceptedTerms acceptedPrivacyPolicy acceptedDataProcessing
    marketingConsent
    (stamp acceptedTerms (now amb))
    (stamp acceptedPrivacyPolicy (now amb))
    (stamp acceptedDataProcessing (now amb))
    (stamp (default false marketingConsent) (now amb))
    (Some (StoreOwnerRegisterRequest.ipAddress data))
    (Some (StoreOwnerRegisterRequest.userAgent data)).

(** The entity [registerStoreOwner] passes to [storeRepository.create];
    [isHoliday], [isActive] and [isLegallyVerified] take the defaults the
    entity declares. *)
Definition newStoreOf (ownerId : Uuid)
  (data : StoreOwnerRegisterRequest.t) : Store.t :=
  Store.mk 0%nat (Some ownerId)
    (StoreOwnerRegisterRequest.storeName data)
    (Some (createSlug (StoreOwnerRegisterRequest.storeName data)))
    None None None None None
    false None true
    (Some (StoreOwnerRegisterRequest.businessName data))
    (Some (StoreOwnerRegisterRequest.businessType data))
    (Some (StoreOwnerRegisterRequest.businessAddress data))
    (StoreOwnerRegisterRequest.countrySpecificFields data)
    None
    (Some initialDocumentVerificationStatus)
    None false None None.

Definition registerStoreOwner (data : StoreOwnerRegisterRequest.t)
  (amb : Ambient) : M AuthResponse :=
  let email := StoreOwnerRegisterRequest.email data in
  let ownerDateOfBirth := StoreOwnerRegisterRequest.ownerDateOfBirth data in
  let ipAddress := StoreOwnerRegisterRequest.ipAddress data in
  let userAgent := StoreOwnerRegisterRequest.userAgent data in
  let* existingUser := userRepository_findOne (byEmail email) in
  match existingUser with
  | Some _ => throw (Error "Email already registered")
  | None =>
      let age := getFullYear (now amb) - getFullYear ownerDateOfBirth in
      if age <? 18
      then throw (Error "You must be at least 18 years old to register")
      else
        let* savedUser :=
          userRepository_insert (newStoreOwner data amb) in
        let* savedStore :=
          storeRepository_save (newStoreOf (User.id savedUser) data) in
        auditService_log USER_REGISTRATION (User.id savedUser)
          (User.id savedUser) ipAddress userAgent;;;
        auditService_log STORE_REGISTRATION (Store.id savedStore)
          (User.id savedUser) ipAddress userAgent;;;
        when (StoreOwnerRegisterRequest.acceptedTerms data)
          (auditService_log (CONSENT_ACCEPTANCE "terms") (User.id savedUser)
             (User.id savedUser) ipAddress userAgent);;;
        when (StoreOwnerRegisterRequest.acceptedPrivacyPolicy data)
          (auditService_log (CONSENT_ACCEPTANCE "privacy")
             (User.id savedUser) (User.id savedUser) ipAddress userAgent);;;
        when (StoreOwnerRegisterRequest.acceptedDataProcessing data)
          (auditService_log (CONSENT_ACCEPTANCE "data_processing")
             (User.id savedUser) (User.id savedUser) ipAddress userAgent);;;
        when (default false (StoreOwnerRegisterRequest.marketingConsent data))
          (auditService_log (CONSENT_ACCEPTANCE "marketing")
             (User.id savedUser) (User.id savedUser) ipAddress userAgent);;;
        let token := generateToken savedUser (now amb) in
        ret (mkAuthResponse token
               (UserView.mk (User.id savedUser) (User.email savedUser)
                  (User.firstName savedUser) (User.lastName savedUser)
                  (User.role savedUser) (User.type savedUser)
                  (User.isActive savedUser) None
                  (Some (User.isFullyRegistered savedUser)))
               (Some (StoreView.mk (Store.id savedStore)
                        (Store.name savedStore) (Store.isActive savedStore)
                        (Some (Store.isLegallyVerified savedStore)))))
  end.

(** The outcome of [validateToken]: the [try] block returns [user || null],
    the [catch] block returns [null] for whatever was thrown. *)
Definition validateToken (token : string) (amb : Ambient)
  : M (option User.t) :=
  match jwt_verify token jwtSecret (now amb) with
  | inr payload => userRepository_findOne (byPayloadActive (userId payload))
  | inl _ => ret None
  end.

(** [new Date(value)] for a [value] that is a string or [undefined]: an
    Invalid Date for [undefined] too. *)
Definition newDate (value : option string) : option Date :=
  value ≫= Date_parse.

(** [data.acceptedCGU ? new Date(data.acceptedCGUAt) : undefined]: [None]
    when the property is left [undefined], [Some None] when it is an Invalid
    Date. *)
Definition acceptedAt (data : OnboardingData.t) : option (option Date) :=
  if OnboardingData.acceptedCGU data
  then Some (newDate (OnboardingData.acceptedCGUAt data))
  else None.

(** What [save] leaves in a timestamp column: the date assigned to the
    property, and the value the column had when the property is
    [undefined], which [save] skips. *)
Definition savedStamp (assigned : option (option Date))
  (column : option Date) : option Date :=
  match assigned with
  | Some (Some d) => Some d
  | _ => column
  end.

(** The row [save] writes for the [user] [completeOnboarding] has assigned
    to: every property it assigns is stored, but for the three timestamps
    when it assigns [undefined] to them. *)
Definition onboard (data : OnboardingData.t) (u : User.t) : User.t :=
  let acceptedCGU := OnboardingData.acceptedCGU data in
  User.mk (User.id u) (User.email u) (User.password u)
    (User.firstName u) (User.lastName u)
    STORE_OWNER (User.type u) (User.isActive u)
    true
    (User.lastLoginAt u) (User.businessName u) (User.businessType u)
    (Some (OnboardingData.storeAddress data))
    (Some (<["siret" := OnboardingData.siret data]>
             (default ∅ (User.countrySpecificFields u))))
    (Some (OnboardingData.phoneNumber data))
    (User.ownerDateOfBirth u)
    acceptedCGU acceptedCGU acceptedCGU
    (User.marketingConsent u)
    (savedStamp (acceptedAt data) (User.termsAcceptedAt u))
    (savedStamp (acceptedAt data) (User.privacyPolicyAcceptedAt u))
    (savedStamp (acceptedAt data) (User.dataProcessingAcceptedAt u))
    (User.marketingConsentGivenAt u)
    (User.registrationIpAddress u) (User.registrationUserAgent u).

(** The entity [completeOnboarding] passes to [storeRepository.create]. *)
Definition onboardedStoreOf (userId : Uuid) (data : OnboardingData.t)
  : Store.t :=
  let a := OnboardingData.storeAddress data in
  Store.mk 0%nat (Some userId)
    (OnboardingData.storeName data)
    (Some (createSlug (OnboardingData.storeName data)))
    None
    (Some (street a ++ ", " ++ postalCode a ++ " " ++ city a))
    (Some (OnboardingData.phoneNumber data))
    None None
    false None true
    None None
    (Some a)
    (Some {[ "siret" := OnboardingData.siret data ]})
    None
    (Some initialDocumentVerificationStatus)
    None false None None.

(** [completeOnboarding]. PostgreSQL refuses a timestamp that is an Invalid
    Date, and [userRepository.save] then throws with nothing written. The
    fields the method returns of [savedUser] are fields of the stored row. *)
Definition completeOnboarding (userId : Uuid) (data : OnboardingData.t)
  (amb : Ambient) : M (UserView.t * StoreView.t) :=
  let* found := userRepository_findOne (byId userId) in
  match found with
  | None => throw (Error "User not found")
  | Some user =>
      match acceptedAt data with
      | Some None =>
          throw (QueryFailedError "invalid input syntax for type timestamp")
      | _ =>
          let* savedUser := userRepository_save (onboard data user) in
          let* savedStore :=
            storeRepository_save (onboardedStoreOf userId data) in
          ret (UserView.mk (User.id savedUser) (User.email savedUser)
                 (User.firstName savedUser) (User.lastName savedUser)
                 (User.role savedUser) (User.type savedUser)
                 (User.isActive savedUser) None
                 (Some (User.isFullyRegistered savedUser)),
               StoreView.mk (Store.id savedStore) (Store.name savedStore)
                 (Store.isActive savedStore) None)
      end
  end.

(** The result of [checkStoreNameAvailability]: [{ available, slug }]. *)
Record Availability := mkAvailability { available : bool; slugOf : string }.

Definition checkStoreNameAvailability (storeName : string)
  : M Availability :=
  let slug := createSlug storeName in
  let* existingStore := storeRepository_findOne (bySlug slug) in
  ret (mkAvailability
         (match existingStore with Some _ => false | None => true end) slug).

End AuthService.

(** ** The HTTP handlers of [auth.controller.ts] *)

(** One entry of an [errors] array. *)
Record FieldError := mkFieldError { msg : string; param : string }.

(** A JSON response body: [message], and [errors] or the spread service
    result when the handler adds them. *)
Record ResponseBody := mkBody {
  bodyMessage : string;
  bodyErrors : option (list FieldError);
  bodyResult : option AuthResponse
}.

Record Response := mkResponse { status : Z; body : ResponseBody }.

Definition json (code : Z) (m : string) : Response :=
  mkResponse code (mkBody m None None).

Definition validationFailed (errors : list FieldError) : Response :=
  mkResponse 400 (mkBody "Validation failed" (Some errors) None).

(** The ASCII characters of the classes the handlers test: white space,
    [\d] and [[A-Z]]. *)
Definition isSpace (c : ascii) : bool :=
  let n := nat_of_ascii c in
  ((9 <=? n) && (n <=? 13) || (n =? 32))%nat.

Definition isDigit (c : ascii) : bool :=
  let n := nat_of_ascii c in ((48 <=? n) && (n <=? 57))%nat.

Definition isUpper (c : ascii) : bool :=
  let n := nat_of_ascii c in ((65 <=? n) && (n <=? 90))%nat.

(** The white space of [\s] and of [trim] beyond ASCII, each character as
    the bytes of its UTF-8 encoding: U+00A0, U+1680, U+2000 to U+200A,
    U+2028, U+2029, U+202F, U+205F, U+3000 and U+FEFF. *)
Definition unicodeSpaces : list (list nat) :=
  ([[194; 160]; [225; 154; 128]]
   ++ map (fun k => [226; 128; k]) (seq 128 11)
   ++ [[226; 128; 168]; [226; 128; 169]; [226; 128; 175]; [226; 129; 159];
       [227; 128; 128]; [239; 187; 191]])%nat%list.

Fixpoint startsWith (w : list nat) (s : string) : bool :=
  match w, s with
  | [], _ => true
  | b :: w', String c s' => (b =? nat_of_ascii c)%nat && startsWith w' s'
  | _ :: _, EmptyString => false
  end.

(** The number of bytes of the white-space character [s] starts with, the
    characters beyond ASCII being those of [spaces]; 0 when it starts with
    none. *)
Definition spaceBytes (spaces : list (list nat)) (s : string) : nat :=
  match s with
  | String c _ =>
      if isSpace c then 1%nat
      else
        match find (fun w => startsWith w s) spaces with
        | Some w => List.length w
        | None => 0%nat
        end
  | EmptyString => 0%nat
  end.

Definition whiteSpaceAt (s : string) : nat := spaceBytes unicodeSpaces s.

(** [dropSpaces spaces skip s] drops the next [skip] bytes of [s], then the
    white-space characters [s] goes on with. *)
Fixpoint dropSpaces (spaces : list (list nat)) (skip : nat) (s : string)
  : string :=
  match s with
  | String c s' =>
      match skip with
      | S k => dropSpaces spaces k s'
      | O =>
          match spaceBytes spaces s with
          | S k => dropSpaces spaces k s'
          | O => s
          end
      end
  | EmptyString => EmptyString
  end.

Fixpoint reverseOnto (s acc : string) : string :=
  match s with
  | String c s' => reverseOnto s' (String c acc)
  | EmptyString => acc
  end.

Definition reverse (s : string) : string := reverseOnto s EmptyString.

(** [s.trimStart()], on a string held as its UTF-8 bytes. *)
Definition trimStart (s : string) : string := dropSpaces unicodeSpaces 0 s.

(** [s.trimEnd()]: the white space at the end of [s] is the white space its
    bytes, read backwards, start with. *)
Definition trimEnd (s : string) : string :=
  reverse (dropSpaces (map (@rev nat) unicodeSpaces) 0 (reverse s)).

(** [s.trim()]. *)
Definition trim (s : string) : string := trimEnd (trimStart s).

Fixpoint allChars (p : ascii → bool) (s : string) : bool :=
  match s with
  | String c s' => p c && allChars p s'
  | EmptyString => true
  end.

(** [!s || s.trim().length === 0]. *)
Definition blank (s : string) : bool :=
  String.eqb s EmptyString || (String.length (trim s) =? 0)%nat.

(** [/^\d{n}$/.test(s)]. *)
Definition digits (n : nat) (s : string) : bool :=
  (String.length s =? n)%nat && allChars isDigit s.

(** [/^[A-Z]{2}$/.test(s)]. *)
Definition twoUpper (s : string) : bool :=
  (String.length s =? 2)%nat && allChars isUpper s.

(** [/^\d{2}-\d{7}$/.test(s)]. *)
Definition einShaped (s : string) : bool :=
  digits 2 (String.substring 0 2 s) && String.eqb (String.substring 2 1 s) "-"
  && digits 7 (String.substring 3 7 s) && (String.length s =? 10)%nat.

Definition frenchBusinessTypes : list string :=
  ["auto_entrepreneur"; "eurl"; "sarl"; "sas"; "sasu"; "sa"].

(** The checks of [storeOwnerRegister] on [countrySpecificFields], in
    order; [None] when all of them pass. *)
Definition countryFieldsError (f : CountryFields) : option FieldError :=
  if truthy (f !! "siren") && negb (digits 9 (default EmptyString (f !! "siren")))
  then Some (mkFieldError "SIREN must be 9 digits"
               "countrySpecificFields.siren")
  else if truthy (f !! "siret")
          && negb (digits 14 (default EmptyString (f !! "siret")))
  then Some (mkFieldError "SIRET must be 14 digits"
               "countrySpecificFields.siret")
  else if truthy (f !! "frenchBusinessType")
          && negb (existsb
                     (String.eqb (default EmptyString
                                    (f !! "frenchBusinessType")))
                     frenchBusinessTypes)
  then Some (mkFieldError "Invalid French business type"
               "countrySpecificFields.frenchBusinessType")
  else if truthy (f !! "ein")
          && negb (einShaped (default EmptyString (f !! "ein")))
  then Some (mkFieldError "EIN must be in format XX-XXXXXXX"
               "countrySpecificFields.ein")
  else None.

Section AuthController.
Context `{Runtime}.

(** [customerLogin]; [errors] is what [validationResult(req)] holds. *)
Definition customerLogin (errors : list FieldError)
  (reqBody : LoginRequest.t) (amb : Ambient) (db : Db) : Response * Db :=
  match errors with
  | _ :: _ => (validationFailed errors, db)
  | [] =>
      match login reqBody amb db with
      | (inr result, db') =>
          (mkResponse 200 (mkBody "Login successful" None (Some result)), db')
      | (inl error, db') => (json 401 (message error), db')
      end
  end.

(** [storeOwnerLogin]: the same handler under another route. *)
Definition storeOwnerLogin (errors : list FieldError)
  (reqBody : LoginRequest.t) (amb : Ambient) (db : Db) : Response * Db :=
  match errors with
  | _ :: _ => (validationFailed errors, db)
  | [] =>
      match login reqBody amb db with
      | (inr result, db') =>
          (mkResponse 200 (mkBody "Login successful" None (Some result)), db')
      | (inl error, db') => (json 401 (message error), db')
      end
  end.

(** The status of the [catch] block of the two registration handlers. *)
Definition registrationFailure (error : Exn) : Response :=
  json (if String.eqb (message error) "Email already registered"
        then 409 else 500)
       (message error).

Definition customerRegister (errors : list FieldError)
  (reqBody : CustomerRegisterRequest.t) (amb : Ambient) (db : Db)
  : Response * Db :=
  match errors with
  | _ :: _ => (validationFailed errors, db)
  | [] =>
      match registerCustomer reqBody amb db with
      | (inr result, db') =>
          (mkResponse 201
             (mkBody "Registration successful" None (Some result)), db')
      | (inl error, db') => (registrationFailure error, db')
      end
  end.

(** The checks [storeOwnerRegister] makes itself before it calls the
    service, in order; [None] when all of them pass. *)
Definition storeOwnerChecks (b : StoreOwnerRegisterRequest.t) (amb : Ambient)
  : option FieldError :=
  let a := StoreOwnerRegisterRequest.businessAddress b in
  if blank (street a)
  then Some (mkFieldError "Street address is required"
               "businessAddress.street")
  else if blank (city a)
  then Some (mkFieldError "City is required" "businessAddress.city")
  else if blank (postalCode a)
  then Some (mkFieldError "Postal code is required"
               "businessAddress.postalCode")
  else if String.eqb (country a) EmptyString
          || negb (String.length (country a) =? 2)%nat
          || negb (twoUpper (country a))
  then Some (mkFieldError "Country must be a valid 2-letter ISO code"
               "businessAddress.country")
  else
    let birthYear :=
      getFullYear (StoreOwnerRegisterRequest.ownerDateOfBirth b) in
    let currentYear := getFullYear (now amb) in
    let age := currentYear - birthYear in
    if age <? 18
    then Some (mkFieldError "Must be 18 or older" "ownerDateOfBirth")
    else if negb (StoreOwnerRegisterRequest.acceptedTerms b)
    then Some (mkFieldError "Terms must be accepted" "acceptedTerms")
    else if negb (StoreOwnerRegisterRequest.acceptedPrivacyPolicy b)
    then Some (mkFieldError "Privacy policy must be accepted"
                 "acceptedPrivacyPolicy")
    else if negb (StoreOwnerRegisterRequest.acceptedDataProcessing b)
    then Some (mkFieldError "Data processing consent must be accepted"
                 "acceptedDataProcessing")
    else
      match StoreOwnerRegisterRequest.countrySpecificFields b with
      | Some f => countryFieldsError f
      | None => None
      end.

(** [{ ...req.body, ipAddress: req.ip || "unknown",
       userAgent: req.get("User-Agent") || "unknown" }]. *)
Definition registrationData (b : StoreOwnerRegisterRequest.t)
  (ip ua : option string) : StoreOwnerRegisterRequest.t :=
  let 'StoreOwnerRegisterRequest.mk e pw sn bn bt ba fn ln ph dob
        at_ ap ad mc csf _ _ := b in
  StoreOwnerRegisterRequest.mk e pw sn bn bt ba fn ln ph dob
    at_ ap ad mc csf
    (if truthy ip then default EmptyString ip else "unknown")
    (if truthy ua then default EmptyString ua else "unknown").

Definition storeOwnerRegister (errors : list FieldError)
  (reqBody : StoreOwnerRegisterRequest.t) (ip ua : option string)
  (amb : Ambient) (db : Db) : Response * Db :=
  match errors with
  | _ :: _ => (validationFailed errors, db)
  | [] =>
      match storeOwnerChecks reqBody amb with
      | Some e => (validationFailed [e], db)
      | None =>
          match registerStoreOwner (registrationData reqBody ip ua) amb db with
          | (inr result, db') =>
              (mkResponse 201
                 (mkBody "Registration successful" None (Some result)), db')
          | (inl error, db') => (registrationFailure error, db')
          end
      end
  end.

(** ** [authMiddleware] *)

(** What the middleware does with a request: it answers it, or it attaches
    the principal and calls [next()]. *)
Inductive Guarded :=
  | Answered (r : Response)
  | Next (reqUser : User.t) (reqUserId : Uuid).

(** [error instanceof jwt.JsonWebTokenError]: true of the class and of its
    two subclasses. *)
Definition instanceof_JsonWebTokenError (e : Exn) : bool :=
  match e with JwtThrown _ => true | _ => false end.

(** [error instanceof jwt.TokenExpiredError]. *)
Definition instanceof_TokenExpiredError (e : Exn) : bool :=
  match e with JwtThrown TokenExpiredError => true | _ => false end.

Definition authMiddleware (authorization : option string) (amb : Ambient)
  (db : Db) : Guarded :=
  match authorization with
  | Some authHeader =>
      if negb (truthy authorization) || negb (String.prefix "Bearer " authHeader)
      then Answered (json 401 "Unauthorized - No token provided")
      else
        let token :=
          String.substring 7 (String.length authHeader - 7)%nat authHeader in
        match jwt_verify token jwtSecret (now amb) with
        | inr payload =>
            match find (byPayloadActive (userId payload)) (users db) with
            | Some user => Next user (User.id user)
            | None => Answered (json 401 "Unauthorized - Invalid token")
            end
        | inl e =>
            let error := JwtThrown e in
            if instanceof_JsonWebTokenError error
            then Answered (json 401 "Unauthorized - Invalid token")
            else if instanceof_TokenExpiredError error
            then Answered (json 401 "Unauthorized - Token expired")
            else Answered (json 500 "Internal server error")
        end
  | None => Answered (json 401 "Unauthorized - No token provided")
  end.

End AuthController.

(** ** The other handlers of [auth.controller.ts] *)

(** The status and the JSON body of the handlers that answer
    [{ message, data }], with the [error] and [errors] some of them add. *)
Record Reply (A : Type) := mkReply {
  replyStatus : Z;
  replyMessage : string;
  replyData : option A;
  replyError : option string;
  replyErrors : option (list FieldError)
}.
Arguments mkReply {A} _ _ _ _ _.
Arguments replyStatus {A} _.
Arguments replyMessage {A} _.
Arguments replyData {A} _.
Arguments replyError {A} _.
Arguments replyErrors {A} _.

(** [res.status(code).json({ message })]. *)
Definition say {A} (code : Z) (m : string) : Reply A :=
  mkReply code m None None None.

(** [res.json({ message, data })]. *)
Definition send {A} (m : string) (data : A) : Reply A :=
  mkReply 200 m (Some data) None None.

(** [req.body] of [POST /complete-onboarding]: the four values the handler
    tests for presence are optional, and so is [acceptedCGUAt], which it
    does not test. *)
Module OnboardingBody.
Record t := mk {
  phoneNumber : option string;
  storeName : option string;
  siret : option string;
  storeAddress : option Address;
  billingAddress : option Address;
  acceptedCGU : bool;
  acceptedCGUAt : option string
}.
End OnboardingBody.

(** The [data] of [GET /me]. *)
Module CurrentUser.
Record t := mk {
  id : Uuid;
  email : string;
  firstName : string;
  lastName : string;
  role : UserRole;
  type : UserType;
  isActive : bool;
  isFullyRegistered : bool;
  siret : option string
}.
End CurrentUser.

Section AuthControllerRest.
Context `{Runtime}.

(** [completeOnboarding] of the controller; [userId] is [req.userId]. *)
Definition completeOnboardingHandler (userId : option Uuid)
  (b : OnboardingBody.t) (amb : Ambient) (db : Db)
  : Reply (UserView.t * StoreView.t) * Db :=
  match userId with
  | None => (say 401 "Unauthorized", db)
  | Some userId =>
      match OnboardingBody.storeAddress b with
      | Some storeAddress =>
          if negb (truthy (OnboardingBody.phoneNumber b))
             || negb (truthy (OnboardingBody.storeName b))
             || negb (truthy (OnboardingBody.siret b))
             || negb (OnboardingBody.acceptedCGU b)
          then (say 400 "Missing required fields", db)
          else
            let data :=
              OnboardingData.mk
                (default EmptyString (OnboardingBody.phoneNumber b))
                (default EmptyString (OnboardingBody.storeName b))
                (default EmptyString (OnboardingBody.siret b))
                storeAddress
                (default storeAddress (OnboardingBody.billingAddress b))
                (OnboardingBody.acceptedCGU b)
                (OnboardingBody.acceptedCGUAt b) in
            match completeOnboarding userId data amb db with
            | (inr result, db') =>
                (send "Onboarding completed successfully" result, db')
            | (inl error, db') => (say 500 (message error), db')
            end
      | None => (say 400 "Missing required fields", db)
      end
  end.

(** [getCurrentUser]; [userId] and [user] are [req.userId] and [req.user].
    Reading a field of an undefined [req.user] throws, and the [catch]
    block answers 500. *)
Definition getCurrentUser (userId : option Uuid) (user : option User.t)
  : Reply CurrentUser.t :=
  match userId with
  | None => say 401 "Unauthorized"
  | Some _ =>
      match user with
      | Some u =>
          send "User retrieved successfully"
            (CurrentUser.mk (User.id u) (User.email u) (User.firstName u)
               (User.lastName u) (User.role u) (User.type u)
               (User.isActive u) (User.isFullyRegistered u)
               (User.countrySpecificFields u ≫= (.!! "siret")))
      | None =>
          say 500 "Cannot read properties of undefined (reading 'id')"
      end
  end.

(** [checkStoreNameAvailability] of the controller; [storeName] is
    [req.query.storeName] when it is a string. *)
Definition checkStoreNameHandler (storeName : option string) (db : Db)
  : Reply Availability * Db :=
  match storeName with
  | Some name =>
      if negb (truthy storeName)
      then (say 400 "Store name is required", db)
      else
        match checkStoreNameAvailability name db with
        | (inr result, db') =>
            (send "Store name availability checked" result, db')
        | (inl error, db') => (say 500 (message error), db')
        end
  | None => (say 400 "Store name is required", db)
  end.

(** The answer of the guard as a reply of the route it protects. *)
Definition refused {A} (r : Response) : Reply A :=
  say (status r) (bodyMessage (body r)).

(** [router.get("/me", authMiddleware, getCurrentUser)]. *)
Definition routeMe (authorization : option string) (amb : Ambient) (db : Db)
  : Reply CurrentUser.t :=
  match authMiddleware authorization amb db with
  | Answered r => refused r
  | Next reqUser reqUserId => getCurrentUser (Some reqUserId) (Some reqUser)
  end.

(** [router.post("/complete-onboarding", authMiddleware,
    completeOnboarding)]. *)
Definition routeCompleteOnboarding (authorization : option string)
  (b : OnboardingBody.t) (amb : Ambient) (db : Db)
  : Reply (UserView.t * StoreView.t) * Db :=
  match authMiddleware authorization amb db with
  | Answered r => (refused r, db)
  | Next _ reqUserId => completeOnboardingHandler (Some reqUserId) b amb db
  end.

End AuthControllerRest.

(** ** [StoresService]

    The [openingHours] column, which the [Store] rows above do not carry, is
    left out of the requests and of the selections. A request has the keys
    its interface declares and no other: the handlers pass on [req.body] as
    it comes, and what [Object.assign] does with a key the interface does
    not declare is not modelled. *)

Module CreateStoreRequest.
Record t := mk {
  name : string;
  description : option string;
  address : option string;
  phone : option string;
  email : option string;
  timezone : option string;
  ownerId : Uuid
}.
End CreateStoreRequest.

(** Every field of an [UpdateStoreRequest] is optional. *)
Module UpdateStoreRequest.
Record t := mk {
  name : option string;
  description : option string;
  address : option string;
  phone : option string;
  email : option string;
  timezone : option string
}.
End UpdateStoreRequest.

(** The columns [getStores] and [getStoreById] select. *)
Module StoreCard.
Record t := mk {
  id : Uuid;
  name : string;
  description : option string;
  address : option string;
  phone : option string;
  email : option string;
  timezone : option string;
  isHoliday : bool;
  holidayMessage : option string
}.
End StoreCard.

(** The columns [getStoreBySlug] selects. *)
Module StorePage.
Record t := mk {
  id : Uuid;
  name : string;
  slug : option string;
  description : option string;
  address : option string;
  phone : option string;
  email : option string;
  timezone : option string;
  isHoliday : bool;
  holidayMessage : option string;
  isActive : bool
}.
End StorePage.

Definition cardOf (s : Store.t) : StoreCard.t :=
  StoreCard.mk (Store.id s) (Store.name s) (Store.description s)
    (Store.address s) (Store.phone s) (Store.email s) (Store.timezone s)
    (Store.isHoliday s) (Store.holidayMessage s).

Definition pageOf (s : Store.t) : StorePage.t :=
  StorePage.mk (Store.id s) (Store.name s) (Store.slug s)
    (Store.description s) (Store.address s) (Store.phone s) (Store.email s)
    (Store.timezone s) (Store.isHoliday s) (Store.holidayMessage s)
    (Store.isActive s).

(** [user.isFullyRegistered = flag]. *)
Definition User_withFullyRegistered (flag : bool) (u : User.t) : User.t :=
  let 'User.mk i e pw fn ln r ty act _ ll bn bt ba csf ph dob
        at_ ap ad mc tat pat dat mat ip ua := u in
  User.mk i e pw fn ln r ty act flag ll bn bt ba csf ph dob
        at_ ap ad mc tat pat dat mat ip ua.

(** [store.isHoliday = flag; store.holidayMessage = msg]. *)
Definition Store_withHoliday (flag : bool) (msg : option string)
  (s : Store.t) : Store.t :=
  let 'Store.mk i o n sl de ad ph em tz _ _ act lbn lbt la csf bd dvs
        vn lv vat vby := s in
  Store.mk i o n sl de ad ph em tz flag msg act lbn lbt la csf bd dvs
        vn lv vat vby.

(** [store.isActive = flag]. *)
Definition Store_withActive (flag : bool) (s : Store.t) : Store.t :=
  let 'Store.mk i o n sl de ad ph em tz hol hm _ lbn lbt la csf bd dvs
        vn lv vat vby := s in
  Store.mk i o n sl de ad ph em tz hol hm flag lbn lbt la csf bd dvs
        vn lv vat vby.

(** One property of [Object.assign(store, request)]: a key the request
    has overwrites, a key it lacks leaves the column as it is. *)
Definition assigned {A} (requested : option A) (current : A) : A :=
  default current requested.

Definition assignedOpt {A} (requested : option A) (current : option A)
  : option A :=
  match requested with Some v => Some v | None => current end.

(** [Object.assign(store, request)]. *)
Definition Store_assign (r : UpdateStoreRequest.t) (s : Store.t) : Store.t :=
  let 'Store.mk i o n sl de ad ph em tz hol hm act lbn lbt la csf bd dvs
        vn lv vat vby := s in
  Store.mk i o
    (assigned (UpdateStoreRequest.name r) n)
    sl
    (assignedOpt (UpdateStoreRequest.description r) de)
    (assignedOpt (UpdateStoreRequest.address r) ad)
    (assignedOpt (UpdateStoreRequest.phone r) ph)
    (assignedOpt (UpdateStoreRequest.email r) em)
    (assignedOpt (UpdateStoreRequest.timezone r) tz)
    hol hm act lbn lbt la csf bd dvs vn lv vat vby.

(** [storeRepository.save(store)] for a [store] that [findOne] loaded. *)
Definition storeRepository_update (s : Store.t) : M Store.t :=
  fun db =>
    (inr s,
     mkDb (users db)
          (map (fun x => if Nat.eqb (Store.id x) (Store.id s) then s else x)
               (stores db))
          (auditLogs db) (nextId db)).

(** [startTransaction(); try { body; commitTransaction() } catch (error)
    { rollbackTransaction(); throw error }]: the writes of a body that
    throws are undone. *)
Definition transaction {A} (body : M A) : M A :=
  fun db =>
    match body db with
    | (inr a, db') => (inr a, db')
    | (inl e, _) => (inl e, db)
    end.

(** [where: { id, isActive: true }] on stores. *)
Definition storeByIdActive (i : Uuid) (s : Store.t) : bool :=
  Nat.eqb (Store.id s) i && Store.isActive s.

(** The entity [createStore] passes to [storeRepository.create]:
    [{ ...request, isActive: true }]. *)
Definition requestedStore (request : CreateStoreRequest.t) : Store.t :=
  Store.mk 0%nat (Some (CreateStoreRequest.ownerId request))
    (CreateStoreRequest.name request)
    None
    (CreateStoreRequest.description request)
    (CreateStoreRequest.address request)
    (CreateStoreRequest.phone request)
    (CreateStoreRequest.email request)
    (CreateStoreRequest.timezone request)
    false None true
    None None None None None None
    None false None None.

(** [createStore]. The foreign key from [ownerId] to the [users] table,
    which would refuse the insert of a store whose owner is missing, is not
    modelled: the lookup that follows throws for the same requests. *)
Definition createStore (request : CreateStoreRequest.t)
  : M (Store.t * User.t) :=
  transaction
    (let* savedStore := storeRepository_save (requestedStore request) in
     let* found :=
       userRepository_findOne
         (fun u => Nat.eqb (User.id u) (CreateStoreRequest.ownerId request)) in
     match found with
     | None => throw (Error "User not found")
     | Some user =>
         let user := User_withFullyRegistered true user in
         let* _ := userRepository_save user in
         ret (savedStore, user)
     end).

Definition getStores : M (list StoreCard.t) :=
  fun db => (inr (map cardOf (List.filter Store.isActive (stores db))), db).

Definition getStoreById (id : Uuid) : M (option StoreCard.t) :=
  let* found := storeRepository_findOne (storeByIdActive id) in
  ret (cardOf <$> found).

Definition getStoreBySlug (slug : string) : M (option StorePage.t) :=
  let* found := storeRepository_findOne (bySlug slug) in
  ret (pageOf <$> found).

Definition updateStore (id : Uuid) (request : UpdateStoreRequest.t)
  : M Store.t :=
  let* found := storeRepository_findOne (storeByIdActive id) in
  match found with
  | None => throw (Error "Store not found")
  | Some store => storeRepository_update (Store_assign request store)
  end.

(** [toggleHolidayMode]; [holidayMessage] is [None] when the caller
    passes [undefined]. [save] writes the properties of the entity that are
    not [undefined] and leaves the columns of the others as they are: the
    row keeps its message where the entity is given none, while the entity
    returned is the one the method built. *)
Definition toggleHolidayMode (id : Uuid) (holidayMessage : option string)
  : M Store.t :=
  let* found := storeRepository_findOne (storeByIdActive id) in
  match found with
  | None => throw (Error "Store not found")
  | Some store =>
      let isHoliday := negb (Store.isHoliday store) in
      let message := if isHoliday then holidayMessage else None in
      let* _ :=
        storeRepository_update
          (Store_withHoliday isHoliday
             (assignedOpt message (Store.holidayMessage store)) store) in
      ret (Store_withHoliday isHoliday message store)
  end.

Definition deleteStore (id : Uuid) : M unit :=
  let* found := storeRepository_findOne (storeByIdActive id) in
  match found with
  | None => throw (Error "Store not found")
  | Some store =>
      let* _ := storeRepository_update (Store_withActive false store) in
      ret tt
  end.

(** ** The handlers of [stores.controller.ts] *)

(** The [catch] block of [updateStore], [toggleHolidayMode] and
    [deleteStore]: 404 for "Store not found", 500 with the message under
    [error] for anything else. *)
Definition storeFailure {A} (failed : string) (error : Exn) : Reply A :=
  if String.eqb (message error) "Store not found"
  then say 404 "Store not found"
  else mkReply 500 failed None (Some (message error)) None.

(** [req.params.id], which no handler validates: a UUID, or another string,
    which PostgreSQL refuses where a key is expected. *)
Inductive Key :=
  | IsUuid (id : Uuid)
  | NotUuid (text : string).

(** A query of the service by the key of the request: for a string that is
    no UUID the query fails and the method throws, with nothing written. *)
Definition withKey {A} (id : Key) (query : Uuid → M A) : M A :=
  match id with
  | IsUuid i => query i
  | NotUuid text =>
      throw (QueryFailedError "invalid input syntax for type uuid")
  end.

Definition getStoreByIdHandler (id : Key) (db : Db)
  : Reply StoreCard.t * Db :=
  match withKey id getStoreById db with
  | (inr (Some store), db') => (send "Store retrieved successfully" store, db')
  | (inr None, db') => (say 404 "Store not found", db')
  | (inl error, db') =>
      (mkReply 500 "Failed to retrieve store" None (Some (message error))
         None, db')
  end.

Definition getStoreBySlugHandler (slug : string) (db : Db)
  : Reply StorePage.t * Db :=
  match getStoreBySlug slug db with
  | (inr (Some store), db') => (send "Store retrieved successfully" store, db')
  | (inr None, db') => (say 404 "Store not found", db')
  | (inl error, db') =>
      (mkReply 500 "Failed to retrieve store" None (Some (message error))
         None, db')
  end.

(** [createStore] of the controller; [errors] is what
    [validationResult(req)] holds. *)
Definition createStoreHandler (errors : list FieldError)
  (request : CreateStoreRequest.t) (db : Db)
  : Reply (Store.t * User.t) * Db :=
  match errors with
  | _ :: _ => (mkReply 400 "Validation failed" None None (Some errors), db)
  | [] =>
      match createStore request db with
      | (inr result, db') =>
          (mkReply 201 "Store created successfully" (Some result) None None,
           db')
      | (inl error, db') =>
          (mkReply 500 "Failed to create store" None (Some (message error))
             None, db')
      end
  end.

Definition updateStoreHandler (errors : list FieldError) (id : Key)
  (request : UpdateStoreRequest.t) (db : Db) : Reply Store.t * Db :=
  match errors with
  | _ :: _ => (mkReply 400 "Validation failed" None None (Some errors), db)
  | [] =>
      match withKey id (fun i => updateStore i request) db with
      | (inr store, db') => (send "Store updated successfully" store, db')
      | (inl error, db') => (storeFailure "Failed to update store" error, db')
      end
  end.

(** The [data] of a holiday toggle: [{ isHoliday, holidayMessage }]. *)
Definition toggleHolidayModeHandler (id : Key)
  (holidayMessage : option string) (db : Db)
  : Reply (bool * option string) * Db :=
  match withKey id (fun i => toggleHolidayMode i holidayMessage) db with
  | (inr store, db') =>
      (send
         ("Holiday mode "
          ++ (if Store.isHoliday store then "enabled" else "disabled")
          ++ " successfully")
         (Store.isHoliday store, Store.holidayMessage store), db')
  | (inl error, db') =>
      (storeFailure "Failed to toggle holiday mode" error, db')
  end.

Definition deleteStoreHandler (id : Key) (db : Db) : Reply unit * Db :=
  match withKey id deleteStore db with
  | (inr _, db') => (say 200 "Store deleted successfully", db')
  | (inl error, db') => (storeFailure "Failed to delete store" error, db')
  end.

(** ** [InseeService] *)

(** The parts of an INSEE answer the service reads. *)
Record UniteLegale := mkUniteLegale {
  denominationUniteLegale : option string;
  nomUniteLegale : option string;
  prenomUsuelUniteLegale : option string
}.

Record AdresseEtablissement := mkAdresse {
  numeroVoieEtablissement : option string;
  typeVoieEtablissement : option string;
  libelleVoieEtablissement : option string;
  codePostalEtablissement : option string;
  libelleCommuneEtablissement : option string
}.

(** [periodesEtablissement] is kept as the list of the
    [etatAdministratifEtablissement] of its periods. *)
Record InseeEstablishment := mkEstablishment {
  uniteLegale : UniteLegale;
  adresseEtablissement : AdresseEtablissement;
  periodesEtablissement : option (list string)
}.

Record BusinessInfo := mkBusinessInfo {
  businessInfoName : string;
  businessInfoStreet : string;
  businessInfoPostalCode : string;
  businessInfoCity : string;
  businessInfoIsActive : bool
}.

(** What [axios.get] does: it resolves with the establishment, or rejects
    with an error whose [response.status] may be there. *)
Inductive AxiosResult :=
  | Resolved (etablissement : InseeEstablishment)
  | Rejected (responseStatus : option Z).

(** The two fields the constructor reads from the environment. *)
Record InseeService := mkInseeService { apiUrl : string; apiKey : string }.

(** [parts.filter(Boolean)]. *)
Definition filterTruthy (parts : list (option string)) : list string :=
  omap (fun p => if truthy p then p else None) parts.

(** [parts.join(separator)]. *)
Fixpoint join (separator : string) (parts : list string) : string :=
  match parts with
  | [] => EmptyString
  | [p] => p
  | p :: rest => p ++ separator ++ join separator rest
  end.

(** [removeSpacesFrom skip s] drops the next [skip] bytes of [s], then
    every white-space character of what follows. *)
Fixpoint removeSpacesFrom (skip : nat) (s : string) : string :=
  match s with
  | String c s' =>
      match skip with
      | S k => removeSpacesFrom k s'
      | O =>
          match whiteSpaceAt s with
          | S k => removeSpacesFrom k s'
          | O => String c (removeSpacesFrom 0 s')
          end
      end
  | EmptyString => EmptyString
  end.

(** [siret.replace(/\s/g, "")], on a string held as its UTF-8 bytes. *)
Definition removeSpaces (s : string) : string := removeSpacesFrom 0 s.

(** The [BusinessInfo] built from an establishment. *)
Definition businessInfoOf (e : InseeEstablishment) : BusinessInfo :=
  let isActive :=
    match periodesEtablissement e with
    | Some (etat :: _) => String.eqb etat "A"
    | _ => false
    end in
  let denomination :=
    if truthy (denominationUniteLegale (uniteLegale e))
    then default EmptyString (denominationUniteLegale (uniteLegale e))
    else EmptyString in
  let businessName :=
    if negb (truthy (Some denomination))
       && truthy (nomUniteLegale (uniteLegale e))
    then
      let nom := default EmptyString (nomUniteLegale (uniteLegale e)) in
      let prenom :=
        if truthy (prenomUsuelUniteLegale (uniteLegale e))
        then default EmptyString (prenomUsuelUniteLegale (uniteLegale e))
        else EmptyString in
      trim (prenom ++ " " ++ nom)
    else denomination in
  let addr := adresseEtablissement e in
  let street :=
    join " "
      (filterTruthy [numeroVoieEtablissement addr; typeVoieEtablissement addr;
                     libelleVoieEtablissement addr]) in
  mkBusinessInfo businessName street
    (if truthy (codePostalEtablissement addr)
     then default EmptyString (codePostalEtablissement addr)
     else EmptyString)
    (if truthy (libelleCommuneEtablissement addr)
     then default EmptyString (libelleCommuneEtablissement addr)
     else EmptyString)
    isActive.

(** What the [try] block of [fetchSiretData] ends with: the result, an
    [Error] of its own, or the rejection of [axios.get]. [get] is called
    with the address and with the key it sends as a header. *)
Definition fetchSiretAttempt (svc : InseeService)
  (get : string → string → AxiosResult) (siret : string)
  : (Exn + option Z) + BusinessInfo :=
  let cleanSiret := removeSpaces siret in
  if negb (digits 14 cleanSiret)
  then inl (inl (Error "SIRET invalide"))
  else if negb (truthy (Some (apiKey svc)))
  then inl (inl (Error "INSEE API key not configured"))
  else
    match get (apiUrl svc ++ "/siret/" ++ cleanSiret) (apiKey svc) with
    | Resolved etablissement => inr (businessInfoOf etablissement)
    | Rejected st => inl (inr st)
    end.

(** [fetchSiretData]: the [catch] block reads [error.response?.status],
    which only a rejection of [axios.get] can have. *)
Definition fetchSiretData (svc : InseeService)
  (get : string → string → AxiosResult) (siret : string)
  : Exn + BusinessInfo :=
  match fetchSiretAttempt svc get siret with
  | inr info => inr info
  | inl error =>
      match error with
      | inr (Some 404) => inl (Error "SIRET non trouvé")
      | _ => inl (Error "Erreur lors de la récupération des données")
      end
  end.


(** ** Calls and histories *)

(** A registration request of either kind. *)
Inductive Registration :=
  | AsCustomer (data : CustomerRegisterRequest.t)
  | AsStoreOwner (data : StoreOwnerRegisterRequest.t).

Definition registrationEmail (r : Registration) : string :=
  match r with
  | AsCustomer d => CustomerRegisterRequest.email d
  | AsStoreOwner d => StoreOwnerRegisterRequest.email d
  end.

(** One call of a public method of [AuthService]. *)
Inductive Call :=
  | CallLogin (credentials : LoginRequest.t)
  | CallRegister (r : Registration)
  | CallValidateToken (token : string)
  | CallCompleteOnboarding (userId : Uuid) (data : OnboardingData.t)
  | CallCheckStoreName (storeName : string).

(** The six document kinds, all pending, and nothing else. *)
Definition allPending (s : Store.t) : Prop :=
  ∃ m : gmap string DocStatus,
    Store.documentVerificationStatus s = Some m
    ∧ dom m = documentKinds
    ∧ (∀ k, k ∈ documentKinds → m !! k = Some pending)
    ∧ size m = 6%nat.

(** The rows after the [save] of a loaded entity [u']. *)
Definition saved (u' : User.t) (l : list User.t) : list User.t :=
  map (fun x => if Nat.eqb (User.id x) (User.id u') then u' else x) l.

(** The database after the [save] of a successful login. *)
Definition touched (u : User.t) (amb : Ambient) (db : Db) : Db :=
  final (userRepository_save (User_withLastLoginAt (Some (now amb)) u) db).

Section Histories.
Context `{Runtime}.

Definition register (r : Registration) (amb : Ambient) : M AuthResponse :=
  match r with
  | AsCustomer d => registerCustomer d amb
  | AsStoreOwner d => registerStoreOwner d amb
  end.

(** The principal and the store [registerStoreOwner] writes. *)
Definition ownerRow (d : StoreOwnerRegisterRequest.t) amb (db : Db)
  : User.t :=
  User_withId (nextId db) (newStoreOwner d amb).

Definition storeRow (d : StoreOwnerRegisterRequest.t) (db : Db) : Store.t :=
  Store_withId (S (nextId db)) (newStoreOf (nextId db) d).

(** The [age] both [registerStoreOwner] and its handler compute. *)
Definition storeOwnerAge (d : StoreOwnerRegisterRequest.t) amb : Z :=
  getFullYear (now amb)
  - getFullYear (StoreOwnerRegisterRequest.ownerDateOfBirth d).

(** The store [completeOnboarding] writes. *)
Definition onboardedRow (userId : Uuid) (data : OnboardingData.t) (db : Db)
  : Store.t :=
  Store_withId (nextId db) (onboardedStoreOf userId data).

(** The database after the [save] of the onboarded principal. *)
Definition upgraded (data : OnboardingData.t) (u : User.t) (db : Db) : Db :=
  final (userRepository_save (onboard data u) db).

(** The age guard of [registerStoreOwner]; a customer registration has
    none. *)
Definition ofAge (r : Registration) (amb : Ambient) : Prop :=
  match r with
  | AsCustomer _ => True
  | AsStoreOwner d => 18 ≤ storeOwnerAge d amb
  end.

(** The database a call leaves behind, whether it returns or throws. *)
Definition exec (c : Call) (amb : Ambient) (db : Db) : Db :=
  match c with
  | CallLogin cr => final (login cr amb db)
  | CallRegister r => final (register r amb db)
  | CallValidateToken t => final (validateToken t amb db)
  | CallCompleteOnboarding i d => final (completeOnboarding i d amb db)
  | CallCheckStoreName n => final (checkStoreNameAvailability n db)
  end.

(** A history: calls executed one after the other. *)
Definition run (h : list (Call * Ambient)) (db : Db) : Db :=
  fold_left (fun d ca => exec (fst ca) (snd ca) d) h db.

(** Lower-casing a lower-cased string changes nothing. *)
Definition lowerCaseIdempotent : Prop :=
  ∀ s, toLowerCase (toLowerCase s) = toLowerCase s.

(** At most one principal per normalized email. *)
Definition oneUserPerEmail (db : Db) : Prop :=
  List.NoDup (map (fun u => toLowerCase (User.email u)) (users db)).

(** What the storage layer and the service keep true of the [users] table:
    primary keys are distinct and below the generator, and emails are stored
    lower-cased and distinct. *)
Record consistent (db : Db) : Prop := mkConsistent {
  keys_below :
    List.Forall (fun i => (i < nextId db)%nat) (map User.id (users db));
  keys_distinct : List.NoDup (map User.id (users db));
  emails_lowercase :
    List.Forall (fun e => toLowerCase e = e) (map User.email (users db));
  emails_distinct : List.NoDup (map User.email (users db))
}.

(** The four ways a login fails. *)
Inductive LoginFailure (cr : LoginRequest.t) (db : Db) : Exn → Prop :=
  | NoSuchEmail :
      find (byEmail (LoginRequest.email cr)) (users db) = None →
      LoginFailure cr db (Error "Invalid credentials")
  | NoStoredPassword u :
      find (byEmail (LoginRequest.email cr)) (users db) = Some u →
      truthy (User.password u) = false →
      LoginFailure cr db (Error "Invalid credentials")
  | WrongPassword u :
      find (byEmail (LoginRequest.email cr)) (users db) = Some u →
      truthy (User.password u) = true →
      bcrypt_compare (LoginRequest.password cr)
        (default EmptyString (User.password u)) = false →
      LoginFailure cr db (Error "Invalid credentials")
  | Deactivated u :
      find (byEmail (LoginRequest.email cr)) (users db) = Some u →
      truthy (User.password u) = true →
      bcrypt_compare (LoginRequest.password cr)
        (default EmptyString (User.password u)) = true →
      User.isActive u = false →
      LoginFailure cr db (Error "Account is deactivated").

(** Every check passes. *)
Definition LoginPasses (cr : LoginRequest.t) (db : Db) (u : User.t) : Prop :=
  find (byEmail (LoginRequest.email cr)) (users db) = Some u
  ∧ truthy (User.password u) = true
  ∧ bcrypt_compare (LoginRequest.password cr)
      (default EmptyString (User.password u)) = true
  ∧ User.isActive u = true.

End Histories.

(** ** Further predicates on the stored state *)

Definition registrationPassword (r : Registration) : string :=
  match r with
  | AsCustomer d => CustomerRegisterRequest.password d
  | AsStoreOwner d => StoreOwnerRegisterRequest.password d
  end.

(** Every consent that is given has its timestamp. *)
Definition consentsStamped (u : User.t) : Prop :=
  (User.acceptedTerms u = true → is_Some (User.termsAcceptedAt u))
  ∧ (User.acceptedPrivacyPolicy u = true
     → is_Some (User.privacyPolicyAcceptedAt u))
  ∧ (User.acceptedDataProcessing u = true
     → is_Some (User.dataProcessingAcceptedAt u))
  ∧ (User.marketingConsent u = Some true
     → is_Some (User.marketingConsentGivenAt u)).

(** The consents a store-owner request gives, under the names the audit
    events carry, in the order the service logs them. *)
Definition givenConsents (d : StoreOwnerRegisterRequest.t) : list string :=
  ((if StoreOwnerRegisterRequest.acceptedTerms d then ["terms"] else [])
   ++ (if StoreOwnerRegisterRequest.acceptedPrivacyPolicy d
       then ["privacy"] else [])
   ++ (if StoreOwnerRegisterRequest.acceptedDataProcessing d
       then ["data_processing"] else [])
   ++ (if default false (StoreOwnerRegisterRequest.marketingConsent d)
       then ["marketing"] else []))%list.

(** The slugs of the stored stores, in order. *)
Definition storedSlugs (db : Db) : list string := omap Store.slug (stores db).

(** No two stored stores have the same slug. *)
Definition slugsDistinct (db : Db) : Prop := List.NoDup (storedSlugs db).

(** Every stored store names a stored principal as its owner. *)
Definition storesOwned (db : Db) : Prop :=
  List.Forall
    (fun s => ∃ u, In u (users db) ∧ Store.ownerId s = Some (User.id u))
    (stores db).

(** The rows after the [save] of a loaded store [s']. *)
Definition savedStore (s' : Store.t) (l : list Store.t) : list Store.t :=
  map (fun x => if Nat.eqb (Store.id x) (Store.id s') then s' else x) l.

(** One write to the [users] or [stores] table, by what the invariants
    below need to know of it: the [save] of a loaded principal under its own
    key, the insert of a principal, the insert of a store under a free slug
    and for a stored owner, or a write to another table. *)
Inductive Write (db db' : Db) : Prop :=
  | SavedUser (u u' : User.t) :
      In u (users db) →
      User.id u' = User.id u →
      (consentsStamped u → consentsStamped u') →
      users db' = saved u' (users db) →
      stores db' = stores db →
      Write db db'
  | NewUser (u : User.t) :
      consentsStamped u →
      users db' = (users db ++ [u])%list →
      stores db' = stores db →
      Write db db'
  | NewStore (s : Store.t) (owner : User.t) :
      slug_taken (Store.slug s) db = false →
      In owner (users db) →
      Store.ownerId s = Some (User.id owner) →
      users db' = users db →
      stores db' = (stores db ++ [s])%list →
      Write db db'
  | OtherWrite :
      users db' = users db →
      stores db' = stores db →
      Write db db'.

(** The same data with another billing address. *)
Definition billedTo (billing : Address) (data : OnboardingData.t)
  : OnboardingData.t :=
  OnboardingData.mk (OnboardingData.phoneNumber data)
    (OnboardingData.storeName data) (OnboardingData.siret data)
    (OnboardingData.storeAddress data) billing
    (OnboardingData.acceptedCGU data) (OnboardingData.acceptedCGUAt data).

(** The data the handler passes to the service. *)
Definition onboardingDataOf (b : OnboardingBody.t) (storeAddress : Address)
  : OnboardingData.t :=
  OnboardingData.mk
    (default EmptyString (OnboardingBody.phoneNumber b))
    (default EmptyString (OnboardingBody.storeName b))
    (default EmptyString (OnboardingBody.siret b))
    storeAddress
    (default storeAddress (OnboardingBody.billingAddress b))
    (OnboardingBody.acceptedCGU b)
    (OnboardingBody.acceptedCGUAt b).

(** ** A reference runtime

    A small executable instance of [Runtime], on ASCII strings, used to run
    the service on concrete requests. *)

Definition lowerAscii (c : ascii) : ascii :=
  if isUpper c then ascii_of_nat (nat_of_ascii c + 32) else c.

Fixpoint asciiLowerCase (s : string) : string :=
  match s with
  | String c s' => String (lowerAscii c) (asciiLowerCase s')
  | EmptyString => EmptyString
  end.

Definition isAlnum (c : ascii) : bool :=
  isDigit c || isUpper c || isUpper (ascii_of_nat (nat_of_ascii c - 32)).

(** Modelled from the spec: [utils/slug] is not part of the sources at hand.
    The specification asks for a deterministic, lower-case slug in which
    every run of whitespace or punctuation is folded to one separator and no
    other non-alphanumeric character remains. *)
Fixpoint slugify (pendingSeparator started : bool) (s : string) : string :=
  match s with
  | String c s' =>
      if isAlnum c
      then
        let rest := String (lowerAscii c) (slugify false true s') in
        if pendingSeparator && started then String "-" rest else rest
      else slugify true started s'
  | EmptyString => EmptyString
  end.

Fixpoint splitOn (sep : ascii) (s : string) : list string :=
  match s with
  | String c s' =>
      if Ascii.eqb c sep then EmptyString :: splitOn sep s'
      else
        match splitOn sep s' with
        | h :: t => String c h :: t
        | [] => [String c EmptyString]
        end
  | EmptyString => [EmptyString]
  end.

Definition decimal (z : Z) : string := NilZero.string_of_int (Z.to_int z).

Definition readDecimal (s : string) : option Z :=
  Z.of_int <$> NilZero.int_of_string s.

Definition roleName (r : UserRole) : string :=
  match r with CUSTOMER => "customer" | STORE_OWNER => "store_owner" end.

Definition readRole (s : string) : option UserRole :=
  if String.eqb s "customer" then Some CUSTOMER
  else if String.eqb s "store_owner" then Some STORE_OWNER
  else None.

(** [Math.floor(Date.now() / 1000)]. *)
Definition seconds (d : Date) : Z := getTime d / 1000.

(** A token of the reference runtime spells out what a signed token
    commits to: the key, the three claims and the expiry. *)
Definition referenceSign (p : JwtPayload) (key expiresIn : string)
  (at_ : Date) : string :=
  key ++ "|" ++ from_option (fun i => decimal (Z.of_nat i)) EmptyString
                  (userId p)
      ++ "|" ++ payloadEmail p
      ++ "|" ++ roleName (payloadRole p)
      ++ "|" ++ decimal (seconds at_
                         + (if String.eqb expiresIn "7d" then 604800 else 3600)).

(** The key a token names: none when the field is empty. *)
Definition readUserId (s : string) : option (option Uuid) :=
  if String.eqb s EmptyString then Some None
  else (fun uid => Some (Z.to_nat uid)) <$> readDecimal s.

Definition referenceVerify (token key : string) (at_ : Date)
  : JwtError + JwtPayload :=
  match splitOn "|" token with
  | [k; uid; email; role; exp] =>
      match readUserId uid, readRole role, readDecimal exp with
      | Some uid, Some role, Some exp =>
          if negb (String.eqb k key)
          then inl (JsonWebTokenError "invalid signature")
          else if exp <=? seconds at_ then inl TokenExpiredError
          else inr (mkPayload uid email role)
      | _, _, _ => inl (JsonWebTokenError "jwt malformed")
      end
  | _ => inl (JsonWebTokenError "jwt malformed")
  end.

(** A hash of the reference runtime spells out the salt and the password
    it was made from; comparing reads the password back. *)
Definition referenceHash (password : string) (rounds : nat) (salt : string)
  : string :=
  "$2a$" ++ salt ++ "$" ++ password.

Definition referenceCompare (password hash : string) : bool :=
  match splitOn "$" hash with
  | [_; _; _; p] => String.eqb p password
  | _ => false
  end.

(** The number a string of exactly [n] digits spells. *)
Definition readDigits (n : nat) (s : string) : option Z :=
  if digits n s then readDecimal s else None.

Definition leapYear (y : Z) : bool :=
  (y mod 4 =? 0) && (negb (y mod 100 =? 0) || (y mod 400 =? 0)).

Definition daysInMonth (y m : Z) : Z :=
  if m =? 2 then (if leapYear y then 29 else 28)
  else if (m =? 4) || (m =? 6) || (m =? 9) || (m =? 11) then 30
  else 31.

(** The days from 1 January 1970 to a day of the Gregorian calendar. *)
Definition daysFromCivil (y m d : Z) : Z :=
  let y' := if m <=? 2 then y - 1 else y in
  let era := y' / 400 in
  let yoe := y' - era * 400 in
  let doy := (153 * (if 2 <? m then m - 3 else m + 9) + 2) / 5 + d - 1 in
  let doe := yoe * 365 + yoe / 4 - yoe / 100 + doy in
  era * 146097 + doe - 719468.

(** The reference runtime reads the one form [YYYY-MM-DDTHH:MM:SSZ] of an
    ISO 8601 string, in a process whose local time is UTC; it has every
    other string an Invalid Date. *)
Definition referenceDate (iso : string) : option Date :=
  if (String.length iso =? 20)%nat
     && String.eqb (String.substring 4 1 iso) "-"
     && String.eqb (String.substring 7 1 iso) "-"
     && String.eqb (String.substring 10 1 iso) "T"
     && String.eqb (String.substring 13 1 iso) ":"
     && String.eqb (String.substring 16 1 iso) ":"
     && String.eqb (String.substring 19 1 iso) "Z"
  then
    match readDigits 4 (String.substring 0 4 iso),
          readDigits 2 (String.substring 5 2 iso),
          readDigits 2 (String.substring 8 2 iso),
          readDigits 2 (String.substring 11 2 iso),
          readDigits 2 (String.substring 14 2 iso),
          readDigits 2 (String.substring 17 2 iso) with
    | Some y, Some m, Some d, Some h, Some mi, Some sec =>
        if (1 <=? m) && (m <=? 12) && (1 <=? d) && (d <=? daysInMonth y m)
           && (h <=? 23) && (mi <=? 59) && (sec <=? 59)
        then
          Some (mkDate
                  ((((daysFromCivil y m d * 24 + h) * 60 + mi) * 60 + sec)
                   * 1000)
                  y)
        else None
    | _, _, _, _, _, _ => None
    end
  else None.

#[export] Instance referenceRuntime : Runtime := {|
  toLowerCase := asciiLowerCase;
  bcrypt_hash := referenceHash;
  bcrypt_compare := referenceCompare;
  jwt_sign := referenceSign;
  jwt_verify := referenceVerify;
  createSlug := slugify false false;
  Date_parse := referenceDate;
  JWT_SECRET := None;
  User_default_isActive := true;
  User_default_isFullyRegistered := true
|}.

(** ** Sample requests *)

(** An instant of June 2025. *)
Definition noon2025 : Ambient :=
  mkAmbient (mkDate 1750000000000 2025) "N9qo8uLOickgx2ZMRZoMye".

(** Marie turns 18 in the year of the request. *)
Definition marie : StoreOwnerRegisterRequest.t :=
  StoreOwnerRegisterRequest.mk "Marie@Example.com" "s3cretpass"
    "Chez Marie" "Chez Marie SARL" llc
    (mkAddress "1 rue de la Paix" "Paris" "75002" "FR")
    "Marie" "Curie" "+33100000000" (mkDate 1167609600000 2007)
    true true true None None "203.0.113.7" "curl/8".

(** Paul asks for the store name Marie has. *)
Definition paul : StoreOwnerRegisterRequest.t :=
  StoreOwnerRegisterRequest.mk "paul@example.com" "an0therpass"
    "Chez Marie" "Paul SAS" corporation
    (mkAddress "2 rue de Rivoli" "Paris" "75001" "FR")
    "Paul" "Dirac" "+33100000001" (mkDate 315532800000 1980)
    true true true (Some false) None "203.0.113.8" "curl/8".

(** An applicant who turns 17 in the year of the request. *)
Definition junior : StoreOwnerRegisterRequest.t :=
  StoreOwnerRegisterRequest.mk "junior@example.com" "y0ungpass"
    "Junior Snacks" "Junior EURL" sole_proprietorship
    (mkAddress "3 rue Oberkampf" "Paris" "75011" "FR")
    "Jules" "Verne" "+33100000002" (mkDate 1199145600000 2008)
    true true true None None "203.0.113.9" "curl/8".

(** Alice, under two spellings of one email. *)
Definition alice : CustomerRegisterRequest.t :=
  CustomerRegisterRequest.mk "A@x.com" "passw0rd1" "Alice" "Liddell".

Definition alice' : CustomerRegisterRequest.t :=
  CustomerRegisterRequest.mk "a@x.com" "passw0rd2" "Alicia" "Liddell".

(** Onboarding data that ask, again, for the store name Marie has. *)
Definition paulOnboarding : OnboardingData.t :=
  OnboardingData.mk "+33100000001" "Chez Marie" "12345678901234"
    (mkAddress "2 rue de Rivoli" "Paris" "75001" "FR")
    (mkAddress "2 rue de Rivoli" "Paris" "75001" "FR")
    true (Some "2025-06-15T12:00:00Z").

(** Onboarding data that do not accept the terms. *)
Definition withdrawal : OnboardingData.t :=
  OnboardingData.mk "+33100000000" "Chez Marie Rive Gauche" "12345678901234"
    (mkAddress "8 rue de Seine" "Paris" "75006" "FR")
    (mkAddress "8 rue de Seine" "Paris" "75006" "FR")
    false (Some "2025-10-09T08:00:00Z").

(** A stored principal whose account has been deactivated (deactivation
    itself is outside the service). *)
Definition frozenAlice : User.t :=
  User.mk 1%nat "a@x.com" (Some (referenceHash "passw0rd1" 12 "salt"))
    "Alice" "Liddell" CUSTOMER LOCAL false true None
    None None None None None None
    false false false None None None None None None None.

Definition frozenDb : Db := mkDb [frozenAlice] [] [] 2%nat.

(** The stored state after Marie has registered her store. *)
Definition dbMarie : Db := final (registerStoreOwner marie noon2025 emptyDb).

(** The stored state after Alice has then registered as a customer. *)
Definition dbMarieAlice : Db := final (registerCustomer alice noon2025 dbMarie).

(** A later instant, past the expiry of a token issued at [noon2025]. *)
Definition autumn2025 : Ambient :=
  mkAmbient (mkDate 1760000000000 2025) "N9qo8uLOickgx2ZMRZoMye".

(** The token the reference runtime issues to Marie at [noon2025]. *)
Definition mariesToken : string :=
  "default-secret-key|1|marie@example.com|store_owner|1750604800".

(** A history in which Alice registers under both spellings, Marie
    registers her store and logs in, and Alice completes her onboarding. *)
Definition sampleHistory : list (Call * Ambient) :=
  [(CallRegister (AsCustomer alice), noon2025);
   (CallRegister (AsCustomer alice'), noon2025);
   (CallRegister (AsStoreOwner marie), noon2025);
   (CallLogin (LoginRequest.mk "MARIE@example.com" "s3cretpass"), noon2025);
   (CallCompleteOnboarding 1%nat paulOnboarding, autumn2025)].

(** The stored state after Alice alone has registered as a customer. *)
Definition dbAlice : Db := final (registerCustomer alice noon2025 emptyDb).

(** The token the reference runtime issues to Alice at [noon2025]. *)
Definition alicesToken : string :=
  "default-secret-key|1|a@x.com|customer|1750604800".

(** A token that verifies under the default secret and names no
    principal. *)
Definition anonymousToken : string :=
  "default-secret-key||nobody@example.com|customer|1750604800".

(** Onboarding data whose consent comes under a date that does not parse. *)
Definition undated : OnboardingData.t :=
  OnboardingData.mk "+33100000003" "Chez Alice" "12345678901234"
    (mkAddress "4 rue Cler" "Paris" "75007" "FR")
    (mkAddress "4 rue Cler" "Paris" "75007" "FR")
    true (Some "soon").

(** Marie's row and Marie's store, as her registration wrote them. *)
Definition mariesRow : User.t := ownerRow marie noon2025 emptyDb.

Definition mariesStore : Store.t := storeRow marie emptyDb.

(** Marie's request without the acceptance of the terms. *)
Definition reluctant : StoreOwnerRegisterRequest.t :=
  StoreOwnerRegisterRequest.mk "Marie@Example.com" "s3cretpass"
    "Chez Marie" "Chez Marie SARL" llc
    (mkAddress "1 rue de la Paix" "Paris" "75002" "FR")
    "Marie" "Curie" "+33100000000" (mkDate 1167609600000 2007)
    false true true None None "203.0.113.7" "curl/8".

(** Marie's request with a street that is one no-break space (U+00A0, the
    bytes 194 and 160 in UTF-8). *)
Definition nowhere : StoreOwnerRegisterRequest.t :=
  StoreOwnerRegisterRequest.mk "Marie@Example.com" "s3cretpass"
    "Chez Marie" "Chez Marie SARL" llc
    (mkAddress
       (String (ascii_of_nat 194) (String (ascii_of_nat 160) EmptyString))
       "Paris" "75002" "FR")
    "Marie" "Curie" "+33100000000" (mkDate 1167609600000 2007)
    true true true None None "203.0.113.7" "curl/8".

(** What Alice posts to complete her onboarding. *)
Definition alicesBody : OnboardingBody.t :=
  OnboardingBody.mk (Some "+33100000003") (Some "Chez Alice")
    (Some "12345678901234")
    (Some (mkAddress "4 rue Cler" "Paris" "75007" "FR")) None
    true (Some "2025-06-15T12:00:00Z").

(** A second store for Marie, and a store for a principal that is not
    stored. *)
Definition annex : CreateStoreRequest.t :=
  CreateStoreRequest.mk "Annexe de Marie" None (Some "5 rue de la Paix")
    None None (Some "Europe/Paris") 1%nat.

Definition orphan : CreateStoreRequest.t :=
  CreateStoreRequest.mk "Sans patron" None None None None None 99%nat.

Definition rename : UpdateStoreRequest.t :=
  UpdateStoreRequest.mk (Some "Chez Marie et Pierre") None None None None
    None.

(** An INSEE client, and a remote service that knows one establishment. *)
Definition sirene : InseeService :=
  mkInseeService "https://api.insee.fr/api-sirene/3.11" "k3y".

Definition boulangerie : InseeEstablishment :=
  mkEstablishment (mkUniteLegale None (Some "Curie") (Some "Marie"))
    (mkAdresse (Some "1") (Some "RUE") (Some "DE LA PAIX") (Some "75002")
       (Some "PARIS"))
    (Some ["A"]).

Definition remote (url key : string) : AxiosResult :=
  if String.eqb url
       "https://api.insee.fr/api-sirene/3.11/siret/12345678901234"
  then Resolved boulangerie
  else Rejected (Some 404).

(** * Properties *)

(** ** Lower-casing twice *)

Lemma lowerAscii_idem (c : ascii) : lowerAscii (lowerAscii c) = lowerAscii c.
Proof.
  destruct c as [[] [] [] [] [] [] [] []]; reflexivity.
Qed.

Lemma asciiLowerCase_idem (s : string) :
  asciiLowerCase (asciiLowerCase s) = asciiLowerCase s.
Proof.
  induction s as [|c s IH]; simpl; [reflexivity|].
  now rewrite lowerAscii_idem, IH.
Qed.

(** ** Login *)

Section LoginProperties.
Context `{Runtime}.

(** [login], read as the decision list it is. *)
Lemma login_unfold (cr : LoginRequest.t) (amb : Ambient) (db : Db) :
  login cr amb db =
  match find (byEmail (LoginRequest.email cr)) (users db) with
  | None => (inl (Error "Invalid credentials"), db)
  | Some u =>
      if negb (truthy (User.password u))
      then (inl (Error "Invalid credentials"), db)
      else if negb (bcrypt_compare (LoginRequest.password cr)
                      (default EmptyString (User.password u)))
      then (inl (Error "Invalid credentials"), db)
      else if negb (User.isActive u)
      then (inl (Error "Account is deactivated"), db)
      else (outcome (login cr amb db), touched u amb db)
  end.
Proof.
  unfold login, bind, userRepository_findOne, throw.
  destruct (find _ (users db)) as [u|]; [|reflexivity].
  destruct (negb (truthy (User.password u))); [reflexivity|].
  destruct (negb (bcrypt_compare _ _)); [reflexivity|].
  destruct (negb (User.isActive u)); reflexivity.
Qed.

Lemma login_failure_throws cr amb db e :
  LoginFailure cr db e → login cr amb db = (inl e, db).
Proof.
  intros F; rewrite login_unfold.
  destruct F as [E|u E P|u E P C|u E P C A]; rewrite E; [reflexivity|..].
  - now rewrite P.
  - now rewrite P, C.
  - now rewrite P, C, A.
Qed.

Lemma login_passes_returns cr amb db u :
  LoginPasses cr db u →
  ∃ r, login cr amb db = (inr r, touched u amb db).
Proof.
  intros (E & P & C & A).
  assert (L := login_unfold cr amb db).
  rewrite E, P, C, A in L; simpl in L.
  unfold login, bind, userRepository_findOne, throw in *.
  rewrite E, P, C, A in *; simpl in *.
  eexists; reflexivity.
Qed.

Lemma login_throws_inv cr amb db e :
  outcome (login cr amb db) = inl e → LoginFailure cr db e.
Proof.
  rewrite login_unfold.
  destruct (find _ (users db)) as [u|] eqn:E.
  - destruct (truthy (User.password u)) eqn:P; simpl.
    + destruct (bcrypt_compare _ _) eqn:C; simpl.
      * destruct (User.isActive u) eqn:A; simpl.
        -- intros Hout.
           destruct (login_passes_returns cr amb db u) as [r Hr];
             [repeat split; assumption|].
           rewrite Hr in Hout; discriminate.
        -- intros [= <-]; eapply Deactivated; eassumption.
      * intros [= <-]; eapply WrongPassword; eassumption.
    + intros [= <-]; eapply NoStoredPassword; eassumption.
  - intros [= <-]; now apply NoSuchEmail.
Qed.

Lemma login_returns_inv cr amb db r :
  outcome (login cr amb db) = inr r →
  ∃ u, LoginPasses cr db u ∧ final (login cr amb db) = touched u amb db.
Proof.
  intros Hr.
  destruct (find (byEmail (LoginRequest.email cr)) (users db))
    as [u|] eqn:E.
  + destruct (truthy (User.password u)) eqn:P.
    * destruct (bcrypt_compare (LoginRequest.password cr)
                  (default EmptyString (User.password u))) eqn:C.
      -- destruct (User.isActive u) eqn:A.
         ++ exists u.
            assert (LP : LoginPasses cr db u) by (repeat split; assumption).
            split; [exact LP|].
            destruct (login_passes_returns cr amb db u LP) as [r' Hr'].
            now rewrite Hr'.
         ++ rewrite (login_failure_throws cr amb db _
                       (Deactivated cr db u E P C A)) in Hr.
            discriminate.
      -- rewrite (login_failure_throws cr amb db _
                    (WrongPassword cr db u E P C)) in Hr.
         discriminate.
    * rewrite (login_failure_throws cr amb db _
                 (NoStoredPassword cr db u E P)) in Hr.
      discriminate.
  + rewrite (login_failure_throws cr amb db _ (NoSuchEmail cr db E)) in Hr.
    discriminate.
Qed.

End LoginProperties.

Section LoginClaims.
Context `{Runtime}.

Lemma touched_tables (u : User.t) (amb : Ambient) (db : Db) :
  users (touched u amb db)
  = map (fun x => if Nat.eqb (User.id x) (User.id u)
                  then User_withLastLoginAt (Some (now amb)) u else x)
        (users db)
  ∧ stores (touched u amb db) = stores db
  ∧ auditLogs (touched u amb db) = auditLogs db
  ∧ nextId (touched u amb db) = nextId db.
Proof. destruct u; repeat split; reflexivity. Qed.

(** C9. A login that fails, for whichever of the four reasons (no principal
    with the email, no stored password, wrong password, inactive account),
    modifies no stored state; the only write of [login], the one of the
    last-login timestamp, happens exactly when every check has passed and
    the login returns. *)
Theorem login_failure_changes_nothing
  (cr : LoginRequest.t) (amb : Ambient) (db : Db) :
  (∀ e, LoginFailure cr db e → login cr amb db = (inl e, db))
  ∧ (∀ e, outcome (login cr amb db) = inl e →
          LoginFailure cr db e ∧ final (login cr amb db) = db)
  ∧ (∀ u, LoginPasses cr db u →
          ∃ r, login cr amb db = (inr r, touched u amb db))
  ∧ (∀ r, outcome (login cr amb db) = inr r →
          ∃ u, LoginPasses cr db u
               ∧ final (login cr amb db) = touched u amb db).
Proof.
  split; [|split; [|split]].
  - intros e F; now apply login_failure_throws.
  - intros e He.
    assert (F := login_throws_inv _ _ _ _ He).
    split; [exact F|].
    now rewrite (login_failure_throws _ amb _ _ F).
  - intros u P; now apply login_passes_returns.
  - intros r Hr. exact (login_returns_inv cr amb db r Hr).
Qed.

(** C6, as the code has it. A failed login is answered with status 401 and
    a body that holds the message of the error and nothing else. The
    message is "Invalid credentials" when no principal has the email, when
    the principal has no stored password and when the password is wrong,
    three causes the body does not tell apart; it is "Account is
    deactivated" exactly when the password is right and the account is
    inactive. *)
Theorem failed_login_response
  (cr : LoginRequest.t) (amb : Ambient) (db : Db) (e : Exn) :
  outcome (login cr amb db) = inl e →
  customerLogin [] cr amb db = (json 401 (message e), db)
  ∧ storeOwnerLogin [] cr amb db = (json 401 (message e), db)
  ∧ (e = Error "Invalid credentials" ∨ e = Error "Account is deactivated")
  ∧ (e = Error "Account is deactivated" ↔
     ∃ u, find (byEmail (LoginRequest.email cr)) (users db) = Some u
          ∧ truthy (User.password u) = true
          ∧ bcrypt_compare (LoginRequest.password cr)
              (default EmptyString (User.password u)) = true
          ∧ User.isActive u = false).
Proof.
  intros He.
  assert (F := login_throws_inv _ _ _ _ He).
  assert (L := login_failure_throws _ amb _ _ F).
  unfold customerLogin, storeOwnerLogin; rewrite L.
  split; [reflexivity|]. split; [reflexivity|].
  split.
  - destruct F; auto.
  - split.
    + intros ->. inversion F as [| | |u E P C A]; subst. now exists u.
    + intros (u & E & P & C & A).
      rewrite (login_failure_throws cr amb db _ (Deactivated cr db u E P C A))
        in L.
      congruence.
Qed.

End LoginClaims.

(** Witness of C9: a wrong password against a stored account writes
    nothing; Marie's right password against her active account passes every
    check and writes the timestamp. *)
Lemma login_failure_changes_nothing_witness :
  final (login (LoginRequest.mk "a@x.com" "wrongpass1") noon2025 frozenDb)
  = frozenDb
  ∧ ∃ r, login (LoginRequest.mk "MARIE@example.com" "s3cretpass")
           autumn2025 dbMarie
         = (inr r, touched (ownerRow marie noon2025 emptyDb) autumn2025
                     dbMarie).
Proof.
  split.
  - destruct (login_failure_changes_nothing
                (LoginRequest.mk "a@x.com" "wrongpass1") noon2025 frozenDb)
      as (_ & Hfail & _).
    apply (Hfail (Error "Invalid credentials")).
    vm_compute. reflexivity.
  - destruct (login_failure_changes_nothing
                (LoginRequest.mk "MARIE@example.com" "s3cretpass")
                autumn2025 dbMarie)
      as (_ & _ & Hpass & _).
    apply Hpass. repeat split; vm_compute; reflexivity.
Defined.

(** Witness of C6: the same wrong password, through the handler. *)
Lemma failed_login_response_witness :
  customerLogin [] (LoginRequest.mk "a@x.com" "wrongpass1") noon2025 frozenDb
  = (json 401 "Invalid credentials", frozenDb).
Proof.
  apply (failed_login_response
           (LoginRequest.mk "a@x.com" "wrongpass1") noon2025 frozenDb
           (Error "Invalid credentials")).
  vm_compute. reflexivity.
Defined.

(** C6, as the specification has it, fails: against one stored, deactivated
    account, a wrong password and the right password are both answered with
    status 401, and the two bodies differ. *)
Lemma login_failures_distinguishable :
  let wrong :=
    fst (customerLogin [] (LoginRequest.mk "a@x.com" "wrongpass1")
           noon2025 frozenDb) in
  let frozen :=
    fst (customerLogin [] (LoginRequest.mk "a@x.com" "passw0rd1")
           noon2025 frozenDb) in
  status wrong = 401 ∧ status frozen = 401
  ∧ body wrong = mkBody "Invalid credentials" None None
  ∧ body frozen = mkBody "Account is deactivated" None None
  ∧ body wrong ≠ body frozen.
Proof.
  vm_compute. repeat split; discriminate.
Qed.

(** ** Registration *)

Section RegistrationLemmas.
Context `{Runtime}.

Lemma byEmail_spec (email : string) (u : User.t) :
  byEmail email u = true ↔ User.email u = toLowerCase email.
Proof. unfold byEmail. apply String.eqb_eq. Qed.

Lemma registerCustomer_taken (d : CustomerRegisterRequest.t) amb db u :
  find (byEmail (CustomerRegisterRequest.email d)) (users db) = Some u →
  registerCustomer d amb db = (inl (Error "Email already registered"), db).
Proof.
  intros E. unfold registerCustomer, bind, userRepository_findOne, throw.
  now rewrite E.
Qed.

Lemma registerCustomer_fresh (d : CustomerRegisterRequest.t) amb db :
  find (byEmail (CustomerRegisterRequest.email d)) (users db) = None →
  ∃ r u,
    registerCustomer d amb db
    = (inr r, mkDb (users db ++ [u]) (stores db) (auditLogs db)
                   (S (nextId db)))
    ∧ User.id u = nextId db
    ∧ User.email u = toLowerCase (CustomerRegisterRequest.email d)
    ∧ User.role u = CUSTOMER.
Proof.
  intros E.
  unfold registerCustomer, bind, userRepository_findOne,
    userRepository_insert, ret.
  rewrite E. simpl.
  eexists _, _. split; [reflexivity|]. repeat split.
Qed.

Lemma registerStoreOwner_taken (d : StoreOwnerRegisterRequest.t) amb db u :
  find (byEmail (StoreOwnerRegisterRequest.email d)) (users db) = Some u →
  registerStoreOwner d amb db
  = (inl (Error "Email already registered"), db).
Proof.
  intros E. unfold registerStoreOwner, bind, userRepository_findOne, throw.
  now rewrite E.
Qed.

Lemma registerStoreOwner_underage (d : StoreOwnerRegisterRequest.t) amb db :
  find (byEmail (StoreOwnerRegisterRequest.email d)) (users db) = None →
  storeOwnerAge d amb < 18 →
  registerStoreOwner d amb db
  = (inl (Error "You must be at least 18 years old to register"), db).
Proof.
  intros E A. unfold registerStoreOwner, bind, userRepository_findOne, throw.
  rewrite E. simpl.
  apply Z.ltb_lt in A. unfold storeOwnerAge in A. now rewrite A.
Qed.

Lemma registerStoreOwner_slug_refused
  (d : StoreOwnerRegisterRequest.t) amb db :
  find (byEmail (StoreOwnerRegisterRequest.email d)) (users db) = None →
  18 ≤ storeOwnerAge d amb →
  slug_taken (Some (createSlug (StoreOwnerRegisterRequest.storeName d))) db
  = true →
  registerStoreOwner d amb db
  = (inl (QueryFailedError "duplicate key value violates unique constraint"),
     mkDb (users db ++ [ownerRow d amb db]) (stores db) (auditLogs db)
          (S (nextId db))).
Proof.
  intros E A S.
  unfold registerStoreOwner, bind, userRepository_findOne,
    userRepository_insert, storeRepository_save, throw.
  rewrite E. simpl.
  apply Z.ltb_ge in A. unfold storeOwnerAge in A. rewrite A.
  simpl in S |- *. now rewrite S.
Qed.

Lemma registerStoreOwner_created (d : StoreOwnerRegisterRequest.t) amb db :
  find (byEmail (StoreOwnerRegisterRequest.email d)) (users db) = None →
  18 ≤ storeOwnerAge d amb →
  slug_taken (Some (createSlug (StoreOwnerRegisterRequest.storeName d))) db
  = false →
  ∃ r,
    outcome (registerStoreOwner d amb db) = inr r
    ∧ users (final (registerStoreOwner d amb db))
      = (users db ++ [ownerRow d amb db])%list
    ∧ stores (final (registerStoreOwner d amb db))
      = (stores db ++ [storeRow d db])%list
    ∧ nextId (final (registerStoreOwner d amb db)) = S (S (nextId db))
    ∧ UserView.isFullyRegistered (user r) = Some false
    ∧ UserView.id (user r) = nextId db.
Proof.
  intros E A S.
  unfold registerStoreOwner, bind, userRepository_findOne,
    userRepository_insert, storeRepository_save, throw.
  rewrite E. simpl.
  apply Z.ltb_ge in A. unfold storeOwnerAge in A. rewrite A.
  simpl in S |- *. rewrite S.
  unfold when, auditService_log, ret, outcome, final.
  unfold ownerRow, storeRow, newStoreOwner, newStoreOf.
  destruct (StoreOwnerRegisterRequest.acceptedTerms d),
    (StoreOwnerRegisterRequest.acceptedPrivacyPolicy d),
    (StoreOwnerRegisterRequest.acceptedDataProcessing d),
    (default false (StoreOwnerRegisterRequest.marketingConsent d));
    simpl; eexists; repeat split; reflexivity.
Qed.

(** The three ways [registerStoreOwner] ends, by what it has written. *)
Lemma registerStoreOwner_writes (d : StoreOwnerRegisterRequest.t) amb db :
  let db' := final (registerStoreOwner d amb db) in
  (users db' = users db ∧ stores db' = stores db
   ∧ ∃ e, outcome (registerStoreOwner d amb db) = inl e)
  ∨ (users db' = (users db ++ [ownerRow d amb db])%list ∧ stores db' = stores db
     ∧ ∃ e, outcome (registerStoreOwner d amb db) = inl e)
  ∨ (users db' = (users db ++ [ownerRow d amb db])%list
     ∧ stores db' = (stores db ++ [storeRow d db])%list
     ∧ ∃ r, outcome (registerStoreOwner d amb db) = inr r).
Proof.
  destruct (find (byEmail (StoreOwnerRegisterRequest.email d)) (users db))
    as [u|] eqn:E.
  { left. rewrite (registerStoreOwner_taken d amb db u E). simpl. eauto. }
  destruct (Z.lt_ge_cases (storeOwnerAge d amb) 18) as [A|A].
  { left. rewrite (registerStoreOwner_underage d amb db E A). simpl. eauto. }
  destruct (slug_taken
              (Some (createSlug (StoreOwnerRegisterRequest.storeName d))) db)
    eqn:S.
  - right; left.
    rewrite (registerStoreOwner_slug_refused d amb db E A S). simpl. eauto.
  - right; right.
    destruct (registerStoreOwner_created d amb db E A S)
      as (r & Hr & Hu & Hs & _).
    simpl. eauto.
Qed.

End RegistrationLemmas.

(** ** Onboarding *)

Section OnboardingLemmas.
Context `{Runtime}.

Lemma byId_spec (i : Uuid) (u : User.t) : byId i u = true ↔ User.id u = i.
Proof. unfold byId. apply Nat.eqb_eq. Qed.

Lemma find_saved (i : Uuid) (u u' : User.t) (l : list User.t) :
  find (byId i) l = Some u →
  User.id u' = i →
  find (byId i)
    (map (fun x => if Nat.eqb (User.id x) (User.id u') then u' else x) l)
  = Some u'.
Proof.
  intros F E. subst i.
  induction l as [|a l IH]; simpl in *; [discriminate|].
  unfold byId in *.
  destruct (Nat.eqb (User.id a) (User.id u')) eqn:Ha.
  - simpl. now rewrite Nat.eqb_refl.
  - simpl. rewrite Ha. now apply IH.
Qed.

Lemma completeOnboarding_missing (i : Uuid) (data : OnboardingData.t) amb db :
  find (byId i) (users db) = None →
  completeOnboarding i data amb db = (inl (Error "User not found"), db).
Proof.
  intros E. unfold completeOnboarding, bind, userRepository_findOne, throw.
  now rewrite E.
Qed.

(** [save] is refused when the consent is given under an Invalid Date:
    nothing is written. *)
Lemma completeOnboarding_invalid_date
  (i : Uuid) (data : OnboardingData.t) amb db u :
  find (byId i) (users db) = Some u →
  acceptedAt data = Some None →
  ∃ m, completeOnboarding i data amb db = (inl (QueryFailedError m), db).
Proof.
  intros E A.
  unfold completeOnboarding, bind, userRepository_findOne, throw.
  rewrite E, A. eauto.
Qed.

Lemma completeOnboarding_slug_refused
  (i : Uuid) (data : OnboardingData.t) amb db u :
  find (byId i) (users db) = Some u →
  acceptedAt data ≠ Some None →
  slug_taken (Some (createSlug (OnboardingData.storeName data))) db = true →
  completeOnboarding i data amb db
  = (inl (QueryFailedError "duplicate key value violates unique constraint"),
     upgraded data u db).
Proof.
  intros E A S.
  unfold completeOnboarding, bind, userRepository_findOne,
    userRepository_save, storeRepository_save, throw, upgraded, final.
  rewrite E.
  destruct (acceptedAt data) as [[d|]|]; [|congruence|];
    simpl in S |- *; now rewrite S.
Qed.

Lemma completeOnboarding_created
  (i : Uuid) (data : OnboardingData.t) amb db u :
  find (byId i) (users db) = Some u →
  acceptedAt data ≠ Some None →
  slug_taken (Some (createSlug (OnboardingData.storeName data))) db = false →
  ∃ r,
    completeOnboarding i data amb db
    = (inr r,
       mkDb (users (upgraded data u db))
            (stores db ++ [onboardedRow i data db])
            (auditLogs db) (S (nextId db))).
Proof.
  intros E A S.
  unfold completeOnboarding, bind, userRepository_findOne,
    userRepository_save, storeRepository_save, throw, upgraded, final, ret.
  rewrite E.
  destruct (acceptedAt data) as [[d|]|]; [|congruence|];
    simpl in S |- *; rewrite S; eexists; reflexivity.
Qed.

Lemma upgraded_tables (data : OnboardingData.t) (u : User.t) (db : Db) :
  users (upgraded data u db)
  = map (fun x => if Nat.eqb (User.id x) (User.id u)
                  then onboard data u else x) (users db)
  ∧ stores (upgraded data u db) = stores db
  ∧ auditLogs (upgraded data u db) = auditLogs db
  ∧ nextId (upgraded data u db) = nextId db.
Proof. repeat split; reflexivity. Qed.

Lemma acceptedAt_cases (data : OnboardingData.t) :
  acceptedAt data = Some None ∨ acceptedAt data ≠ Some None.
Proof. destruct (acceptedAt data) as [[d|]|]; auto; right; discriminate. Qed.

(** The three ways [completeOnboarding] ends, by what it has written:
    nothing, the principal alone, or the principal and a store. *)
Lemma completeOnboarding_writes (i : Uuid) (data : OnboardingData.t) amb db :
  let db' := final (completeOnboarding i data amb db) in
  (db' = db ∧ ∃ e, outcome (completeOnboarding i data amb db) = inl e)
  ∨ (∃ u, find (byId i) (users db) = Some u
          ∧ acceptedAt data ≠ Some None
          ∧ db' = upgraded data u db
          ∧ ∃ e, outcome (completeOnboarding i data amb db) = inl e)
  ∨ (∃ u, find (byId i) (users db) = Some u
          ∧ acceptedAt data ≠ Some None
          ∧ users db' = users (upgraded data u db)
          ∧ stores db' = (stores db ++ [onboardedRow i data db])%list
          ∧ ∃ r, outcome (completeOnboarding i data amb db) = inr r).
Proof.
  destruct (find (byId i) (users db)) as [u|] eqn:E.
  - destruct (acceptedAt_cases data) as [A|A].
    { left.
      destruct (completeOnboarding_invalid_date i data amb db u E A)
        as [e ->].
      simpl. eauto. }
    destruct (slug_taken
                (Some (createSlug (OnboardingData.storeName data))) db) eqn:S.
    + right; left. exists u.
      rewrite (completeOnboarding_slug_refused i data amb db u E A S).
      simpl. eauto.
    + right; right. exists u.
      destruct (completeOnboarding_created i data amb db u E A S) as [r ->].
      simpl. eauto 6.
  - left. rewrite (completeOnboarding_missing i data amb db E). simpl. eauto.
Qed.

(** The principal [completeOnboarding] leaves stored, when the consent it
    is given does not come under an Invalid Date. *)
Lemma completeOnboarding_principal
  (i : Uuid) (data : OnboardingData.t) (amb : Ambient) (db : Db)
  (u : User.t) :
  find (byId i) (users db) = Some u →
  acceptedAt data ≠ Some None →
  find (byId i) (users (final (completeOnboarding i data amb db)))
  = Some (onboard data u).
Proof.
  intros E A.
  assert (Hu : users (final (completeOnboarding i data amb db))
               = users (upgraded data u db)).
  { destruct (slug_taken
                (Some (createSlug (OnboardingData.storeName data))) db) eqn:S.
    - now rewrite (completeOnboarding_slug_refused i data amb db u E A S).
    - now destruct (completeOnboarding_created i data amb db u E A S)
        as [r ->]. }
  rewrite Hu.
  destruct (upgraded_tables data u db) as (-> & _).
  assert (Hid : User.id (onboard data u) = i)
    by (simpl; now apply byId_spec, (find_some _ _ E)).
  assert (Hid' : User.id u = i) by now apply byId_spec, (find_some _ _ E).
  replace (User.id u) with (User.id (onboard data u)) by congruence.
  now apply find_saved with (u := u).
Qed.

(** What [completeOnboarding] stores of the consents. With [acceptedCGU]
    true and a date that parses, the three flags are true and the three
    timestamps are that date. With [acceptedCGU] false, the three flags are
    false and the three timestamps are the ones the principal had: the
    [undefined] assigned to them is not stored. *)
Lemma completeOnboarding_stored_consents
  (i : Uuid) (data : OnboardingData.t) (amb : Ambient) (db : Db)
  (u : User.t) :
  find (byId i) (users db) = Some u →
  acceptedAt data ≠ Some None →
  ∃ u',
    find (byId i) (users (final (completeOnboarding i data amb db)))
    = Some u'
    ∧ User.acceptedTerms u' = OnboardingData.acceptedCGU data
    ∧ User.acceptedPrivacyPolicy u' = OnboardingData.acceptedCGU data
    ∧ User.acceptedDataProcessing u' = OnboardingData.acceptedCGU data
    ∧ (∀ d, acceptedAt data = Some (Some d) →
            User.termsAcceptedAt u' = Some d
            ∧ User.privacyPolicyAcceptedAt u' = Some d
            ∧ User.dataProcessingAcceptedAt u' = Some d)
    ∧ (OnboardingData.acceptedCGU data = false →
       User.termsAcceptedAt u' = User.termsAcceptedAt u
       ∧ User.privacyPolicyAcceptedAt u' = User.privacyPolicyAcceptedAt u
       ∧ User.dataProcessingAcceptedAt u'
         = User.dataProcessingAcceptedAt u).
Proof.
  intros E A. exists (onboard data u).
  split; [exact (completeOnboarding_principal i data amb db u E A)|].
  split; [reflexivity|]. split; [reflexivity|]. split; [reflexivity|].
  split.
  - intros d Hd. simpl. rewrite Hd. repeat split.
  - intros F. simpl. unfold acceptedAt. rewrite F. repeat split.
Qed.

End OnboardingLemmas.

(** ** What the registration paths create *)

Section Created.
Context `{Runtime}.

Lemma app_one_neq {A} (l : list A) (x : A) : l ≠ (l ++ [x])%list.
Proof.
  intros E. apply (f_equal (@List.length A)) in E.
  rewrite length_app in E. simpl in E. lia.
Qed.

Lemma find_existsb {A} (f : A → bool) (l : list A) :
  find f l = None ↔ existsb f l = false.
Proof.
  induction l as [|a l IH]; simpl; [tauto|].
  destruct (f a); simpl; [split; discriminate|exact IH].
Qed.

Lemma slug_free_iff (sl : string) (db : Db) :
  find (bySlug sl) (stores db) = None ↔ slug_taken (Some sl) db = false.
Proof. unfold slug_taken. apply find_existsb. Qed.

Lemma registerStoreOwner_returns_inv (d : StoreOwnerRegisterRequest.t) amb db r :
  outcome (registerStoreOwner d amb db) = inr r →
  find (byEmail (StoreOwnerRegisterRequest.email d)) (users db) = None
  ∧ 18 ≤ storeOwnerAge d amb
  ∧ slug_taken (Some (createSlug (StoreOwnerRegisterRequest.storeName d))) db
    = false.
Proof.
  intros Hr.
  destruct (find (byEmail (StoreOwnerRegisterRequest.email d)) (users db))
    as [u|] eqn:E.
  { rewrite (registerStoreOwner_taken d amb db u E) in Hr. discriminate. }
  destruct (Z.lt_ge_cases (storeOwnerAge d amb) 18) as [A|A].
  { rewrite (registerStoreOwner_underage d amb db E A) in Hr. discriminate. }
  destruct (slug_taken _ db) eqn:S; [|auto].
  rewrite (registerStoreOwner_slug_refused d amb db E A S) in Hr.
  discriminate.
Qed.

Lemma registerStoreOwner_creates_principal
  (d : StoreOwnerRegisterRequest.t) amb db :
  find (byEmail (StoreOwnerRegisterRequest.email d)) (users db) = None →
  18 ≤ storeOwnerAge d amb →
  users (final (registerStoreOwner d amb db))
  = (users db ++ [ownerRow d amb db])%list.
Proof.
  intros E A.
  destruct (slug_taken
              (Some (createSlug (StoreOwnerRegisterRequest.storeName d))) db)
    eqn:S.
  - now rewrite (registerStoreOwner_slug_refused d amb db E A S).
  - now destruct (registerStoreOwner_created d amb db E A S)
      as (r & _ & U & _).
Qed.

(** C3, as the code has it. A principal created by the direct store-owner
    registration has role store owner and has the fully-registered flag set
    to false at creation; the view the call returns says so too. *)
Theorem registerStoreOwner_not_fully_registered
  (d : StoreOwnerRegisterRequest.t) (amb : Ambient) (db : Db) :
  (∀ u, users (final (registerStoreOwner d amb db)) = (users db ++ [u])%list →
        User.role u = STORE_OWNER ∧ User.isFullyRegistered u = false)
  ∧ (find (byEmail (StoreOwnerRegisterRequest.email d)) (users db) = None →
     18 ≤ storeOwnerAge d amb →
     ∃ u, users (final (registerStoreOwner d amb db))
          = (users db ++ [u])%list)
  ∧ (∀ r, outcome (registerStoreOwner d amb db) = inr r →
          UserView.role (user r) = STORE_OWNER
          ∧ UserView.isFullyRegistered (user r) = Some false).
Proof.
  split; [|split].
  - intros u Hu.
    destruct (registerStoreOwner_writes d amb db)
      as [(U & _)|[(U & _)|(U & _)]]; rewrite U in Hu.
    + now apply app_one_neq in Hu.
    + apply app_inj_tail in Hu as [_ <-]. split; reflexivity.
    + apply app_inj_tail in Hu as [_ <-]. split; reflexivity.
  - intros E A. eexists.
    now apply registerStoreOwner_creates_principal.
  - intros r Hr.
    destruct (registerStoreOwner_returns_inv d amb db r Hr) as (E & A & S).
    destruct (registerStoreOwner_created d amb db E A S)
      as (r' & Hr' & _ & _ & _ & F & _).
    assert (r' = r) by congruence. subst r'. split; [|exact F].
    clear - Hr E A S.
    unfold registerStoreOwner, bind, userRepository_findOne,
      userRepository_insert, storeRepository_save, throw in Hr.
    rewrite E in Hr. simpl in Hr.
    apply Z.ltb_ge in A. unfold storeOwnerAge in A. rewrite A in Hr.
    simpl in S, Hr. rewrite S in Hr.
    unfold when, auditService_log, ret, outcome in Hr.
    destruct (StoreOwnerRegisterRequest.acceptedTerms d),
      (StoreOwnerRegisterRequest.acceptedPrivacyPolicy d),
      (StoreOwnerRegisterRequest.acceptedDataProcessing d),
      (default false (StoreOwnerRegisterRequest.marketingConsent d));
      simpl in Hr; injection Hr as <-; reflexivity.
Qed.

Lemma initial_status_pending :
  dom initialDocumentVerificationStatus = documentKinds
  ∧ (∀ k, k ∈ documentKinds →
          initialDocumentVerificationStatus !! k = Some pending)
  ∧ size initialDocumentVerificationStatus = 6%nat.
Proof.
  split; [vm_compute; reflexivity|]. split; [|vm_compute; reflexivity].
  intros k Hk. unfold documentKinds in Hk.
  repeat (apply elem_of_union in Hk as [Hk|Hk]);
    apply elem_of_singleton in Hk; subst k; vm_compute; reflexivity.
Qed.

(** C8. Every store created by [registerStoreOwner] or by
    [completeOnboarding] carries a document-verification map with exactly
    the six fixed keys, each in state pending; and a call of either method
    that returns has created such a store. *)
Theorem created_store_all_pending
  (d : StoreOwnerRegisterRequest.t) (i : Uuid) (data : OnboardingData.t)
  (amb : Ambient) (db : Db) :
  (∀ s, stores (final (registerStoreOwner d amb db)) = (stores db ++ [s])%list
        → allPending s)
  ∧ (∀ s, stores (final (completeOnboarding i data amb db))
          = (stores db ++ [s])%list
          → allPending s)
  ∧ (∀ r, outcome (registerStoreOwner d amb db) = inr r →
          ∃ s, stores (final (registerStoreOwner d amb db))
               = (stores db ++ [s])%list)
  ∧ (∀ r, outcome (completeOnboarding i data amb db) = inr r →
          ∃ s, stores (final (completeOnboarding i data amb db))
               = (stores db ++ [s])%list).
Proof.
  assert (P : ∀ s, Store.documentVerificationStatus s
                   = Some initialDocumentVerificationStatus → allPending s).
  { intros s Hs. exists initialDocumentVerificationStatus.
    split; [exact Hs|]. apply initial_status_pending. }
  split; [|split; [|split]].
  - intros s Hs. apply P.
    destruct (registerStoreOwner_writes d amb db)
      as [(_ & S & _)|[(_ & S & _)|(_ & S & _)]]; rewrite S in Hs.
    + now apply app_one_neq in Hs.
    + now apply app_one_neq in Hs.
    + apply app_inj_tail in Hs as [_ <-]. reflexivity.
  - intros s Hs. apply P.
    destruct (completeOnboarding_writes i data amb db)
      as [[S _]|[(u & _ & _ & S & _)|(u & _ & _ & _ & S & _)]].
    + rewrite S in Hs. now apply app_one_neq in Hs.
    + rewrite S in Hs. destruct (upgraded_tables data u db) as (_ & S' & _).
      rewrite S' in Hs. now apply app_one_neq in Hs.
    + rewrite S in Hs. apply app_inj_tail in Hs as [_ <-]. reflexivity.
  - intros r Hr.
    destruct (registerStoreOwner_writes d amb db)
      as [(_ & _ & e & He)|[(_ & _ & e & He)|(_ & S & _)]];
      [congruence|congruence|eauto].
  - intros r Hr.
    destruct (completeOnboarding_writes i data amb db)
      as [(_ & e & He)|[(u & _ & _ & _ & e & He)|(u & _ & _ & _ & S & _)]];
      [congruence|congruence|eauto].
Qed.

(** C7. The slug [checkStoreNameAvailability] returns for a store name is
    the slug stored on the store that [registerStoreOwner] creates for the
    same name, at whatever time the two are called; and when the name is
    reported available, a registration of a new, adult owner against the
    same stored state does create that store. *)
Theorem check_and_register_same_slug
  (storeName : string) (d : StoreOwnerRegisterRequest.t) (amb : Ambient)
  (db0 db : Db) :
  StoreOwnerRegisterRequest.storeName d = storeName →
  ∃ a,
    checkStoreNameAvailability storeName db0 = (inr a, db0)
    ∧ slugOf a = createSlug storeName
    ∧ (∀ s, stores (final (registerStoreOwner d amb db))
            = (stores db ++ [s])%list →
            Store.slug s = Some (slugOf a))
    ∧ (available a = true →
       find (byEmail (StoreOwnerRegisterRequest.email d)) (users db0) = None →
       18 ≤ storeOwnerAge d amb →
       ∃ s, stores (final (registerStoreOwner d amb db0))
            = (stores db0 ++ [s])%list
            ∧ Store.slug s = Some (slugOf a)).
Proof.
  intros <-.
  unfold checkStoreNameAvailability, bind, storeRepository_findOne, ret.
  eexists. split; [reflexivity|]. simpl. split; [reflexivity|]. split.
  - intros s Hs.
    destruct (registerStoreOwner_writes d amb db)
      as [(_ & S & _)|[(_ & S & _)|(_ & S & _)]]; rewrite S in Hs.
    + now apply app_one_neq in Hs.
    + now apply app_one_neq in Hs.
    + apply app_inj_tail in Hs as [_ <-]. reflexivity.
  - intros Av E A.
    assert (S : slug_taken
                  (Some (createSlug (StoreOwnerRegisterRequest.storeName d)))
                  db0 = false).
    { apply slug_free_iff.
      destruct (find _ (stores db0)); [discriminate|reflexivity]. }
    destruct (registerStoreOwner_created d amb db0 E A S)
      as (r & _ & _ & Hs & _).
    exists (storeRow d db0). split; [exact Hs|reflexivity].
Qed.

End Created.

(** ** The age guard *)

Section AgeGuard.
Context `{Runtime}.

Lemma registrationData_same (d : StoreOwnerRegisterRequest.t)
  (ip ua : option string) amb :
  storeOwnerAge (registrationData d ip ua) amb = storeOwnerAge d amb
  ∧ StoreOwnerRegisterRequest.email (registrationData d ip ua)
    = StoreOwnerRegisterRequest.email d
  ∧ StoreOwnerRegisterRequest.storeName (registrationData d ip ua)
    = StoreOwnerRegisterRequest.storeName d.
Proof. destruct d; repeat split; reflexivity. Qed.

Lemma storeOwnerChecks_underage (d : StoreOwnerRegisterRequest.t) amb :
  storeOwnerAge d amb < 18 → ∃ e, storeOwnerChecks d amb = Some e.
Proof.
  intros A. apply Z.ltb_lt in A. unfold storeOwnerAge in A.
  unfold storeOwnerChecks.
  destruct (blank _); [eauto|].
  destruct (blank _); [eauto|].
  destruct (blank _); [eauto|].
  destruct (_ || _ || _)%bool; [eauto|].
  rewrite A. eauto.
Qed.

Lemma countryFieldsError_not_age (f : CountryFields) :
  countryFieldsError f
  ≠ Some (mkFieldError "Must be 18 or older" "ownerDateOfBirth").
Proof.
  unfold countryFieldsError.
  repeat (destruct (_ && _)%bool; [discriminate|]).
  discriminate.
Qed.

Lemma storeOwnerChecks_of_age (d : StoreOwnerRegisterRequest.t) amb :
  18 ≤ storeOwnerAge d amb →
  storeOwnerChecks d amb
  ≠ Some (mkFieldError "Must be 18 or older" "ownerDateOfBirth").
Proof.
  intros A. apply Z.ltb_ge in A. unfold storeOwnerAge in A.
  unfold storeOwnerChecks.
  destruct (blank _); [discriminate|].
  destruct (blank _); [discriminate|].
  destruct (blank _); [discriminate|].
  destruct (_ || _ || _)%bool; [discriminate|].
  rewrite A.
  destruct (negb _); [discriminate|].
  destruct (negb _); [discriminate|].
  destruct (negb _); [discriminate|].
  destruct (StoreOwnerRegisterRequest.countrySpecificFields d);
    [apply countryFieldsError_not_age|discriminate].
Qed.

(** C5. [registerStoreOwner] rejects every request whose calendar-year
    difference (current year minus year of birth) is below 18: the service
    throws and writes nothing, and the handler answers 400 without writing.
    A request whose difference is exactly 18 is not rejected on age: neither
    the service nor the handler raises its age error, and when the email is
    new the principal is created. *)
Theorem store_owner_age_guard
  (d : StoreOwnerRegisterRequest.t) (amb : Ambient) (db : Db) :
  (storeOwnerAge d amb < 18 →
     (∃ e, registerStoreOwner d amb db = (inl e, db))
     ∧ (∀ errors ip ua,
          ∃ r, storeOwnerRegister errors d ip ua amb db = (r, db)
               ∧ status r = 400))
  ∧ (storeOwnerAge d amb = 18 →
     outcome (registerStoreOwner d amb db)
     ≠ inl (Error "You must be at least 18 years old to register")
     ∧ storeOwnerChecks d amb
       ≠ Some (mkFieldError "Must be 18 or older" "ownerDateOfBirth")
     ∧ (find (byEmail (StoreOwnerRegisterRequest.email d)) (users db) = None →
        ∃ u, users (final (registerStoreOwner d amb db))
             = (users db ++ [u])%list)).
Proof.
  split.
  - intros A. split.
    + destruct (find (byEmail (StoreOwnerRegisterRequest.email d)) (users db))
        as [u|] eqn:E.
      * rewrite (registerStoreOwner_taken d amb db u E). eauto.
      * rewrite (registerStoreOwner_underage d amb db E A). eauto.
    + intros errors ip ua. unfold storeOwnerRegister.
      destruct errors as [|e0 errors]; [|eexists; split; reflexivity].
      destruct (storeOwnerChecks_underage d amb A) as [e ->].
      eexists; split; reflexivity.
  - intros A. assert (A' : 18 ≤ storeOwnerAge d amb) by lia.
    split; [|split].
    + destruct (registerStoreOwner_writes d amb db)
        as [(U & _ & _)|[(U & _ & _)|(_ & _ & r & ->)]]; [| |discriminate].
      * destruct (find (byEmail (StoreOwnerRegisterRequest.email d))
                    (users db)) as [u|] eqn:E.
        -- rewrite (registerStoreOwner_taken d amb db u E). discriminate.
        -- rewrite (registerStoreOwner_creates_principal d amb db E A') in U.
           symmetry in U. now apply app_one_neq in U.
      * intros Hout.
        destruct (find (byEmail (StoreOwnerRegisterRequest.email d))
                    (users db)) as [u|] eqn:E.
        -- rewrite (registerStoreOwner_taken d amb db u E) in U.
           simpl in U. now apply app_one_neq in U.
        -- destruct (slug_taken
                       (Some (createSlug
                                (StoreOwnerRegisterRequest.storeName d))) db)
             eqn:S.
           ++ rewrite (registerStoreOwner_slug_refused d amb db E A' S)
                in Hout. discriminate.
           ++ destruct (registerStoreOwner_created d amb db E A' S)
                as (r & Hr & _). congruence.
    + now apply storeOwnerChecks_of_age.
    + intros E. eexists.
      now apply registerStoreOwner_creates_principal.
Qed.

End AgeGuard.

(** ** Token validation *)

Section Tokens.
Context `{Runtime}.

(** C4, as the code has it. [validateToken] never throws. For every token
    that verification rejects, structurally invalid, wrongly signed or
    expired alike, it returns null and leaves the stored state as it was,
    so its result is the same for a malformed and for an expired token. *)
Theorem validateToken_swallows_errors
  (token : string) (amb : Ambient) (db : Db) :
  (∀ e, jwt_verify token jwtSecret (now amb) = inl e →
        validateToken token amb db = (inr None, db))
  ∧ (∃ r, validateToken token amb db = (inr r, db))
  ∧ (∀ token' reason,
       jwt_verify token jwtSecret (now amb) = inl (JsonWebTokenError reason) →
       jwt_verify token' jwtSecret (now amb) = inl TokenExpiredError →
       validateToken token amb db = validateToken token' amb db).
Proof.
  unfold validateToken, userRepository_findOne, ret.
  split; [|split].
  - intros e ->. reflexivity.
  - destruct (jwt_verify _ _ _); eexists; reflexivity.
  - intros token' reason -> ->. reflexivity.
Qed.

Lemma substring_all (t : string) :
  String.substring 0 (String.length t) t = t.
Proof. induction t as [|c t IH]; simpl; [reflexivity|now rewrite IH]. Qed.

Lemma prefix_empty (t : string) : String.prefix EmptyString t = true.
Proof. destruct t; reflexivity. Qed.

(** The guard answers a rejected token with "Unauthorized - Invalid token"
    whatever the error: an expired token passes the first [instanceof]
    test, since its error class extends the one tested there. *)
Lemma authMiddleware_rejected_token
  (token : string) (amb : Ambient) (db : Db) (e : JwtError) :
  jwt_verify token jwtSecret (now amb) = inl e →
  authMiddleware (Some ("Bearer " ++ token)) amb db
  = Answered (json 401 "Unauthorized - Invalid token").
Proof.
  intros E. unfold authMiddleware. cbv [String.append]. simpl.
  rewrite prefix_empty, Nat.sub_0_r, substring_all, E. reflexivity.
Qed.

End Tokens.

(** ** One principal per email *)

Section Uniqueness.
Context `{Runtime}.
Hypothesis toLowerCase_idem : lowerCaseIdempotent.

Lemma NoDup_snoc {A} (l : list A) (x : A) :
  List.NoDup l → ¬ In x l → List.NoDup (l ++ [x]).
Proof.
  induction l as [|a l IH]; simpl; intros N X.
  - constructor; [intros []|constructor].
  - apply List.NoDup_cons_iff in N as [Na N].
    constructor.
    + rewrite in_app_iff. simpl. intros [I|[->|[]]]; tauto.
    + apply IH; tauto.
Qed.

Lemma same_key_same_row (l : list User.t) (x u : User.t) :
  List.NoDup (map User.id l) → In x l → In u l →
  User.id x = User.id u → x = u.
Proof.
  induction l as [|a l IH]; simpl; [tauto|].
  intros N Hx Hu E. apply List.NoDup_cons_iff in N as [Na N].
  destruct Hx as [->|Hx], Hu as [->|Hu]; [reflexivity| | |now apply IH].
  - exfalso. apply Na. rewrite E. now apply in_map.
  - exfalso. apply Na. rewrite <- E. now apply in_map.
Qed.

Lemma saved_ids (u' : User.t) (l : list User.t) :
  map User.id (saved u' l) = map User.id l.
Proof.
  unfold saved. rewrite map_map. apply map_ext. intros x.
  destruct (Nat.eqb (User.id x) (User.id u')) eqn:E; [|reflexivity].
  symmetry. now apply Nat.eqb_eq.
Qed.

Lemma saved_emails (u u' : User.t) (l : list User.t) :
  List.NoDup (map User.id l) → In u l →
  User.id u' = User.id u → User.email u' = User.email u →
  map User.email (saved u' l) = map User.email l.
Proof.
  intros N I Ei Ee. unfold saved. rewrite map_map. apply map_ext_in.
  intros x Hx.
  destruct (Nat.eqb (User.id x) (User.id u')) eqn:E; [|reflexivity].
  apply Nat.eqb_eq in E.
  assert (x = u) by (apply (same_key_same_row l); congruence).
  congruence.
Qed.

Lemma consistent_ext (db db' : Db) :
  map User.id (users db') = map User.id (users db) →
  map User.email (users db') = map User.email (users db) →
  (nextId db ≤ nextId db')%nat →
  consistent db → consistent db'.
Proof.
  intros Ei Ee L [B D W U].
  split; rewrite ?Ei, ?Ee; try assumption.
  eapply List.Forall_impl; [|exact B]. simpl. intros; lia.
Qed.

Lemma consistent_saved (db db' : Db) (u u' : User.t) :
  consistent db → In u (users db) →
  User.id u' = User.id u → User.email u' = User.email u →
  users db' = saved u' (users db) →
  (nextId db ≤ nextId db')%nat →
  consistent db'.
Proof.
  intros C I Ei Ee U L.
  apply (consistent_ext db); [| |exact L|exact C]; rewrite U.
  - apply saved_ids.
  - apply (saved_emails u); [apply C|assumption..].
Qed.

Lemma fresh_email_absent (email : string) (l : list User.t) :
  find (byEmail email) l = None →
  ¬ In (toLowerCase email) (map User.email l).
Proof.
  intros F I. apply in_map_iff in I as (x & E & I).
  assert (B := find_none _ _ F x I).
  apply byEmail_spec in E. congruence.
Qed.

Lemma consistent_insert (db db' : Db) (u : User.t) (email : string) :
  consistent db →
  find (byEmail email) (users db) = None →
  User.id u = nextId db → User.email u = toLowerCase email →
  users db' = (users db ++ [u])%list →
  (nextId db < nextId db')%nat →
  consistent db'.
Proof.
  intros [B D W U] F Ei Ee Eu L.
  split; rewrite Eu, map_app; simpl.
  - apply List.Forall_app. split.
    + eapply List.Forall_impl; [|exact B]. simpl. intros; lia.
    + repeat constructor. lia.
  - apply NoDup_snoc; [exact D|].
    intros I. rewrite List.Forall_forall in B. apply B in I. lia.
  - apply List.Forall_app. split; [exact W|].
    repeat constructor. rewrite Ee. apply toLowerCase_idem.
  - apply NoDup_snoc; [exact U|].
    rewrite Ee. now apply fresh_email_absent.
Qed.

Lemma consistent_one_per_email (db : Db) :
  consistent db → oneUserPerEmail db.
Proof.
  intros [_ _ W U]. unfold oneUserPerEmail.
  replace (map (fun u => toLowerCase (User.email u)) (users db))
    with (map User.email (users db)); [exact U|].
  apply map_ext_in. intros x I.
  rewrite List.Forall_forall in W. symmetry. apply W. now apply in_map.
Qed.

Lemma emptyDb_consistent : consistent emptyDb.
Proof. split; simpl; constructor. Qed.

Lemma find_snoc_hit {A} (f : A → bool) (l : list A) (x : A) :
  f x = true → ∃ y, find f (l ++ [x]) = Some y.
Proof.
  intros F. destruct (find f (l ++ [x])) as [y|] eqn:E; [eauto|].
  assert (f x = false); [|congruence].
  apply (find_none _ _ E). apply in_app_iff. right. now left.
Qed.

End Uniqueness.

Section Preservation.
Context `{Runtime}.
Hypothesis toLowerCase_idem : lowerCaseIdempotent.

Lemma withLastLoginAt_same (d : option Date) (u : User.t) :
  User.id (User_withLastLoginAt d u) = User.id u
  ∧ User.email (User_withLastLoginAt d u) = User.email u.
Proof. destruct u; split; reflexivity. Qed.

Lemma exec_consistent (c : Call) (amb : Ambient) (db : Db) :
  consistent db → consistent (exec c amb db).
Proof.
  intros C. destruct c as [cr|[d|d]|t|i data|n]; simpl.
  - destruct (outcome (login cr amb db)) as [e|r] eqn:O.
    + apply login_throws_inv in O.
      now rewrite (login_failure_throws cr amb db e O).
    + destruct (login_returns_inv cr amb db r O) as (u & (F & _) & ->).
      destruct (withLastLoginAt_same (Some (now amb)) u) as [Ei Ee].
      apply (consistent_saved db _ u (User_withLastLoginAt (Some (now amb)) u));
        [exact C|exact (proj1 (find_some _ _ F))|exact Ei|exact Ee|reflexivity|].
      simpl. lia.
  - destruct (find (byEmail (CustomerRegisterRequest.email d)) (users db))
      as [u|] eqn:E.
    + now rewrite (registerCustomer_taken d amb db u E).
    + destruct (registerCustomer_fresh d amb db E)
        as (r & u & -> & Ei & Ee & _).
      apply (consistent_insert toLowerCase_idem db _ u
               (CustomerRegisterRequest.email d));
        [exact C|exact E|exact Ei|exact Ee|reflexivity|simpl; lia].
  - destruct (find (byEmail (StoreOwnerRegisterRequest.email d)) (users db))
      as [u|] eqn:E.
    { now rewrite (registerStoreOwner_taken d amb db u E). }
    destruct (Z.lt_ge_cases (storeOwnerAge d amb) 18) as [A|A].
    { now rewrite (registerStoreOwner_underage d amb db E A). }
    destruct (slug_taken
                (Some (createSlug (StoreOwnerRegisterRequest.storeName d))) db)
      eqn:S.
    + rewrite (registerStoreOwner_slug_refused d amb db E A S).
      apply (consistent_insert toLowerCase_idem db _ (ownerRow d amb db)
               (StoreOwnerRegisterRequest.email d));
        [exact C|exact E|reflexivity|reflexivity|reflexivity|simpl; lia].
    + destruct (registerStoreOwner_created d amb db E A S)
        as (r & _ & U & _ & N & _).
      apply (consistent_insert toLowerCase_idem db _ (ownerRow d amb db)
               (StoreOwnerRegisterRequest.email d));
        [exact C|exact E|reflexivity|reflexivity|exact U|rewrite N; lia].
  - unfold validateToken, userRepository_findOne, ret.
    now destruct (jwt_verify _ _ _).
  - destruct (find (byId i) (users db)) as [u|] eqn:E.
    + assert (I : In u (users db)) by exact (proj1 (find_some _ _ E)).
      destruct (acceptedAt_cases data) as [A|A].
      { now destruct (completeOnboarding_invalid_date i data amb db u E A)
          as [e ->]. }
      destruct (slug_taken
                  (Some (createSlug (OnboardingData.storeName data))) db)
        eqn:S.
      * rewrite (completeOnboarding_slug_refused i data amb db u E A S).
        apply (consistent_saved db _ u (onboard data u));
          [exact C|exact I|reflexivity|reflexivity|reflexivity|simpl; lia].
      * destruct (completeOnboarding_created i data amb db u E A S)
          as [r ->].
        apply (consistent_saved db _ u (onboard data u));
          [exact C|exact I|reflexivity|reflexivity|reflexivity|simpl; lia].
    + now rewrite (completeOnboarding_missing i data amb db E).
  - exact C.
Qed.

Lemma run_consistent (h : list (Call * Ambient)) (db : Db) :
  consistent db → consistent (run h db).
Proof.
  revert db. induction h as [|[c amb] h IH]; intros db C; [exact C|].
  simpl. apply IH. now apply exec_consistent.
Qed.

End Preservation.

Section UniquenessClaims.
Context `{Runtime}.

Lemma register_creates (r : Registration) (amb : Ambient) (db : Db) :
  find (byEmail (registrationEmail r)) (users db) = None →
  ofAge r amb →
  ∃ u, users (final (register r amb db)) = (users db ++ [u])%list
       ∧ User.email u = toLowerCase (registrationEmail r).
Proof.
  intros E A. destruct r as [d|d]; simpl in *.
  - destruct (registerCustomer_fresh d amb db E) as (r & u & -> & _ & Ee & _).
    eauto.
  - exists (ownerRow d amb db). split; [|reflexivity].
    now apply registerStoreOwner_creates_principal.
Qed.

Lemma register_taken (r : Registration) (amb : Ambient) (db : Db) (u : User.t) :
  find (byEmail (registrationEmail r)) (users db) = Some u →
  register r amb db = (inl (Error "Email already registered"), db).
Proof.
  destruct r as [d|d]; simpl; intros E.
  - now apply registerCustomer_taken with u.
  - now apply registerStoreOwner_taken with u.
Qed.

(** C2. Of two registrations, of either kind, whose emails lower-case to
    the same string, the first (for an email no principal has yet and, on
    the store-owner path, an owner of age) creates a principal under the
    lower-cased email, and the second fails with "Email already registered"
    and writes nothing. Hence, lower-casing being idempotent, after any
    history of calls of the service from a consistent stored state, and so
    from the empty one, no two principals have the same normalized email. *)
Theorem one_principal_per_email :
  (∀ (r1 r2 : Registration) (amb1 amb2 : Ambient) (db : Db),
     toLowerCase (registrationEmail r1) = toLowerCase (registrationEmail r2) →
     find (byEmail (registrationEmail r1)) (users db) = None →
     ofAge r1 amb1 →
     let db1 := final (register r1 amb1 db) in
     (∃ u, users db1 = (users db ++ [u])%list
           ∧ User.email u = toLowerCase (registrationEmail r1))
     ∧ register r2 amb2 db1 = (inl (Error "Email already registered"), db1))
  ∧ (lowerCaseIdempotent →
     ∀ (h : list (Call * Ambient)) (db : Db),
       consistent db → consistent (run h db) ∧ oneUserPerEmail (run h db))
  ∧ (lowerCaseIdempotent →
     ∀ h : list (Call * Ambient), oneUserPerEmail (run h emptyDb)).
Proof.
  split; [|split].
  - intros r1 r2 amb1 amb2 db En E A db1.
    destruct (register_creates r1 amb1 db E A) as (u & Hu & Ee).
    split; [eauto|].
    destruct (find_snoc_hit (byEmail (registrationEmail r2)) (users db) u)
      as [v Hv].
    { apply byEmail_spec. congruence. }
    apply register_taken with v. subst db1. now rewrite Hu.
  - intros Idem h db C. split; [now apply run_consistent|].
    now apply consistent_one_per_email, run_consistent.
  - intros Idem h. apply consistent_one_per_email, run_consistent;
      [exact Idem|].
    apply emptyDb_consistent.
Qed.

End UniquenessClaims.

(** ** Two owners, one store name *)

Section SameName.
Context `{Runtime}.

Lemma find_snoc_miss {A} (f : A → bool) (l : list A) (x : A) :
  find f l = None → f x = false → find f (l ++ [x]) = None.
Proof.
  intros F X. induction l as [|a l IH]; simpl in *; [now rewrite X|].
  destruct (f a); [discriminate|now apply IH].
Qed.

(** Whatever the runtime: when a second applicant, with another email,
    asks for the store name a first registration has just taken, the call
    throws on the insert of the store and the second principal stays
    stored. *)
Lemma registerStoreOwner_same_name
  (d1 d2 : StoreOwnerRegisterRequest.t) (amb1 amb2 : Ambient) (db : Db) :
  find (byEmail (StoreOwnerRegisterRequest.email d1)) (users db) = None →
  find (byEmail (StoreOwnerRegisterRequest.email d2)) (users db) = None →
  toLowerCase (StoreOwnerRegisterRequest.email d1)
  ≠ toLowerCase (StoreOwnerRegisterRequest.email d2) →
  18 ≤ storeOwnerAge d1 amb1 → 18 ≤ storeOwnerAge d2 amb2 →
  slug_taken (Some (createSlug (StoreOwnerRegisterRequest.storeName d1))) db
  = false →
  StoreOwnerRegisterRequest.storeName d2
  = StoreOwnerRegisterRequest.storeName d1 →
  let db1 := final (registerStoreOwner d1 amb1 db) in
  let db2 := final (registerStoreOwner d2 amb2 db1) in
  outcome (registerStoreOwner d2 amb2 db1)
  = inl (QueryFailedError "duplicate key value violates unique constraint")
  ∧ users db2 = (users db1 ++ [ownerRow d2 amb2 db1])%list
  ∧ stores db2 = stores db1
  ∧ db2 ≠ db1.
Proof.
  intros E1 E2 Ne A1 A2 S1 Sn db1 db2.
  destruct (registerStoreOwner_created d1 amb1 db E1 A1 S1)
    as (r & _ & U1 & St1 & _).
  fold db1 in U1, St1.
  assert (E2' : find (byEmail (StoreOwnerRegisterRequest.email d2))
                  (users db1) = None).
  { rewrite U1. apply find_snoc_miss; [exact E2|].
    unfold byEmail. apply String.eqb_neq. exact Ne. }
  assert (S2 : slug_taken
                 (Some (createSlug (StoreOwnerRegisterRequest.storeName d2)))
                 db1 = true).
  { unfold slug_taken. rewrite St1, existsb_app, Sn. simpl.
    rewrite String.eqb_refl. now rewrite !orb_true_r. }
  assert (R := registerStoreOwner_slug_refused d2 amb2 db1 E2' A2 S2).
  subst db2. rewrite R. simpl. repeat split.
  intros Hdb. apply (f_equal users) in Hdb. simpl in Hdb.
  symmetry in Hdb. now apply app_one_neq in Hdb.
Qed.

End SameName.

(** ** The claims on concrete requests *)

(** C1. Neither [registerStoreOwner] nor [completeOnboarding] runs its
    writes in a transaction. Paul registers a store whose name yields the
    slug Marie's store already has: the insert of the store is refused, the
    call throws, and the principal written just before stays stored, without
    a store. Alice completes her onboarding with the same store name: the
    insert of the store is refused, the call throws, and her upgrade to
    store owner stays stored. *)
Theorem failed_store_insert_keeps_principal_write :
  let refused :=
    QueryFailedError "duplicate key value violates unique constraint" in
  let r := registerStoreOwner paul noon2025 dbMarie in
  let o := completeOnboarding 3 paulOnboarding noon2025 dbMarieAlice in
  let row := fun u =>
    (User.id u, User.email u, User.role u, User.isFullyRegistered u) in
  outcome r = inl refused
  ∧ map row (users dbMarie) = [(1%nat, "marie@example.com", STORE_OWNER, false)]
  ∧ map row (users (final r))
    = [(1%nat, "marie@example.com", STORE_OWNER, false);
       (3%nat, "paul@example.com", STORE_OWNER, false)]
  ∧ stores (final r) = stores dbMarie
  ∧ final r ≠ dbMarie
  ∧ outcome o = inl refused
  ∧ map row (users dbMarieAlice)
    = [(1%nat, "marie@example.com", STORE_OWNER, false);
       (3%nat, "a@x.com", CUSTOMER, true)]
  ∧ map row (users (final o))
    = [(1%nat, "marie@example.com", STORE_OWNER, false);
       (3%nat, "a@x.com", STORE_OWNER, true)]
  ∧ stores (final o) = stores dbMarieAlice
  ∧ final o ≠ dbMarieAlice.
Proof.
  vm_compute. repeat split; discriminate.
Qed.

(** Witness of C2: Alice registers as "A@x.com", then as "a@x.com"; and
    the sample history, run by the reference runtime, whose lower-casing is
    idempotent, from the empty state and from a state with one principal. *)
Lemma one_principal_per_email_witness :
  register (AsCustomer alice') noon2025
    (final (register (AsCustomer alice) noon2025 emptyDb))
  = (inl (Error "Email already registered"),
     final (register (AsCustomer alice) noon2025 emptyDb))
  ∧ oneUserPerEmail (run sampleHistory frozenDb)
  ∧ oneUserPerEmail (run sampleHistory emptyDb).
Proof.
  destruct one_principal_per_email as (Htwice & Hfrom & Hempty).
  split; [|split].
  - apply (Htwice (AsCustomer alice) (AsCustomer alice') noon2025 noon2025
             emptyDb).
    + vm_compute. reflexivity.
    + vm_compute. reflexivity.
    + simpl. exact I.
  - apply (Hfrom asciiLowerCase_idem sampleHistory frozenDb).
    split; simpl; repeat constructor; try (intros []); reflexivity.
  - apply Hempty. exact asciiLowerCase_idem.
Defined.

(** C3, as the specification has it, fails: the principal Marie's direct
    registration creates is a store owner whose fully-registered flag is not
    true. *)
Lemma store_owner_created_not_fully_registered :
  ∃ u, users (final (registerStoreOwner marie noon2025 emptyDb))
       = (users emptyDb ++ [u])%list
       ∧ User.role u = STORE_OWNER
       ∧ User.isFullyRegistered u ≠ true.
Proof.
  eexists. split; [vm_compute; reflexivity|]. split; [reflexivity|].
  discriminate.
Qed.

(** Witness of C3: Marie's registration creates a principal, a store
    owner who is not fully registered. *)
Lemma registerStoreOwner_not_fully_registered_witness :
  (∃ u, users (final (registerStoreOwner marie noon2025 emptyDb))
        = (users emptyDb ++ [u])%list)
  ∧ User.role (ownerRow marie noon2025 emptyDb) = STORE_OWNER
  ∧ User.isFullyRegistered (ownerRow marie noon2025 emptyDb) = false.
Proof.
  destruct (registerStoreOwner_not_fully_registered marie noon2025 emptyDb)
    as (Hflag & Hcreated & _).
  split.
  - apply Hcreated.
    + vm_compute. reflexivity.
    + vm_compute. discriminate.
  - apply Hflag. vm_compute. reflexivity.
Defined.

(** C4, as the specification has it, fails: [validateToken] throws neither
    for an expired token nor for a malformed one; it returns null for both,
    and a caller sees no difference. *)
Lemma validateToken_failures_alike :
  jwt_verify mariesToken jwtSecret (now autumn2025) = inl TokenExpiredError
  ∧ jwt_verify "garbage" jwtSecret (now autumn2025)
    = inl (JsonWebTokenError "jwt malformed")
  ∧ outcome (validateToken mariesToken autumn2025 dbMarie) = inr None
  ∧ outcome (validateToken "garbage" autumn2025 dbMarie) = inr None
  ∧ outcome (validateToken mariesToken autumn2025 dbMarie)
    ≠ inl (JwtThrown TokenExpiredError)
  ∧ validateToken mariesToken autumn2025 dbMarie
    = validateToken "garbage" autumn2025 dbMarie.
Proof.
  vm_compute. repeat split; discriminate.
Qed.

(** Witness of C4: Marie's token, once expired, and a malformed one. *)
Lemma validateToken_swallows_errors_witness :
  validateToken mariesToken autumn2025 dbMarie = (inr None, dbMarie)
  ∧ validateToken "garbage" autumn2025 dbMarie
    = validateToken mariesToken autumn2025 dbMarie.
Proof.
  split.
  - destruct (validateToken_swallows_errors mariesToken autumn2025 dbMarie)
      as (Hrejected & _).
    apply (Hrejected TokenExpiredError).
    vm_compute. reflexivity.
  - destruct (validateToken_swallows_errors "garbage" autumn2025 dbMarie)
      as (_ & _ & Halike).
    apply (Halike mariesToken "jwt malformed"); vm_compute; reflexivity.
Defined.

(** Witness of C5: a difference of 17 is rejected, a difference of 18 is
    not. *)
Lemma store_owner_age_guard_witness :
  (∃ e, registerStoreOwner junior noon2025 emptyDb = (inl e, emptyDb))
  ∧ outcome (registerStoreOwner marie noon2025 emptyDb)
    ≠ inl (Error "You must be at least 18 years old to register").
Proof.
  split.
  - destruct (store_owner_age_guard junior noon2025 emptyDb) as (Hunder & _).
    apply Hunder. vm_compute. reflexivity.
  - destruct (store_owner_age_guard marie noon2025 emptyDb) as (_ & Hexact).
    apply Hexact. vm_compute. reflexivity.
Defined.

(** Witness of C7: "Chez Marie" is checked, then registered. *)
Lemma check_and_register_same_slug_witness :
  ∃ a, checkStoreNameAvailability "Chez Marie" emptyDb = (inr a, emptyDb)
       ∧ slugOf a = "chez-marie"
       ∧ Store.slug (storeRow marie emptyDb) = Some (slugOf a).
Proof.
  destruct (check_and_register_same_slug "Chez Marie" marie noon2025
              emptyDb emptyDb) as (a & Hcheck & Hslug & Hsame & _).
  - reflexivity.
  - exists a. split; [exact Hcheck|]. split; [exact Hslug|].
    apply Hsame. vm_compute. reflexivity.
Defined.

(** Witness of C8: the store Marie's registration creates. *)
Lemma created_store_all_pending_witness :
  allPending (storeRow marie emptyDb).
Proof.
  destruct (created_store_all_pending marie 1%nat paulOnboarding noon2025
              emptyDb) as (Hregistered & _).
  apply Hregistered. vm_compute. reflexivity.
Defined.


(** * Further properties of the code *)

(** ** Registration and login *)

Section RegisterLogin.
Context `{Runtime}.

Lemma find_snoc_exact {A} (f : A → bool) (l : list A) (x : A) :
  find f l = None → f x = true → find f (l ++ [x]) = Some x.
Proof.
  intros F X. induction l as [|a l IH]; simpl in *; [now rewrite X|].
  destruct (f a); [discriminate|now apply IH].
Qed.

Lemma byEmail_normal (e e' : string) (u : User.t) :
  toLowerCase e' = toLowerCase e → byEmail e' u = byEmail e u.
Proof. unfold byEmail. now intros ->. Qed.

Lemma find_byEmail_normal (e e' : string) (l : list User.t) :
  toLowerCase e' = toLowerCase e → find (byEmail e') l = find (byEmail e) l.
Proof.
  intros E. induction l as [|a l IH]; simpl; [reflexivity|].
  now rewrite (byEmail_normal e e' a E), IH.
Qed.

(** X1. [registerCustomer] never writes a store or an audit event. For an
    email no principal has, it returns and adds exactly one principal: a
    local customer under the lower-cased email, with the hash of the
    password, whose key the returned view carries, and it returns no store;
    for an email a principal has, it throws and adds nothing. *)
Theorem registerCustomer_effect
  (d : CustomerRegisterRequest.t) (amb : Ambient) (db : Db) :
  let db' := final (registerCustomer d amb db) in
  stores db' = stores db
  ∧ auditLogs db' = auditLogs db
  ∧ (find (byEmail (CustomerRegisterRequest.email d)) (users db) = None →
     ∃ res u,
       outcome (registerCustomer d amb db) = inr res
       ∧ users db' = (users db ++ [u])%list
       ∧ User.role u = CUSTOMER ∧ User.type u = LOCAL
       ∧ User.email u = toLowerCase (CustomerRegisterRequest.email d)
       ∧ User.password u
         = Some (bcrypt_hash (CustomerRegisterRequest.password d) 12
                   (salt amb))
       ∧ User.firstName u = CustomerRegisterRequest.firstName d
       ∧ User.lastName u = CustomerRegisterRequest.lastName d
       ∧ UserView.id (user res) = User.id u
       ∧ UserView.email (user res) = User.email u
       ∧ store res = None)
  ∧ (is_Some (find (byEmail (CustomerRegisterRequest.email d)) (users db)) →
     registerCustomer d amb db
     = (inl (Error "Email already registered"), db)).
Proof.
  unfold registerCustomer, bind, userRepository_findOne,
    userRepository_insert, throw, ret.
  destruct (find _ (users db)) as [u|] eqn:E; simpl.
  - repeat split; try discriminate. 
  - repeat split.
    + intros _. eexists _, _. repeat split.
    + intros [x Hx]. discriminate.
Qed.

(** The row a registration of either kind writes. *)
Lemma register_row (r : Registration) (amb : Ambient) (db : Db) :
  find (byEmail (registrationEmail r)) (users db) = None →
  ofAge r amb →
  ∃ u, users (final (register r amb db)) = (users db ++ [u])%list
       ∧ User.id u = nextId db
       ∧ User.email u = toLowerCase (registrationEmail r)
       ∧ User.password u
         = Some (bcrypt_hash (registrationPassword r) 12 (salt amb))
       ∧ User.isActive u = User_default_isActive.
Proof.
  intros E A. destruct r as [d|d]; simpl in *.
  - unfold registerCustomer, bind, userRepository_findOne,
      userRepository_insert, throw, ret.
    rewrite E. simpl. eexists. repeat split.
  - exists (ownerRow d amb db).
    rewrite (registerStoreOwner_creates_principal d amb db E A).
    repeat split.
Qed.

(** The view a login that passes returns. *)
Lemma login_passes_view (cr : LoginRequest.t) (amb : Ambient) (db : Db)
  (u : User.t) :
  LoginPasses cr db u →
  ∃ res, login cr amb db = (inr res, touched u amb db)
         ∧ UserView.id (user res) = User.id u
         ∧ UserView.email (user res) = User.email u
         ∧ UserView.lastLoginAt (user res) = Some (Some (now amb))
         ∧ token res
           = generateToken (User_withLastLoginAt (Some (now amb)) u)
               (now amb).
Proof.
  intros (E & P & C & A).
  unfold login, bind, userRepository_findOne, throw.
  rewrite E, P, C, A. simpl.
  eexists. split; [reflexivity|]. destruct u; repeat split.
Qed.

(** X2. Registration and login compose. After a registration of either
    kind has created a principal (new email; owner of age), a login under
    any spelling of the email that lower-cases to the same string returns,
    with the new principal's key and the instant of the login as last
    login, provided the account default is active and [bcrypt] accepts the
    password against the hash it made of it; and it fails with "Invalid
    credentials", writing nothing, for every password [bcrypt] rejects. *)
Theorem register_then_login
  (r : Registration) (amb amb' : Ambient) (db : Db) (email' : string) :
  find (byEmail (registrationEmail r)) (users db) = None →
  ofAge r amb →
  toLowerCase email' = toLowerCase (registrationEmail r) →
  User_default_isActive = true →
  let hash := bcrypt_hash (registrationPassword r) 12 (salt amb) in
  hash ≠ EmptyString →
  let db1 := final (register r amb db) in
  (bcrypt_compare (registrationPassword r) hash = true →
   ∃ res u,
     login (LoginRequest.mk email' (registrationPassword r)) amb' db1
     = (inr res, touched u amb' db1)
     ∧ In u (users db1)
     ∧ User.id u = nextId db
     ∧ UserView.id (user res) = nextId db
     ∧ UserView.lastLoginAt (user res) = Some (Some (now amb')))
  ∧ (∀ password',
       bcrypt_compare password' hash = false →
       login (LoginRequest.mk email' password') amb' db1
       = (inl (Error "Invalid credentials"), db1)).
Proof.
  intros E A En Act hash Hne db1.
  destruct (register_row r amb db E A) as (u & Hu & Hid & Hem & Hpw & Hact).
  fold db1 in Hu.
  assert (F : find (byEmail email') (users db1) = Some u).
  { rewrite Hu. apply find_snoc_exact.
    - now rewrite (find_byEmail_normal (registrationEmail r)).
    - apply byEmail_spec. congruence. }
  assert (T : truthy (User.password u) = true).
  { rewrite Hpw. simpl. apply negb_true_iff, String.eqb_neq. exact Hne. }
  split.
  - intros C.
    assert (P : LoginPasses
                  (LoginRequest.mk email' (registrationPassword r)) db1 u).
    { repeat split; simpl; try assumption.
      - rewrite Hpw. exact C.
      - congruence. }
    destruct (login_passes_view _ amb' db1 u P)
      as (res & L & Vid & _ & Vll & _).
    exists res, u. repeat split; try assumption; try congruence.
    rewrite Hu. apply in_app_iff. right. now left.
  - intros password' C.
    apply login_failure_throws.
    apply (WrongPassword _ _ u); simpl; try assumption.
    rewrite Hpw. exact C.
Qed.

End RegisterLogin.

(** ** Tokens and the guard *)

Section Guard.
Context `{Runtime}.

(** The guard on a header that does start with "Bearer ". *)
Lemma authMiddleware_bearer (token : string) (amb : Ambient) (db : Db) :
  authMiddleware (Some ("Bearer " ++ token)) amb db
  = match jwt_verify token jwtSecret (now amb) with
    | inr payload =>
        match find (byPayloadActive (userId payload)) (users db) with
        | Some u => Next u (User.id u)
        | None => Answered (json 401 "Unauthorized - Invalid token")
        end
    | inl _ => Answered (json 401 "Unauthorized - Invalid token")
    end.
Proof.
  unfold authMiddleware. cbv [String.append]. simpl.
  rewrite prefix_empty, Nat.sub_0_r, substring_all.
  destruct (jwt_verify _ _ _); reflexivity.
Qed.

(** X3. A token round trip. When [jsonwebtoken] verifies the token the
    service issued for a principal back to the payload it signed, and the
    principal is stored and active, [validateToken] returns that principal,
    the guard attaches it and its key to the request, and [GET /me] behind
    the guard answers 200 with that principal's data. *)
Theorem token_round_trip
  (u : User.t) (issuedAt : Date) (amb : Ambient) (db : Db) :
  jwt_verify (generateToken u issuedAt) jwtSecret (now amb)
  = inr (mkPayload (Some (User.id u)) (User.email u) (User.role u)) →
  find (byIdActive (User.id u)) (users db) = Some u →
  let token := generateToken u issuedAt in
  validateToken token amb db = (inr (Some u), db)
  ∧ authMiddleware (Some ("Bearer " ++ token)) amb db = Next u (User.id u)
  ∧ routeMe (Some ("Bearer " ++ token)) amb db
    = send "User retrieved successfully"
        (CurrentUser.mk (User.id u) (User.email u) (User.firstName u)
           (User.lastName u) (User.role u) (User.type u) (User.isActive u)
           (User.isFullyRegistered u)
           (User.countrySpecificFields u ≫= (.!! "siret"))).
Proof.
  intros V F token.
  split; [|split].
  - unfold validateToken, userRepository_findOne. subst token.
    rewrite V.
    change (find _ (users db)) with (find (byIdActive (User.id u)) (users db)).
    now rewrite F.
  - subst token. rewrite authMiddleware_bearer, V.
    change (find _ (users db)) with (find (byIdActive (User.id u)) (users db)).
    now rewrite F.
  - unfold routeMe. subst token.
    rewrite authMiddleware_bearer, V.
    change (find _ (users db)) with (find (byIdActive (User.id u)) (users db)).
    now rewrite F.
Qed.

(** X4. The guard calls [next()] only for a request whose header starts
    with "Bearer " and carries a token that verifies, and only with a
    principal that is stored and active. When the verified token carries a
    [userId], that principal is the one it names. When it carries none, the
    lookup loses its condition on the key: if any stored principal is
    active, the guard lets the request through as an active principal,
    whoever sent it. A request without such a header is answered 401
    "Unauthorized - No token provided". *)
Theorem authMiddleware_lets_through
  (authorization : option string) (amb : Ambient) (db : Db) :
  (∀ u i,
     authMiddleware authorization amb db = Next u i →
     ∃ header payload,
       authorization = Some header
       ∧ String.prefix "Bearer " header = true
       ∧ jwt_verify
           (String.substring 7 (String.length header - 7) header)
           jwtSecret (now amb)
         = inr payload
       ∧ (∀ k, userId payload = Some k → User.id u = k)
       ∧ User.id u = i
       ∧ User.isActive u = true
       ∧ In u (users db))
  ∧ (∀ token payload w,
       authorization = Some ("Bearer " ++ token) →
       jwt_verify token jwtSecret (now amb) = inr payload →
       userId payload = None →
       In w (users db) → User.isActive w = true →
       ∃ v, authMiddleware authorization amb db = Next v (User.id v)
            ∧ In v (users db) ∧ User.isActive v = true)
  ∧ ((∀ header, authorization = Some header →
                String.prefix "Bearer " header = false) →
     authMiddleware authorization amb db
     = Answered (json 401 "Unauthorized - No token provided")).
Proof.
  split; [|split].
  - unfold authMiddleware.
    intros u i. destruct authorization as [header|]; [|discriminate].
    destruct (negb (truthy (Some header))); [discriminate|].
    destruct (String.prefix "Bearer " header) eqn:P; [|discriminate].
    simpl.
    destruct (jwt_verify _ _ _) as [e|payload] eqn:V.
    + simpl. discriminate.
    + destruct (find _ (users db)) as [v|] eqn:F; [|discriminate].
      intros [= -> <-].
      destruct (find_some _ _ F) as [I B].
      exists header, payload.
      split; [reflexivity|]. split; [exact P|]. split; [exact V|].
      unfold byPayloadActive in B.
      destruct (userId payload) as [k|].
      * unfold byIdActive in B. apply andb_true_iff in B as [Bi Ba].
        apply Nat.eqb_eq in Bi.
        split; [intros k' [= <-]; exact Bi|]. auto.
      * split; [discriminate|]. auto.
  - intros token payload w -> V N I A.
    rewrite authMiddleware_bearer, V, N. unfold byPayloadActive.
    destruct (find (fun u => User.isActive u) (users db)) as [v|] eqn:F.
    + exists v. destruct (find_some _ _ F) as [Iv Av]. auto.
    + rewrite (find_none _ _ F w I) in A. discriminate.
  - unfold authMiddleware.
    intros N. destruct authorization as [header|]; [|reflexivity].
    rewrite (N header eq_refl). now rewrite orb_true_r.
Qed.

End Guard.

(** ** The audit trail of a store-owner registration *)

Section AuditTrail.
Context `{Runtime}.

(** X5. A [registerStoreOwner] that throws appends no audit event. One
    that returns appends the event of the registration of the principal,
    the event of the registration of the store, and then, for each consent
    the request gives and no other, one consent event under the name of
    that consent, in the order terms, privacy policy, data processing,
    marketing; every event carries the new principal as actor and the
    address and agent of the request. *)
Theorem registerStoreOwner_audit_trail
  (d : StoreOwnerRegisterRequest.t) (amb : Ambient) (db : Db) :
  let db' := final (registerStoreOwner d amb db) in
  let uid := nextId db in
  let ip := StoreOwnerRegisterRequest.ipAddress d in
  let ua := StoreOwnerRegisterRequest.userAgent d in
  (∀ e, outcome (registerStoreOwner d amb db) = inl e →
        auditLogs db' = auditLogs db)
  ∧ (∀ r, outcome (registerStoreOwner d amb db) = inr r →
       auditLogs db'
       = (auditLogs db
          ++ mkAuditLog USER_REGISTRATION uid uid ip ua
          :: mkAuditLog STORE_REGISTRATION (S uid) uid ip ua
          :: map (fun consent =>
                    mkAuditLog (CONSENT_ACCEPTANCE consent) uid uid ip ua)
                 (givenConsents d))%list).
Proof.
  intros db' uid ip ua. split.
  - intros e He. subst db'.
    destruct (find (byEmail (StoreOwnerRegisterRequest.email d)) (users db))
      as [u|] eqn:E.
    { now rewrite (registerStoreOwner_taken d amb db u E). }
    destruct (Z.lt_ge_cases (storeOwnerAge d amb) 18) as [A|A].
    { now rewrite (registerStoreOwner_underage d amb db E A). }
    destruct (slug_taken
                (Some (createSlug (StoreOwnerRegisterRequest.storeName d))) db)
      eqn:S.
    + now rewrite (registerStoreOwner_slug_refused d amb db E A S).
    + destruct (registerStoreOwner_created d amb db E A S) as (r & Hr & _).
      congruence.
  - intros r Hr. subst db' uid ip ua.
    destruct (registerStoreOwner_returns_inv d amb db r Hr) as (E & A & S).
    clear Hr.
    unfold registerStoreOwner, bind, userRepository_findOne,
      userRepository_insert, storeRepository_save, throw.
    rewrite E. simpl.
    apply Z.ltb_ge in A. unfold storeOwnerAge in A. rewrite A.
    simpl in S |- *. rewrite S.
    unfold when, auditService_log, ret, final, givenConsents.
    destruct (StoreOwnerRegisterRequest.acceptedTerms d),
      (StoreOwnerRegisterRequest.acceptedPrivacyPolicy d),
      (StoreOwnerRegisterRequest.acceptedDataProcessing d),
      (default false (StoreOwnerRegisterRequest.marketingConsent d));
      simpl; rewrite <- ?app_assoc; reflexivity.
Qed.

End AuditTrail.

(** ** What every history keeps *)

Section Kept.
Context `{Runtime}.

Lemma withLastLoginAt_stamped (d : option Date) (u : User.t) :
  consentsStamped u → consentsStamped (User_withLastLoginAt d u).
Proof. now destruct u. Qed.

Lemma onboard_stamped (data : OnboardingData.t) (u : User.t) :
  acceptedAt data ≠ Some None →
  consentsStamped u → consentsStamped (onboard data u).
Proof.
  intros A (_ & _ & _ & M). unfold consentsStamped, onboard. simpl.
  unfold acceptedAt in *.
  destruct (OnboardingData.acceptedCGU data).
  - destruct (newDate _) as [d|]; [|congruence]. simpl.
    repeat split; try (intros _; now eexists). exact M.
  - repeat split; try discriminate. exact M.
Qed.

Lemma ownerRow_stamped (d : StoreOwnerRegisterRequest.t) amb db :
  consentsStamped (ownerRow d amb db).
Proof.
  unfold consentsStamped, ownerRow, newStoreOwner, stamp. simpl.
  repeat split; intros ->; now eexists.
Qed.

Lemma In_saved (u u' : User.t) (l : list User.t) :
  In u l → User.id u' = User.id u → In u' (saved u' l).
Proof.
  intros I E. unfold saved. apply in_map_iff. exists u. split; [|exact I].
  now rewrite E, Nat.eqb_refl.
Qed.

(** The writes of one call, in order. *)
Lemma exec_writes (c : Call) (amb : Ambient) (db : Db) :
  rtc Write db (exec c amb db).
Proof.
  destruct c as [cr|[d|d]|t|i data|n]; simpl.
  - destruct (outcome (login cr amb db)) as [e|r] eqn:O.
    + apply login_throws_inv in O.
      rewrite (login_failure_throws cr amb db e O). constructor.
    + destruct (login_returns_inv cr amb db r O) as (u & (F & _) & ->).
      apply rtc_once.
      apply (SavedUser _ _ u (User_withLastLoginAt (Some (now amb)) u));
        [exact (proj1 (find_some _ _ F))|now destruct u
        |apply withLastLoginAt_stamped|reflexivity|reflexivity].
  - destruct (find (byEmail (CustomerRegisterRequest.email d)) (users db))
      as [u|] eqn:E.
    + rewrite (registerCustomer_taken d amb db u E). constructor.
    + unfold registerCustomer, bind, userRepository_findOne,
        userRepository_insert, ret.
      rewrite E. simpl. apply rtc_once.
      eapply NewUser; [|reflexivity|reflexivity].
      unfold consentsStamped. simpl.
      repeat split; discriminate.
  - destruct (find (byEmail (StoreOwnerRegisterRequest.email d)) (users db))
      as [u|] eqn:E.
    { rewrite (registerStoreOwner_taken d amb db u E). constructor. }
    destruct (Z.lt_ge_cases (storeOwnerAge d amb) 18) as [A|A].
    { rewrite (registerStoreOwner_underage d amb db E A). constructor. }
    destruct (slug_taken
                (Some (createSlug (StoreOwnerRegisterRequest.storeName d))) db)
      eqn:S.
    + rewrite (registerStoreOwner_slug_refused d amb db E A S).
      apply rtc_once.
      apply (NewUser _ _ (ownerRow d amb db));
        [apply ownerRow_stamped|reflexivity|reflexivity].
    + destruct (registerStoreOwner_created d amb db E A S)
        as (r & _ & U & St & _).
      apply rtc_l with (mkDb (users db ++ [ownerRow d amb db]) (stores db)
                          (auditLogs db) (Datatypes.S (nextId db))).
      * apply (NewUser _ _ (ownerRow d amb db));
          [apply ownerRow_stamped|reflexivity|reflexivity].
      * apply rtc_once.
        apply (NewStore _ _ (storeRow d db) (ownerRow d amb db));
          [exact S| |reflexivity|exact U|exact St].
        simpl. apply in_app_iff. right. now left.
  - unfold validateToken, userRepository_findOne, ret.
    destruct (jwt_verify _ _ _); constructor.
  - destruct (find (byId i) (users db)) as [u|] eqn:E.
    + assert (I : In u (users db)) by exact (proj1 (find_some _ _ E)).
      assert (Ei : User.id u = i) by exact (proj1 (byId_spec i u)
                                              (proj2 (find_some _ _ E))).
      destruct (acceptedAt_cases data) as [A|A].
      { destruct (completeOnboarding_invalid_date i data amb db u E A)
          as [e ->].
        constructor. }
      assert (W : Write db (upgraded data u db)).
      { apply (SavedUser _ _ u (onboard data u));
          [exact I|reflexivity|now apply onboard_stamped|reflexivity
          |reflexivity]. }
      destruct (slug_taken
                  (Some (createSlug (OnboardingData.storeName data))) db)
        eqn:S.
      * rewrite (completeOnboarding_slug_refused i data amb db u E A S).
        now apply rtc_once.
      * destruct (completeOnboarding_created i data amb db u E A S)
          as [r ->].
        apply rtc_l with (upgraded data u db); [exact W|].
        apply rtc_once.
        apply (NewStore _ _ (onboardedRow i data db) (onboard data u));
          [exact S| |simpl; now rewrite Ei|reflexivity|reflexivity].
        apply (In_saved u); [exact I|reflexivity].
    + rewrite (completeOnboarding_missing i data amb db E). constructor.
  - constructor.
Qed.

Lemma run_writes (h : list (Call * Ambient)) (db : Db) :
  rtc Write db (run h db).
Proof.
  revert db. induction h as [|[c amb] h IH]; intros db; [constructor|].
  simpl. eapply rtc_trans; [apply exec_writes|apply IH].
Qed.

Lemma Write_stamped (db db' : Db) :
  Write db db' →
  List.Forall consentsStamped (users db) →
  List.Forall consentsStamped (users db').
Proof.
  intros [u u' I E P U _|u P U _|s o _ _ _ U _|U _] F; rewrite U; auto.
  - rewrite List.Forall_forall in F. unfold saved.
    apply List.Forall_forall. intros x Hx.
    apply in_map_iff in Hx as (y & <- & Hy).
    destruct (Nat.eqb _ _); auto.
  - apply List.Forall_app. split; [exact F|].
    constructor; [exact P|constructor].
Qed.

Lemma slug_taken_spec (sl : string) (db : Db) :
  slug_taken (Some sl) db = false → ¬ In sl (storedSlugs db).
Proof.
  unfold slug_taken, storedSlugs.
  induction (stores db) as [|a l IH]; simpl; [tauto|].
  destruct (Store.slug a) as [s'|]; simpl.
  - intros X. apply orb_false_iff in X as [X1 X2].
    apply String.eqb_neq in X1. intros [->|I]; [congruence|now apply IH].
  - exact IH.
Qed.

Lemma storedSlugs_snoc (l : list Store.t) (s : Store.t) :
  omap Store.slug (l ++ [s])%list
  = (omap Store.slug l ++ match Store.slug s with
                          | Some sl => [sl]
                          | None => []
                          end)%list.
Proof.
  rewrite omap_app. simpl. now destruct (Store.slug s).
Qed.

Lemma Write_slugs (db db' : Db) :
  Write db db' → slugsDistinct db → slugsDistinct db'.
Proof.
  unfold slugsDistinct, storedSlugs.
  intros [u u' _ _ _ _ S|u _ _ S|s o T _ _ _ S|_ S] N; rewrite S; auto.
  rewrite storedSlugs_snoc.
  destruct (Store.slug s) as [sl|]; [|now rewrite app_nil_r].
  apply NoDup_snoc; [exact N|]. now apply slug_taken_spec.
Qed.

Lemma Write_owned (db db' : Db) :
  Write db db' → storesOwned db → storesOwned db'.
Proof.
  unfold storesOwned.
  intros [u u' I E _ U S|u _ U S|s o _ I O U S|U S] F; rewrite S.
  - eapply List.Forall_impl; [|exact F]. simpl.
    intros st (v & Iv & Ov). rewrite U.
    destruct (Nat.eqb (User.id v) (User.id u')) eqn:Q.
    + exists u'. split; [now apply (In_saved u)|].
      apply Nat.eqb_eq in Q. congruence.
    + exists v. split; [|exact Ov].
      unfold saved. apply in_map_iff. exists v. now rewrite Q.
  - eapply List.Forall_impl; [|exact F]. simpl.
    intros st (v & Iv & Ov). exists v. split; [|exact Ov].
    rewrite U. apply in_app_iff. now left.
  - apply List.Forall_app. split.
    + eapply List.Forall_impl; [|exact F]. simpl.
      intros st (v & Iv & Ov). exists v. now rewrite U.
    + constructor; [|constructor]. exists o. now rewrite U.
  - eapply List.Forall_impl; [|exact F]. simpl.
    intros st (v & Iv & Ov). exists v. now rewrite U.
Qed.

Lemma rtc_kept (P : Db → Prop) :
  (∀ db db', Write db db' → P db → P db') →
  ∀ db db', rtc Write db db' → P db → P db'.
Proof.
  intros Step db db' R. induction R as [|x y z W _ IH]; [auto|].
  intros Px. apply IH. now apply (Step x).
Qed.

(** X6. Over every history of calls of the service, each stored principal
    has a timestamp for every consent it has given (terms, privacy policy,
    data processing, marketing), when that holds of the state the history
    starts from - the empty one, for instance. The converse is not kept: a
    history from the empty state leaves a principal with the timestamp of a
    consent it no longer gives. *)
Theorem consents_stay_stamped (h : list (Call * Ambient)) (db : Db) :
  (List.Forall consentsStamped (users db) →
   List.Forall consentsStamped (users (run h db)))
  ∧ ∃ h' u,
      In u (users (run h' emptyDb))
      ∧ User.acceptedTerms u = false
      ∧ is_Some (User.termsAcceptedAt u).
Proof.
  split.
  { apply (rtc_kept (fun d => List.Forall consentsStamped (users d))
             Write_stamped), run_writes. }
  exists [(CallRegister (AsStoreOwner marie), noon2025);
          (CallCompleteOnboarding 1%nat withdrawal, autumn2025)],
    (onboard withdrawal (ownerRow marie noon2025 emptyDb)).
  split; [|split; [reflexivity|now eexists]].
  assert (A : acceptedAt withdrawal ≠ Some None) by discriminate.
  destruct (registerStoreOwner_created marie noon2025 emptyDb)
    as (r & _ & U & _);
    [reflexivity|unfold storeOwnerAge; simpl; lia|reflexivity|].
  assert (E : find (byId 1%nat)
                (users (final (registerStoreOwner marie noon2025 emptyDb)))
              = Some (ownerRow marie noon2025 emptyDb))
    by now rewrite U.
  exact (proj1 (find_some _ _
                  (completeOnboarding_principal 1%nat withdrawal autumn2025
                     _ _ E A))).
Qed.

(** X7. Over every history of calls of the service, no two stored stores
    have the same slug, when none have in the state the history starts
    from. *)
Theorem slugs_stay_distinct (h : list (Call * Ambient)) (db : Db) :
  slugsDistinct db → slugsDistinct (run h db).
Proof. apply (rtc_kept slugsDistinct Write_slugs), run_writes. Qed.

(** X8. Over every history of calls of the service, every stored store
    names a stored principal as its owner, when every store does in the
    state the history starts from: the service never stores a store
    without its owner, and never removes a principal. *)
Theorem stores_stay_owned (h : list (Call * Ambient)) (db : Db) :
  storesOwned db → storesOwned (run h db).
Proof. apply (rtc_kept storesOwned Write_owned), run_writes. Qed.

End Kept.

(** ** Onboarding, again *)

Section OnboardingMore.
Context `{Runtime}.

Lemma completeOnboarding_users (i : Uuid) (data : OnboardingData.t) amb db u :
  find (byId i) (users db) = Some u →
  acceptedAt data ≠ Some None →
  users (final (completeOnboarding i data amb db))
  = saved (onboard data u) (users db).
Proof.
  intros E A.
  destruct (slug_taken
              (Some (createSlug (OnboardingData.storeName data))) db) eqn:S.
  - now rewrite (completeOnboarding_slug_refused i data amb db u E A S).
  - now destruct (completeOnboarding_created i data amb db u E A S)
      as [r ->].
Qed.

Lemma In_saved_other (x u' : User.t) (l : list User.t) :
  In x l → User.id x ≠ User.id u' → In x (saved u' l).
Proof.
  intros I N. unfold saved. apply in_map_iff. exists x. split; [|exact I].
  apply Nat.eqb_neq in N. now rewrite N.
Qed.

(** X9. [completeOnboarding], for a principal it finds, adds and removes
    no principal and changes no other principal. Unless the consent is given
    under a date that does not parse, it rewrites that principal in place:
    key, email, password, names, origin, active flag and last login stay,
    the role becomes store owner and the fully-registered flag true, the
    phone and the business address are the supplied ones, and the
    regulatory fields keep every entry they had but [siret], which becomes
    the supplied one. When the consent is given under a date that does not
    parse, the call throws and nothing is written. The billing address of
    the request has no effect at all. *)
Theorem completeOnboarding_rewrites_in_place
  (i : Uuid) (data : OnboardingData.t) (amb : Ambient) (db : Db)
  (u : User.t) :
  find (byId i) (users db) = Some u →
  let db' := final (completeOnboarding i data amb db) in
  (acceptedAt data ≠ Some None →
   ∃ u' fields,
     find (byId i) (users db') = Some u'
     ∧ User.id u' = User.id u ∧ User.email u' = User.email u
     ∧ User.password u' = User.password u
     ∧ User.firstName u' = User.firstName u
     ∧ User.lastName u' = User.lastName u
     ∧ User.type u' = User.type u ∧ User.isActive u' = User.isActive u
     ∧ User.lastLoginAt u' = User.lastLoginAt u
     ∧ User.role u' = STORE_OWNER ∧ User.isFullyRegistered u' = true
     ∧ User.ownerPhone u' = Some (OnboardingData.phoneNumber data)
     ∧ User.businessAddress u' = Some (OnboardingData.storeAddress data)
     ∧ User.countrySpecificFields u' = Some fields
     ∧ fields !! "siret" = Some (OnboardingData.siret data)
     ∧ (∀ k, k ≠ "siret" →
             fields !! k = default ∅ (User.countrySpecificFields u) !! k))
  ∧ (acceptedAt data = Some None →
     ∃ e, completeOnboarding i data amb db = (inl e, db))
  ∧ List.length (users db') = List.length (users db)
  ∧ (∀ x, In x (users db) → User.id x ≠ i → In x (users db'))
  ∧ (∀ billing,
       completeOnboarding i (billedTo billing data) amb db
       = completeOnboarding i data amb db).
Proof.
  intros E db'.
  assert (Ei : User.id u = i)
    by exact (proj1 (byId_spec i u) (proj2 (find_some _ _ E))).
  assert (U : acceptedAt data ≠ Some None →
              users db' = saved (onboard data u) (users db))
    by (intros A; now apply completeOnboarding_users).
  assert (V : acceptedAt data = Some None → db' = db).
  { intros A. subst db'.
    now destruct (completeOnboarding_invalid_date i data amb db u E A)
      as [e ->]. }
  split; [|split; [|split; [|split]]].
  - intros A.
    exists (onboard data u), (<["siret" := OnboardingData.siret data]>
                               (default ∅ (User.countrySpecificFields u))).
    rewrite (U A). split.
    { unfold saved. now apply find_saved with (u := u). }
    repeat split.
    + apply lookup_insert_eq.
    + intros k N. now apply lookup_insert_ne.
  - intros A.
    destruct (completeOnboarding_invalid_date i data amb db u E A) as [m ->].
    eauto.
  - destruct (acceptedAt_cases data) as [A|A].
    + now rewrite (V A).
    + rewrite (U A). unfold saved. apply length_map.
  - intros x I N. destruct (acceptedAt_cases data) as [A|A].
    + now rewrite (V A).
    + rewrite (U A). apply In_saved_other; [exact I|].
      simpl. congruence.
  - intros billing. reflexivity.
Qed.

Lemma slug_taken_snoc (sl : string) (s : Store.t) (db db1 : Db) :
  stores db1 = (stores db ++ [s])%list →
  Store.slug s = Some sl →
  slug_taken (Some sl) db1 = true.
Proof.
  intros St Sl. unfold slug_taken. rewrite St, existsb_app. simpl.
  rewrite Sl, String.eqb_refl. now rewrite !orb_true_r.
Qed.

(** X10. [completeOnboarding] called a second time for the same principal
    with the same store name - or any name of the same slug - creates no
    second store: the call throws a storage error and the stores stay as
    the first call left them. Unless the second call is given the consent
    under a date that does not parse, it is the insert of the store that is
    refused, after the principal has been rewritten once more, with the
    data of the second call, and that write stays; under such a date the
    second call writes nothing. *)
Theorem completeOnboarding_twice
  (i : Uuid) (data data' : OnboardingData.t) (amb amb' : Ambient) (db : Db)
  (r : UserView.t * StoreView.t) :
  outcome (completeOnboarding i data amb db) = inr r →
  createSlug (OnboardingData.storeName data')
  = createSlug (OnboardingData.storeName data) →
  let db1 := final (completeOnboarding i data amb db) in
  let db2 := final (completeOnboarding i data' amb' db1) in
  ∃ u,
    find (byId i) (users db) = Some u
    ∧ find (byId i) (users db1) = Some (onboard data u)
    ∧ stores db1 = (stores db ++ [onboardedRow i data db])%list
    ∧ (∃ m, outcome (completeOnboarding i data' amb' db1)
            = inl (QueryFailedError m))
    ∧ stores db2 = stores db1
    ∧ (acceptedAt data' ≠ Some None →
       users db2 = saved (onboard data' (onboard data u)) (users db1)
       ∧ find (byId i) (users db2) = Some (onboard data' (onboard data u)))
    ∧ (acceptedAt data' = Some None → db2 = db1).
Proof.
  intros Hr Sl db1 db2.
  destruct (find (byId i) (users db)) as [u|] eqn:E;
    [|rewrite (completeOnboarding_missing i data amb db E) in Hr;
      discriminate].
  destruct (acceptedAt_cases data) as [A|A].
  { destruct (completeOnboarding_invalid_date i data amb db u E A)
      as [e He].
    rewrite He in Hr. discriminate. }
  destruct (slug_taken
              (Some (createSlug (OnboardingData.storeName data))) db) eqn:T;
    [rewrite (completeOnboarding_slug_refused i data amb db u E A T) in Hr;
     discriminate|].
  destruct (completeOnboarding_created i data amb db u E A T) as [r' Hc].
  assert (St : stores db1 = (stores db ++ [onboardedRow i data db])%list)
    by (subst db1; now rewrite Hc).
  assert (Ei : User.id u = i)
    by exact (proj1 (byId_spec i u) (proj2 (find_some _ _ E))).
  assert (E1 : find (byId i) (users db1) = Some (onboard data u)).
  { subst db1. rewrite (completeOnboarding_users i data amb db u E A).
    exact (find_saved i u (onboard data u) (users db) E Ei). }
  assert (T1 : slug_taken
                 (Some (createSlug (OnboardingData.storeName data'))) db1
               = true).
  { rewrite Sl. now apply (slug_taken_snoc _ (onboardedRow i data db) db). }
  exists u. split; [reflexivity|]. split; [exact E1|]. split; [exact St|].
  subst db2.
  destruct (acceptedAt_cases data') as [A'|A'].
  - destruct (completeOnboarding_invalid_date i data' amb' db1 _ E1 A')
      as [m ->].
    simpl.
    split; [eauto|]. split; [reflexivity|]. split; [congruence|reflexivity].
  - rewrite (completeOnboarding_slug_refused i data' amb' db1 _ E1 A' T1).
    simpl. split; [eauto|]. split; [reflexivity|].
    split; [|congruence].
    intros _. split; [reflexivity|].
    unfold upgraded, userRepository_save, final. simpl.
    exact (find_saved i (onboard data u) (onboard data' (onboard data u))
             (users db1) E1 Ei).
Qed.

Lemma slug_taken_iff (sl : string) (db : Db) :
  slug_taken (Some sl) db = true ↔ In sl (storedSlugs db).
Proof.
  split.
  - intros T. destruct (in_dec string_dec sl (storedSlugs db)) as [I|N];
      [exact I|].
    exfalso. revert T. apply not_true_iff_false.
    unfold slug_taken, storedSlugs in *.
    induction (stores db) as [|a l IH]; simpl in *; [reflexivity|].
    destruct (Store.slug a) as [s'|]; simpl in *.
    + apply orb_false_iff. split.
      * apply String.eqb_neq. intros ->. apply N. now left.
      * apply IH. intros I. apply N. now right.
    + now apply IH.
  - intros I. destruct (slug_taken (Some sl) db) eqn:T; [reflexivity|].
    now apply slug_taken_spec in T.
Qed.

(** X11. [checkStoreNameAvailability] writes nothing, and reports a name
    available exactly when no stored store has the slug of the name. So a
    name is reported unavailable after any [registerStoreOwner] or
    [completeOnboarding] that returned for it. *)
Theorem name_unavailable_once_taken :
  (∀ (name : string) (db : Db),
     ∃ a, checkStoreNameAvailability name db = (inr a, db)
          ∧ slugOf a = createSlug name
          ∧ (available a = true ↔ ¬ In (createSlug name) (storedSlugs db)))
  ∧ (∀ (d : StoreOwnerRegisterRequest.t) (amb : Ambient) (db : Db) r,
       outcome (registerStoreOwner d amb db) = inr r →
       ∃ a, checkStoreNameAvailability (StoreOwnerRegisterRequest.storeName d)
              (final (registerStoreOwner d amb db))
            = (inr a, final (registerStoreOwner d amb db))
            ∧ available a = false)
  ∧ (∀ (i : Uuid) (data : OnboardingData.t) (amb : Ambient) (db : Db) r,
       outcome (completeOnboarding i data amb db) = inr r →
       ∃ a, checkStoreNameAvailability (OnboardingData.storeName data)
              (final (completeOnboarding i data amb db))
            = (inr a, final (completeOnboarding i data amb db))
            ∧ available a = false).
Proof.
  assert (G : ∀ name db,
            ∃ a, checkStoreNameAvailability name db = (inr a, db)
                 ∧ slugOf a = createSlug name
                 ∧ (available a = true
                    ↔ slug_taken (Some (createSlug name)) db = false)).
  { intros name db.
    unfold checkStoreNameAvailability, bind, storeRepository_findOne, ret.
    eexists. split; [reflexivity|]. split; [reflexivity|].
    cbn [available]. rewrite <- slug_free_iff.
    destruct (find _ (stores db)); split; congruence. }
  split; [|split].
  - intros name db. destruct (G name db) as (a & C & Sl & Av).
    exists a. split; [exact C|]. split; [exact Sl|].
    rewrite Av, <- slug_taken_iff. symmetry. apply not_true_iff_false.
  - intros d amb db r Hr.
    destruct (registerStoreOwner_returns_inv d amb db r Hr) as (E & A & T).
    destruct (registerStoreOwner_created d amb db E A T)
      as (_ & _ & _ & St & _).
    destruct (G (StoreOwnerRegisterRequest.storeName d)
                (final (registerStoreOwner d amb db))) as (a & C & _ & Av).
    exists a. split; [exact C|].
    rewrite (slug_taken_snoc _ (storeRow d db) db) in Av;
      [|exact St|reflexivity].
    destruct (available a); [|reflexivity].
    destruct Av as [Av _]. now specialize (Av eq_refl).
  - intros i data amb db r Hr.
    destruct (completeOnboarding_writes i data amb db)
      as [(_ & e & He)|[(u & _ & _ & _ & e & He)|(u & _ & _ & _ & St & _)]].
    + congruence.
    + congruence.
    + destruct (G (OnboardingData.storeName data)
                  (final (completeOnboarding i data amb db)))
        as (a & C & _ & Av).
      exists a. split; [exact C|].
      rewrite (slug_taken_snoc _ (onboardedRow i data db) db) in Av;
        [|exact St|reflexivity].
      destruct (available a); [|reflexivity].
      destruct Av as [Av _]. now specialize (Av eq_refl).
Qed.

End OnboardingMore.

(** ** The registration handlers *)

(** White space beyond ASCII is white space for [trim]: a street that is one
    no-break space (U+00A0, the bytes 194 and 160) is blank, and [trim]
    removes an em space (U+2003) at the end of a city. *)
Lemma blank_beyond_ascii :
  blank (String (ascii_of_nat 194) (String (ascii_of_nat 160) EmptyString))
  = true
  ∧ trim ("Paris"
          ++ String (ascii_of_nat 226)
               (String (ascii_of_nat 128)
                  (String (ascii_of_nat 131) EmptyString)))
    = "Paris".
Proof. split; vm_compute; reflexivity. Qed.

Section Handlers.
Context `{Runtime}.

(** X12. [customerRegister] answers 400 with the validation errors, and
    writes nothing, when there are any; otherwise 409 "Email already
    registered", writing nothing, exactly when a principal has the
    lower-cased email, and 201 with the token and the view, having added
    one principal, when none has. *)
Theorem customerRegister_answers
  (errors : list FieldError) (d : CustomerRegisterRequest.t)
  (amb : Ambient) (db : Db) :
  (errors ≠ [] →
   customerRegister errors d amb db = (validationFailed errors, db))
  ∧ (errors = [] →
     is_Some (find (byEmail (CustomerRegisterRequest.email d)) (users db)) →
     customerRegister errors d amb db
     = (json 409 "Email already registered", db))
  ∧ (errors = [] →
     find (byEmail (CustomerRegisterRequest.email d)) (users db) = None →
     ∃ res u,
       fst (customerRegister errors d amb db)
       = mkResponse 201 (mkBody "Registration successful" None (Some res))
       ∧ users (snd (customerRegister errors d amb db))
         = (users db ++ [u])%list
       ∧ UserView.id (user res) = User.id u
       ∧ UserView.email (user res)
         = toLowerCase (CustomerRegisterRequest.email d)).
Proof.
  split; [|split].
  - destruct errors; [congruence|reflexivity].
  - intros -> [u E]. unfold customerRegister.
    now rewrite (registerCustomer_taken d amb db u E).
  - intros -> E. unfold customerRegister.
    unfold registerCustomer, bind, userRepository_findOne,
      userRepository_insert, ret.
    rewrite E. simpl. eexists _, _. repeat split.
Qed.

Lemma twoUpper_spec (s : string) :
  twoUpper s = true →
  ∃ c1 c2, s = String c1 (String c2 EmptyString)
           ∧ isUpper c1 = true ∧ isUpper c2 = true.
Proof.
  unfold twoUpper. intros T. apply andb_true_iff in T as [L A].
  destruct s as [|c1 [|c2 [|c3 s]]]; try discriminate.
  simpl in A. apply andb_true_iff in A as [A1 A2].
  apply andb_true_iff in A2 as [A2 _]. eauto.
Qed.

(** What a request has passed when the handler's own checks let it
    through. *)
Lemma storeOwnerChecks_passed (d : StoreOwnerRegisterRequest.t) amb :
  storeOwnerChecks d amb = None →
  let a := StoreOwnerRegisterRequest.businessAddress d in
  blank (street a) = false ∧ blank (city a) = false
  ∧ blank (postalCode a) = false ∧ twoUpper (country a) = true
  ∧ 18 ≤ storeOwnerAge d amb
  ∧ StoreOwnerRegisterRequest.acceptedTerms d = true
  ∧ StoreOwnerRegisterRequest.acceptedPrivacyPolicy d = true
  ∧ StoreOwnerRegisterRequest.acceptedDataProcessing d = true
  ∧ (∀ f, StoreOwnerRegisterRequest.countrySpecificFields d = Some f →
          countryFieldsError f = None).
Proof.
  unfold storeOwnerChecks, storeOwnerAge. cbv zeta. intros C.
  destruct (blank (street _)); [discriminate|].
  destruct (blank (city _)); [discriminate|].
  destruct (blank (postalCode _)); [discriminate|].
  destruct (_ || _ || _)%bool eqn:Co; [discriminate|].
  apply orb_false_iff in Co as [_ Co]. apply negb_false_iff in Co.
  destruct (_ <? 18) eqn:A; [discriminate|]. apply Z.ltb_ge in A.
  destruct (StoreOwnerRegisterRequest.acceptedTerms d); [|discriminate].
  destruct (StoreOwnerRegisterRequest.acceptedPrivacyPolicy d);
    [|discriminate].
  destruct (StoreOwnerRegisterRequest.acceptedDataProcessing d);
    [|discriminate].
  simpl in C. repeat split; auto.
  intros f Ef. now rewrite Ef in C.
Qed.

Lemma storeOwnerChecks_consent (d : StoreOwnerRegisterRequest.t) amb :
  StoreOwnerRegisterRequest.acceptedTerms d = false
  ∨ StoreOwnerRegisterRequest.acceptedPrivacyPolicy d = false
  ∨ StoreOwnerRegisterRequest.acceptedDataProcessing d = false →
  ∃ e, storeOwnerChecks d amb = Some e.
Proof.
  intros N. destruct (storeOwnerChecks d amb) as [e|] eqn:C; [eauto|].
  destruct (storeOwnerChecks_passed d amb C)
    as (_ & _ & _ & _ & _ & T & P & D & _).
  destruct N as [N|[N|N]]; congruence.
Qed.

Lemma registrationData_checked (d : StoreOwnerRegisterRequest.t)
  (ip ua : option string) :
  StoreOwnerRegisterRequest.acceptedTerms (registrationData d ip ua)
  = StoreOwnerRegisterRequest.acceptedTerms d
  ∧ StoreOwnerRegisterRequest.acceptedPrivacyPolicy (registrationData d ip ua)
    = StoreOwnerRegisterRequest.acceptedPrivacyPolicy d
  ∧ StoreOwnerRegisterRequest.acceptedDataProcessing
      (registrationData d ip ua)
    = StoreOwnerRegisterRequest.acceptedDataProcessing d
  ∧ StoreOwnerRegisterRequest.businessAddress (registrationData d ip ua)
    = StoreOwnerRegisterRequest.businessAddress d.
Proof. destruct d; repeat split; reflexivity. Qed.

(** X13. [storeOwnerRegister] answers 400 and writes nothing when one of
    the three legal consents is not true, and when the street, the city or
    the postal code is empty or white space alone, in ASCII or beyond. When
    it answers 201, the request had no validation error, a non-blank
    street, city and postal code, a country code of exactly two upper-case
    letters, an owner of age and all three consents, and the principal it
    has stored carries the three consents with the instant of the call as
    their timestamps. *)
Theorem storeOwnerRegister_consents
  (errors : list FieldError) (d : StoreOwnerRegisterRequest.t)
  (ip ua : option string) (amb : Ambient) (db : Db) :
  let answer := storeOwnerRegister errors d ip ua amb db in
  (StoreOwnerRegisterRequest.acceptedTerms d = false
   ∨ StoreOwnerRegisterRequest.acceptedPrivacyPolicy d = false
   ∨ StoreOwnerRegisterRequest.acceptedDataProcessing d = false →
   status (fst answer) = 400 ∧ snd answer = db)
  ∧ (blank (street (StoreOwnerRegisterRequest.businessAddress d)) = true
     ∨ blank (city (StoreOwnerRegisterRequest.businessAddress d)) = true
     ∨ blank (postalCode (StoreOwnerRegisterRequest.businessAddress d))
       = true →
     status (fst answer) = 400 ∧ snd answer = db)
  ∧ (status (fst answer) = 201 →
     let a := StoreOwnerRegisterRequest.businessAddress d in
     errors = []
     ∧ blank (street a) = false ∧ blank (city a) = false
     ∧ blank (postalCode a) = false
     ∧ (∃ c1 c2, country a = String c1 (String c2 EmptyString)
                 ∧ isUpper c1 = true ∧ isUpper c2 = true)
     ∧ 18 ≤ storeOwnerAge d amb
     ∧ ∃ u, users (snd answer) = (users db ++ [u])%list
            ∧ User.acceptedTerms u = true
            ∧ User.acceptedPrivacyPolicy u = true
            ∧ User.acceptedDataProcessing u = true
            ∧ User.termsAcceptedAt u = Some (now amb)
            ∧ User.privacyPolicyAcceptedAt u = Some (now amb)
            ∧ User.dataProcessingAcceptedAt u = Some (now amb)).
Proof.
  intros answer. subst answer. unfold storeOwnerRegister.
  split; [|split].
  - intros N. destruct errors; [|split; reflexivity].
    destruct (storeOwnerChecks_consent d amb N) as [e ->].
    split; reflexivity.
  - intros B. destruct errors; [|split; reflexivity].
    destruct (storeOwnerChecks d amb) as [e|] eqn:C; [split; reflexivity|].
    destruct (storeOwnerChecks_passed d amb C) as (Bs & Bc & Bp & _).
    destruct B as [B|[B|B]]; congruence.
  - destruct errors; [|simpl; discriminate].
    destruct (storeOwnerChecks d amb) as [e|] eqn:C; [simpl; discriminate|].
    destruct (storeOwnerChecks_passed d amb C)
      as (Bs & Bc & Bp & Co & A & T & P & D & _).
    destruct (registerStoreOwner (registrationData d ip ua) amb db)
      as [[e|r] db'] eqn:R.
    { unfold registrationFailure. simpl.
      destruct (String.eqb _ _); discriminate. }
    intros _. cbv zeta.
    assert (Hr : outcome (registerStoreOwner (registrationData d ip ua)
                            amb db) = inr r) by now rewrite R.
    destruct (registerStoreOwner_returns_inv _ amb db r Hr) as (E & A' & S).
    destruct (registerStoreOwner_created _ amb db E A' S)
      as (_ & _ & U & _).
    rewrite R in U. simpl in U.
    destruct (registrationData_checked d ip ua) as (T' & P' & D' & _).
    repeat split; auto using twoUpper_spec.
    exists (ownerRow (registrationData d ip ua) amb db).
    split; [exact U|].
    unfold ownerRow, newStoreOwner, stamp. simpl.
    rewrite T', P', D', T, P, D. repeat split.
Qed.

(** X14. A slug collision is answered 500, not 409. When a request with
    no validation error passes the handler's checks, no principal has its
    email, and a stored store has the slug of its store name, the service
    throws the error of the storage layer and [storeOwnerRegister] answers
    500 with the message of that error as the message of the body; the
    principal written before the store stays stored. *)
Theorem storeOwnerRegister_slug_collision
  (d : StoreOwnerRegisterRequest.t) (ip ua : option string)
  (amb : Ambient) (db : Db) :
  storeOwnerChecks d amb = None →
  find (byEmail (StoreOwnerRegisterRequest.email d)) (users db) = None →
  slug_taken (Some (createSlug (StoreOwnerRegisterRequest.storeName d))) db
  = true →
  let answer := storeOwnerRegister [] d ip ua amb db in
  (∃ m,
     outcome (registerStoreOwner (registrationData d ip ua) amb db)
     = inl (QueryFailedError m)
     ∧ fst answer = json 500 m)
  ∧ users (snd answer)
    = (users db ++ [ownerRow (registrationData d ip ua) amb db])%list
  ∧ stores (snd answer) = stores db.
Proof.
  intros C E S answer. subst answer. unfold storeOwnerRegister. rewrite C.
  destruct (storeOwnerChecks_passed d amb C) as (_ & _ & _ & _ & A & _).
  destruct (registrationData_same d ip ua amb) as (Ea & Ee & Es).
  rewrite (registerStoreOwner_slug_refused (registrationData d ip ua) amb db).
  - split; [eexists; split; reflexivity|]. split; reflexivity.
  - now rewrite Ee.
  - now rewrite Ea.
  - now rewrite Es.
Qed.

End Handlers.

(** ** Onboarding behind the guard *)

Section GuardedOnboarding.
Context `{Runtime}.

Lemma authMiddleware_answers (authorization : option string) amb db r :
  authMiddleware authorization amb db = Answered r →
  r = json 401 "Unauthorized - No token provided"
  ∨ r = json 401 "Unauthorized - Invalid token".
Proof.
  unfold authMiddleware. destruct authorization as [header|].
  - destruct (_ || _)%bool; [intros [= <-]; now left|].
    destruct (jwt_verify _ _ _) as [e|payload]; simpl.
    + intros [= <-]. now right.
    + destruct (find _ (users db)); [discriminate|].
      intros [= <-]. now right.
  - intros [= <-]. now left.
Qed.

Lemma authMiddleware_next (authorization : option string) amb db u i :
  authMiddleware authorization amb db = Next u i →
  In u (users db) ∧ User.id u = i ∧ User.isActive u = true.
Proof.
  unfold authMiddleware. destruct authorization as [header|]; [|discriminate].
  destruct (_ || _)%bool; [discriminate|].
  destruct (jwt_verify _ _ _) as [e|payload]; simpl; [discriminate|].
  destruct (find _ (users db)) as [v|] eqn:F; [|discriminate].
  intros [= -> <-].
  destruct (find_some _ _ F) as [I B].
  split; [exact I|]. split; [reflexivity|].
  unfold byPayloadActive, byIdActive in B.
  destruct (userId payload); [|exact B].
  now apply andb_true_iff in B.
Qed.

Lemma find_is_some {A} (f : A → bool) (l : list A) (x : A) :
  In x l → f x = true → ∃ y, find f l = Some y.
Proof.
  intros I F. destruct (find f l) as [y|] eqn:E; [eauto|].
  rewrite (find_none _ _ E x I) in F. discriminate.
Qed.

(** The handler, by cases. *)
Lemma completeOnboardingHandler_cases (uid : Uuid) (b : OnboardingBody.t)
  amb db :
  (completeOnboardingHandler (Some uid) b amb db
   = (say 400 "Missing required fields", db)
   ∧ (OnboardingBody.storeAddress b = None
      ∨ truthy (OnboardingBody.phoneNumber b) = false
      ∨ truthy (OnboardingBody.storeName b) = false
      ∨ truthy (OnboardingBody.siret b) = false
      ∨ OnboardingBody.acceptedCGU b = false))
  ∨ (∃ a, OnboardingBody.storeAddress b = Some a
          ∧ truthy (OnboardingBody.phoneNumber b) = true
          ∧ truthy (OnboardingBody.storeName b) = true
          ∧ truthy (OnboardingBody.siret b) = true
          ∧ OnboardingBody.acceptedCGU b = true
          ∧ completeOnboardingHandler (Some uid) b amb db
            = match completeOnboarding uid (onboardingDataOf b a) amb db with
              | (inr result, db') =>
                  (send "Onboarding completed successfully" result, db')
              | (inl error, db') => (say 500 (message error), db')
              end).
Proof.
  unfold completeOnboardingHandler.
  destruct (OnboardingBody.storeAddress b) as [a|]; [|left; auto].
  destruct (truthy (OnboardingBody.phoneNumber b)); [|left; auto].
  destruct (truthy (OnboardingBody.storeName b)); [|left; auto].
  destruct (truthy (OnboardingBody.siret b)); [|left; auto 6].
  destruct (OnboardingBody.acceptedCGU b) eqn:C; [|left; auto 6].
  right. exists a. simpl. repeat split. unfold onboardingDataOf.
  now rewrite C.
Qed.

(** X15. [POST /complete-onboarding]. Without [req.userId] the handler
    answers 401; with a required field missing or the terms not accepted it
    answers 400; with every field there it answers 500 when no principal
    has the key ("User not found") and, for a principal that is found,
    when [acceptedCGUAt] is missing or does not parse; it writes nothing in
    these cases. Behind the guard the service never throws "User not
    found", the route writes nothing when it answers 401 or 400, and when
    it answers 200 the consent date did parse and the principal stored
    under the key the guard attached is a fully registered store owner who
    has accepted the terms at that date. *)
Theorem completeOnboarding_route
  (authorization : option string) (b : OnboardingBody.t)
  (amb : Ambient) (db : Db) :
  let answer := routeCompleteOnboarding authorization b amb db in
  let complete :=
    ∃ a, OnboardingBody.storeAddress b = Some a
         ∧ truthy (OnboardingBody.phoneNumber b) = true
         ∧ truthy (OnboardingBody.storeName b) = true
         ∧ truthy (OnboardingBody.siret b) = true
         ∧ OnboardingBody.acceptedCGU b = true in
  completeOnboardingHandler None b amb db = (say 401 "Unauthorized", db)
  ∧ (∀ uid,
       OnboardingBody.storeAddress b = None
       ∨ truthy (OnboardingBody.phoneNumber b) = false
       ∨ truthy (OnboardingBody.storeName b) = false
       ∨ truthy (OnboardingBody.siret b) = false
       ∨ OnboardingBody.acceptedCGU b = false →
       completeOnboardingHandler (Some uid) b amb db
       = (say 400 "Missing required fields", db))
  ∧ (∀ uid,
       complete →
       find (byId uid) (users db) = None →
       completeOnboardingHandler (Some uid) b amb db
       = (say 500 "User not found", db))
  ∧ (∀ uid v,
       complete →
       find (byId uid) (users db) = Some v →
       newDate (OnboardingBody.acceptedCGUAt b) = None →
       replyStatus (fst (completeOnboardingHandler (Some uid) b amb db))
       = 500
       ∧ snd (completeOnboardingHandler (Some uid) b amb db) = db)
  ∧ (∀ u i data,
       authMiddleware authorization amb db = Next u i →
       outcome (completeOnboarding i data amb db)
       ≠ inl (Error "User not found"))
  ∧ (replyStatus (fst answer) = 401 ∨ replyStatus (fst answer) = 400 →
     snd answer = db)
  ∧ (replyStatus (fst answer) = 200 →
     ∃ u u' d,
       authMiddleware authorization amb db = Next u (User.id u)
       ∧ complete
       ∧ newDate (OnboardingBody.acceptedCGUAt b) = Some d
       ∧ find (byId (User.id u)) (users (snd answer)) = Some u'
       ∧ User.role u' = STORE_OWNER
       ∧ User.isFullyRegistered u' = true
       ∧ User.acceptedTerms u' = true
       ∧ User.termsAcceptedAt u' = Some d).
Proof.
  intros answer complete.
  assert (D : ∀ a, OnboardingBody.acceptedCGU b = true →
                   acceptedAt (onboardingDataOf b a)
                   = Some (newDate (OnboardingBody.acceptedCGUAt b))).
  { intros a C. unfold acceptedAt, onboardingDataOf. simpl. now rewrite C. }
  split; [reflexivity|]. split.
  { intros uid M. unfold completeOnboardingHandler.
    destruct (OnboardingBody.storeAddress b) as [a|]; [|reflexivity].
    destruct M as [M|[M|[M|[M|M]]]]; [discriminate|..]; rewrite M; simpl;
      rewrite ?orb_true_r; reflexivity. }
  split.
  { intros uid (a & Ea & Tp & Tn & Ts & C) N.
    unfold completeOnboardingHandler.
    rewrite Ea, Tp, Tn, Ts, C. simpl.
    now rewrite (completeOnboarding_missing uid _ amb db N). }
  split.
  { intros uid v (a & Ea & Tp & Tn & Ts & C) F N.
    unfold completeOnboardingHandler.
    rewrite Ea, Tp, Tn, Ts, C. simpl.
    destruct (completeOnboarding_invalid_date uid
                (onboardingDataOf b a) amb db v F) as [m Hm].
    { now rewrite (D a C), N. }
    unfold onboardingDataOf in Hm. rewrite C in Hm. rewrite Hm.
    split; reflexivity. }
  split.
  { intros u i data G.
    destruct (authMiddleware_next authorization amb db u i G)
      as (I & Ei & _).
    destruct (find_is_some (byId i) (users db) u I) as [v F].
    { now apply byId_spec. }
    destruct (acceptedAt_cases data) as [A|A].
    { destruct (completeOnboarding_invalid_date i data amb db v F A)
        as [m ->].
      discriminate. }
    destruct (slug_taken
                (Some (createSlug (OnboardingData.storeName data))) db) eqn:S.
    - rewrite (completeOnboarding_slug_refused i data amb db v F A S).
      discriminate.
    - destruct (completeOnboarding_created i data amb db v F A S) as [r ->].
      discriminate. }
  subst answer. unfold routeCompleteOnboarding.
  destruct (authMiddleware authorization amb db) as [r|u i] eqn:G.
  { destruct (authMiddleware_answers authorization amb db r G) as [->| ->];
      simpl; (split; [reflexivity|discriminate]). }
  destruct (authMiddleware_next authorization amb db u i G) as (I & Ei & _).
  destruct (find_is_some (byId i) (users db) u I) as [v F].
  { now apply byId_spec. }
  destruct (completeOnboardingHandler_cases i b amb db)
    as [[-> _]|(a & Ea & Tp & Tn & Ts & C & ->)].
  { simpl. split; [reflexivity|discriminate]. }
  destruct (newDate (OnboardingBody.acceptedCGUAt b)) as [d|] eqn:N.
  2:{ destruct (completeOnboarding_invalid_date i
                  (onboardingDataOf b a) amb db v F) as [m ->].
      { exact (D a C). }
      simpl. split; [reflexivity|discriminate]. }
  assert (A : acceptedAt (onboardingDataOf b a) ≠ Some None)
    by (rewrite (D a C); discriminate).
  destruct (slug_taken
              (Some (createSlug
                       (OnboardingData.storeName (onboardingDataOf b a))))
              db) eqn:S.
  - rewrite (completeOnboarding_slug_refused i _ amb db v F A S). simpl.
    split; [intros [X|X]; discriminate X|discriminate].
  - destruct (completeOnboarding_created i _ amb db v F A S) as [res Hc].
    rewrite Hc. simpl.
    split; [intros [X|X]; discriminate X|].
    intros _. exists u, (onboard (onboardingDataOf b a) v), d.
    assert (Ev : User.id v = i)
      by exact (proj1 (byId_spec i v) (proj2 (find_some _ _ F))).
    split; [now rewrite Ei|].
    split; [exists a; auto|].
    split; [reflexivity|]. split.
    { rewrite Ei.
      change (users (upgraded (onboardingDataOf b a) v db))
        with (saved (onboard (onboardingDataOf b a) v) (users db)).
      exact (find_saved i v (onboard (onboardingDataOf b a) v) (users db)
               F Ev). }
    split; [reflexivity|]. split; [reflexivity|].
    split; [simpl; exact C|].
    simpl. now rewrite (D a C).
Qed.

End GuardedOnboarding.

(** ** The stores service *)

Section Stores.

Lemma storeById_spec (i : Uuid) (s : Store.t) :
  storeByIdActive i s = true ↔ Store.id s = i ∧ Store.isActive s = true.
Proof.
  unfold storeByIdActive. rewrite andb_true_iff, Nat.eqb_eq. tauto.
Qed.

Lemma find_savedStore (i : Uuid) (s s' : Store.t) (l : list Store.t) :
  find (storeByIdActive i) l = Some s →
  Store.id s' = i → Store.isActive s' = true →
  find (storeByIdActive i) (savedStore s' l) = Some s'.
Proof.
  intros F Ei Ea.
  assert (B : storeByIdActive i s' = true) by now apply storeById_spec.
  induction l as [|a l IH]; simpl in *; [discriminate|].
  destruct (Nat.eqb (Store.id a) (Store.id s')) eqn:Q; simpl.
  - now rewrite B.
  - destruct (storeByIdActive i a) eqn:Ba; [|now apply IH].
    apply storeById_spec in Ba as [Ba _].
    apply Nat.eqb_neq in Q. congruence.
Qed.

Lemma find_savedStore_gone (i : Uuid) (s' : Store.t) (l : list Store.t) :
  Store.id s' = i → Store.isActive s' = false →
  find (storeByIdActive i) (savedStore s' l) = None.
Proof.
  intros Ei Ea. induction l as [|a l IH]; simpl; [reflexivity|].
  destruct (Nat.eqb (Store.id a) (Store.id s')) eqn:Q.
  - unfold storeByIdActive at 1. rewrite Ea, andb_false_r. exact IH.
  - unfold storeByIdActive at 1. rewrite Ei in Q. rewrite Q. exact IH.
Qed.

Lemma find_savedStore_slug (sl : string) (s s' : Store.t)
  (l : list Store.t) :
  find (bySlug sl) l = Some s →
  Store.id s' = Store.id s → Store.slug s' = Store.slug s →
  find (bySlug sl) (savedStore s' l) = Some s'.
Proof.
  intros F Ei Es.
  assert (B : bySlug sl s' = true).
  { unfold bySlug. rewrite Es. exact (proj2 (find_some _ _ F)). }
  induction l as [|a l IH]; simpl in *; [discriminate|].
  destruct (Nat.eqb (Store.id a) (Store.id s')) eqn:Q; simpl.
  - now rewrite B.
  - destruct (bySlug sl a) eqn:Ba; [|now apply IH].
    injection F as ->. rewrite Ei, Nat.eqb_refl in Q. discriminate.
Qed.

(** X16. [createStore], given a request with the keys of a
    [CreateStoreRequest], is atomic. If it throws, the stored state is as
    it was before the call; it does throw when no principal has the
    [ownerId] of the request. When one has, it returns, having added
    exactly one store - active, owned by that principal, without a slug and
    without a document-verification map - and having set that principal's
    fully-registered flag. *)
Theorem createStore_atomic (request : CreateStoreRequest.t) (db : Db) :
  let owner := CreateStoreRequest.ownerId request in
  (∀ e, outcome (createStore request db) = inl e →
        final (createStore request db) = db)
  ∧ (find (fun u => Nat.eqb (User.id u) owner) (users db) = None →
     ∃ e, createStore request db = (inl e, db))
  ∧ (∀ u, find (fun u => Nat.eqb (User.id u) owner) (users db) = Some u →
       ∃ s,
         outcome (createStore request db)
         = inr (s, User_withFullyRegistered true u)
         ∧ stores (final (createStore request db))
           = (stores db ++ [s])%list
         ∧ users (final (createStore request db))
           = saved (User_withFullyRegistered true u) (users db)
         ∧ Store.id s = nextId db
         ∧ Store.name s = CreateStoreRequest.name request
         ∧ Store.ownerId s = Some owner
         ∧ Store.isActive s = true
         ∧ Store.slug s = None
         ∧ Store.documentVerificationStatus s = None).
Proof.
  intros owner. subst owner.
  unfold createStore, transaction, bind, storeRepository_save,
    userRepository_findOne, userRepository_save, throw, ret,
    outcome, final.
  simpl.
  destruct (find _ (users db)) as [u|] eqn:F; simpl.
  - split; [discriminate|]. split; [discriminate|].
    intros v [= <-]. eexists. repeat split.
  - split; [reflexivity|]. split; [eauto|discriminate].
Qed.

(** X17. [toggleHolidayMode] on an active store flips the holiday flag.
    The store it returns carries the message supplied when the mode turns
    on and none when it turns off; the stored row takes a supplied message
    when the mode turns on and otherwise keeps the message it had, so that a
    stored message is never cleared. Toggling twice without a message gives
    back the row as it was. *)
Theorem toggleHolidayMode_twice
  (i : Uuid) (m m' : option string) (db : Db) (s : Store.t) :
  find (storeByIdActive i) (stores db) = Some s →
  let db1 := final (toggleHolidayMode i m db) in
  let db2 := final (toggleHolidayMode i m' db1) in
  let on := negb (Store.isHoliday s) in
  let s1 :=
    Store_withHoliday on
      (if on then assignedOpt m (Store.holidayMessage s)
       else Store.holidayMessage s) s in
  let s2 :=
    Store_withHoliday (Store.isHoliday s)
      (assignedOpt (if on then m else m') (Store.holidayMessage s)) s in
  toggleHolidayMode i m db
  = (inr (Store_withHoliday on (if on then m else None) s), db1)
  ∧ find (storeByIdActive i) (stores db1) = Some s1
  ∧ toggleHolidayMode i m' db1
    = (inr (Store_withHoliday (negb on) (if on then None else m') s), db2)
  ∧ find (storeByIdActive i) (stores db2) = Some s2
  ∧ (is_Some (Store.holidayMessage s) →
     is_Some (Store.holidayMessage s1) ∧ is_Some (Store.holidayMessage s2))
  ∧ (m = None → m' = None → s2 = s)
  ∧ users db2 = users db
  ∧ List.length (stores db2) = List.length (stores db).
Proof.
  intros F db1 db2 on s1 s2.
  destruct (proj1 (storeById_spec i s) (proj2 (find_some _ _ F))) as [Ei Ea].
  assert (T1 : toggleHolidayMode i m db
               = (inr (Store_withHoliday on (if on then m else None) s),
                  mkDb (users db) (savedStore s1 (stores db))
                    (auditLogs db) (nextId db))).
  { unfold toggleHolidayMode, bind, storeRepository_findOne,
      storeRepository_update, throw, ret.
    rewrite F. fold on. subst s1. now destruct on. }
  assert (E1 : db1 = mkDb (users db) (savedStore s1 (stores db))
                       (auditLogs db) (nextId db))
    by (subst db1; now rewrite T1).
  assert (F1 : find (storeByIdActive i) (stores db1) = Some s1).
  { rewrite E1. simpl. apply (find_savedStore i s); [exact F|..];
      subst s1; destruct s; simpl in *; assumption. }
  assert (T2 : toggleHolidayMode i m' db1
               = (inr (Store_withHoliday (negb on)
                         (if on then None else m') s),
                  mkDb (users db1) (savedStore s2 (stores db1))
                    (auditLogs db1) (nextId db1))).
  { unfold toggleHolidayMode, bind, storeRepository_findOne,
      storeRepository_update, throw, ret.
    rewrite F1. subst s1 s2 on.
    destruct s as [? ? ? ? ? ? ? ? ? hol hm ? ? ? ? ? ? ? ? ? ? ?].
    simpl. destruct hol; simpl; [reflexivity|].
    now destruct m. }
  assert (E2 : db2 = mkDb (users db1) (savedStore s2 (stores db1))
                       (auditLogs db1) (nextId db1))
    by (subst db2; now rewrite T2).
  split; [now rewrite T1, E1|]. split; [exact F1|].
  split; [now rewrite T2, E2|]. split; [|split; [|split; [|split]]].
  - rewrite E2. simpl. apply (find_savedStore i s1); [exact F1|..];
      subst s2; destruct s; simpl in *; assumption.
  - intros [msg Hm]. subst s1 s2 on. destruct s. simpl in *. subst.
    destruct isHoliday, m, m'; simpl; split; eauto.
  - intros -> ->. subst s2 on. destruct s. simpl.
    now destruct isHoliday.
  - rewrite E2, E1. reflexivity.
  - rewrite E2, E1. simpl. unfold savedStore. now rewrite !length_map.
Qed.

(** X18. [deleteStore] on an active store removes no row: it clears the
    active flag and changes nothing else. Afterwards the store is gone for
    every operation that looks it up by key - [getStoreById] returns null,
    [getStores] does not list it, and [deleteStore], [toggleHolidayMode]
    and [updateStore] throw "Store not found" - while [getStoreBySlug],
    which does not test the flag, still returns it. *)
Theorem deleteStore_is_soft (i : Uuid) (db : Db) (s : Store.t) :
  find (storeByIdActive i) (stores db) = Some s →
  let db' := final (deleteStore i db) in
  outcome (deleteStore i db) = inr tt
  ∧ stores db' = savedStore (Store_withActive false s) (stores db)
  ∧ List.length (stores db') = List.length (stores db)
  ∧ users db' = users db
  ∧ getStoreById i db' = (inr None, db')
  ∧ (∀ c, outcome (getStores db') = inr c →
          ∀ card, In card c → StoreCard.id card ≠ i)
  ∧ deleteStore i db' = (inl (Error "Store not found"), db')
  ∧ (∀ m, toggleHolidayMode i m db' = (inl (Error "Store not found"), db'))
  ∧ (∀ r, updateStore i r db' = (inl (Error "Store not found"), db'))
  ∧ (∀ sl, find (bySlug sl) (stores db) = Some s →
           getStoreBySlug sl db'
           = (inr (Some (pageOf (Store_withActive false s))), db')).
Proof.
  intros F db'.
  destruct (proj1 (storeById_spec i s) (proj2 (find_some _ _ F))) as [Ei Ea].
  assert (D : deleteStore i db
              = (inr tt, mkDb (users db)
                           (savedStore (Store_withActive false s) (stores db))
                           (auditLogs db) (nextId db))).
  { unfold deleteStore, bind, storeRepository_findOne,
      storeRepository_update, throw, ret.
    now rewrite F. }
  assert (E : db' = mkDb (users db)
                      (savedStore (Store_withActive false s) (stores db))
                      (auditLogs db) (nextId db))
    by (subst db'; now rewrite D).
  assert (Ei' : Store.id (Store_withActive false s) = i)
    by (destruct s; exact Ei).
  assert (Ea' : Store.isActive (Store_withActive false s) = false)
    by now destruct s.
  assert (G : find (storeByIdActive i) (stores db') = None).
  { rewrite E. simpl. now apply find_savedStore_gone. }
  split; [now rewrite D|]. split; [now rewrite E|].
  split; [rewrite E; simpl; unfold savedStore; apply length_map|].
  split; [now rewrite E|].
  split.
  { unfold getStoreById, bind, storeRepository_findOne, ret.
    now rewrite G. }
  split.
  { intros c [= <-] card I.
    apply in_map_iff in I as (x & <- & Ix).
    apply filter_In in Ix as [Ix Ax].
    intros Eq. simpl in Eq.
    assert (B : storeByIdActive i x = true) by now apply storeById_spec.
    now rewrite (find_none _ _ G x Ix) in B. }
  split.
  { unfold deleteStore, bind, storeRepository_findOne, throw.
    now rewrite G. }
  split.
  { intros m. unfold toggleHolidayMode, bind, storeRepository_findOne, throw.
    now rewrite G. }
  split.
  { intros r. unfold updateStore, bind, storeRepository_findOne, throw.
    now rewrite G. }
  intros sl Fs.
  unfold getStoreBySlug, bind, storeRepository_findOne, ret.
  change (find _ (stores db')) with (find (bySlug sl) (stores db')).
  rewrite E. simpl.
  rewrite (find_savedStore_slug sl s (Store_withActive false s));
    [reflexivity|exact Fs|now destruct s|now destruct s].
Qed.

End Stores.

Section StoreHandlers.

(** X19. The handlers that look a store up by the key of the request take
    the key as it comes. For a key that is a UUID they answer 404 "Store
    not found", writing nothing, when no active store has it; with one
    stored, reading it, toggling its holiday mode and deleting it are
    answered 200. For a key that is no UUID the query fails, and they
    answer 500 with their own message of failure, writing nothing. *)
Theorem store_handlers_not_found
  (key : Key) (r : UpdateStoreRequest.t) (m : option string) (db : Db) :
  (∀ i, key = IsUuid i →
        find (storeByIdActive i) (stores db) = None →
        getStoreByIdHandler key db = (say 404 "Store not found", db)
        ∧ updateStoreHandler [] key r db = (say 404 "Store not found", db)
        ∧ toggleHolidayModeHandler key m db
          = (say 404 "Store not found", db)
        ∧ deleteStoreHandler key db = (say 404 "Store not found", db))
  ∧ (∀ i, key = IsUuid i →
          is_Some (find (storeByIdActive i) (stores db)) →
          replyStatus (fst (getStoreByIdHandler key db)) = 200
          ∧ replyStatus (fst (toggleHolidayModeHandler key m db)) = 200
          ∧ replyStatus (fst (deleteStoreHandler key db)) = 200)
  ∧ (∀ text, key = NotUuid text →
          (replyStatus (fst (getStoreByIdHandler key db)) = 500
           ∧ replyMessage (fst (getStoreByIdHandler key db))
             = "Failed to retrieve store"
           ∧ snd (getStoreByIdHandler key db) = db)
          ∧ (replyStatus (fst (updateStoreHandler [] key r db)) = 500
             ∧ replyMessage (fst (updateStoreHandler [] key r db))
               = "Failed to update store"
             ∧ snd (updateStoreHandler [] key r db) = db)
          ∧ (replyStatus (fst (toggleHolidayModeHandler key m db)) = 500
             ∧ replyMessage (fst (toggleHolidayModeHandler key m db))
               = "Failed to toggle holiday mode"
             ∧ snd (toggleHolidayModeHandler key m db) = db)
          ∧ (replyStatus (fst (deleteStoreHandler key db)) = 500
             ∧ replyMessage (fst (deleteStoreHandler key db))
               = "Failed to delete store"
             ∧ snd (deleteStoreHandler key db) = db)).
Proof.
  unfold getStoreByIdHandler, updateStoreHandler, toggleHolidayModeHandler,
    deleteStoreHandler, withKey, getStoreById, updateStore,
    toggleHolidayMode, deleteStore, bind, storeRepository_findOne,
    storeRepository_update, throw, ret.
  split; [|split].
  - intros i -> ->. repeat split.
  - intros i -> [s ->]. repeat split.
  - intros text ->. repeat split.
Qed.


End StoreHandlers.

(** ** The INSEE lookup *)

Section Insee.

(** A digit starts no white-space character. *)
Lemma whiteSpaceAt_digit (c : ascii) (s : string) :
  isDigit c = true → whiteSpaceAt (String c s) = 0%nat.
Proof.
  destruct c as [[] [] [] [] [] [] [] []]; intros D;
    try discriminate D; reflexivity.
Qed.

(** [removeSpaces] leaves a string of digits as it is. *)
Lemma removeSpaces_digits (s : string) :
  allChars isDigit s = true → removeSpaces s = s.
Proof.
  unfold removeSpaces. induction s as [|c s IH]; [reflexivity|].
  intros [D A]%andb_true_iff.
  cbn [removeSpacesFrom]. rewrite (whiteSpaceAt_digit c s D).
  now rewrite (IH A).
Qed.

(** The three ways [fetchSiretData] ends. *)
Lemma fetchSiretData_outcomes
  (svc : InseeService) (get : string → string → AxiosResult)
  (siret : string) :
  (∃ info, fetchSiretData svc get siret = inr info)
  ∨ fetchSiretData svc get siret = inl (Error "SIRET non trouvé")
  ∨ fetchSiretData svc get siret
    = inl (Error "Erreur lors de la récupération des données").
Proof.
  unfold fetchSiretData.
  destruct (fetchSiretAttempt svc get siret) as [[e|[z|]]|info];
    [now right; right| |now right; right|left; eauto].
  destruct z as [|p|p]; [now right; right| |now right; right].
  repeat (destruct p as [p|p|];
          try (right; right; reflexivity); try (right; left; reflexivity)).
Qed.

(** X21. [fetchSiretData] never surfaces the two errors it raises itself.
    For a SIRET that is not 14 digits once white space is removed, and for
    a service without an API key, it throws the general "Erreur lors de la
    récupération des données" - its own "SIRET invalide" and "INSEE API key
    not configured" are caught by its own [catch] block - and the outcome
    does not depend on the remote service, which is not called. *)
Theorem fetchSiretData_local_errors
  (svc : InseeService) (get : string → string → AxiosResult)
  (siret : string) :
  (digits 14 (removeSpaces siret) = false ∨ apiKey svc = EmptyString →
   ∀ get',
     fetchSiretData svc get' siret
     = inl (Error "Erreur lors de la récupération des données"))
  ∧ fetchSiretData svc get siret ≠ inl (Error "SIRET invalide")
  ∧ fetchSiretData svc get siret
    ≠ inl (Error "INSEE API key not configured").
Proof.
  unfold fetchSiretData, fetchSiretAttempt. split.
  - intros [D|K] get'.
    + now rewrite D.
    + destruct (digits 14 _); [|reflexivity]. now rewrite K.
  - fold (fetchSiretAttempt svc get siret).
    fold (fetchSiretData svc get siret).
    destruct (fetchSiretData_outcomes svc get siret) as [[b ->]|[->| ->]];
      split; discriminate.
Qed.

(** X22. White space in a SIRET does not matter: two SIRETs that are the
    same once their white space is removed get the same outcome from
    [fetchSiretData]; and a SIRET of 14 digits and white space gets what
    its digits alone get, the address asked of the remote service ending
    with these digits. *)
Theorem fetchSiretData_ignores_spaces
  (svc : InseeService) (get : string → string → AxiosResult)
  (siret : string) :
  (∀ siret', removeSpaces siret' = removeSpaces siret →
             fetchSiretData svc get siret' = fetchSiretData svc get siret)
  ∧ (digits 14 (removeSpaces siret) = true →
     fetchSiretData svc get siret
     = fetchSiretData svc get (removeSpaces siret)
     ∧ (apiKey svc ≠ EmptyString →
        fetchSiretData svc get siret
        = match get (apiUrl svc ++ "/siret/" ++ removeSpaces siret)
                  (apiKey svc) with
          | Resolved e => inr (businessInfoOf e)
          | Rejected (Some 404) => inl (Error "SIRET non trouvé")
          | Rejected _ =>
              inl (Error "Erreur lors de la récupération des données")
          end)).
Proof.
  unfold fetchSiretData, fetchSiretAttempt. split.
  - now intros siret' ->.
  - intros D. split.
    + assert (A : allChars isDigit (removeSpaces siret) = true)
        by (unfold digits in D; now apply andb_true_iff in D).
      now rewrite (removeSpaces_digits _ A).
    + intros K. rewrite D. apply String.eqb_neq in K. simpl. rewrite K.
      simpl. now destruct (get _ _).
Qed.

End Insee.

Section InseeHandler.


End InseeHandler.

(** ** The further properties on concrete requests *)

(** Witness of X1: Alice registers into the empty state. *)
Lemma registerCustomer_effect_witness :
  ∃ u, users dbAlice = [u] ∧ User.role u = CUSTOMER
       ∧ User.email u = "a@x.com".
Proof.
  destruct (registerCustomer_effect alice noon2025 emptyDb)
    as (_ & _ & Hfresh & _).
  destruct Hfresh as (res & u & _ & Hu & Hrole & _ & Hemail & _).
  - vm_compute. reflexivity.
  - exists u. split; [exact Hu|]. split; [exact Hrole|exact Hemail].
Defined.

(** Witness of X2: Alice registers, then logs in under another spelling. *)
Lemma register_then_login_witness :
  (∃ res u,
     login (LoginRequest.mk "a@X.COM" "passw0rd1") autumn2025
       (final (register (AsCustomer alice) noon2025 emptyDb))
     = (inr res,
        touched u autumn2025
          (final (register (AsCustomer alice) noon2025 emptyDb)))
     ∧ UserView.id (user res) = 1%nat)
  ∧ login (LoginRequest.mk "a@X.COM" "passw0rd2") autumn2025
      (final (register (AsCustomer alice) noon2025 emptyDb))
    = (inl (Error "Invalid credentials"),
       final (register (AsCustomer alice) noon2025 emptyDb)).
Proof.
  destruct (register_then_login (AsCustomer alice) noon2025 autumn2025
              emptyDb "a@X.COM") as (Hright & Hwrong).
  - vm_compute. reflexivity.
  - exact I.
  - vm_compute. reflexivity.
  - reflexivity.
  - vm_compute. discriminate.
  - split.
    + destruct Hright as (res & u & Hl & _ & _ & Hid & _).
      * vm_compute. reflexivity.
      * exists res, u. split; [exact Hl|exact Hid].
    + apply Hwrong. vm_compute. reflexivity.
Defined.

(** Witness of X3: the token Marie got, before it expires. *)
Lemma token_round_trip_witness :
  validateToken (generateToken mariesRow (now noon2025)) noon2025 dbMarie
  = (inr (Some mariesRow), dbMarie).
Proof.
  apply (token_round_trip mariesRow (now noon2025) noon2025 dbMarie).
  - vm_compute. reflexivity.
  - vm_compute. reflexivity.
Defined.

(** Witness of X4: Marie's token lets Marie through; a token that names
    nobody lets its bearer through as an active principal; no header,
    nobody. *)
Lemma authMiddleware_lets_through_witness :
  In mariesRow (users dbMarie)
  ∧ (∃ v, authMiddleware (Some ("Bearer " ++ anonymousToken)) noon2025
            dbMarie
          = Next v (User.id v))
  ∧ authMiddleware None noon2025 dbMarie
    = Answered (json 401 "Unauthorized - No token provided").
Proof.
  split; [|split].
  - destruct (authMiddleware_lets_through
                (Some ("Bearer " ++ mariesToken)) noon2025 dbMarie)
      as (Hnext & _).
    destruct (Hnext mariesRow 1%nat)
      as (header & payload & _ & _ & _ & _ & _ & _ & HIn).
    + vm_compute. reflexivity.
    + exact HIn.
  - destruct (authMiddleware_lets_through
                (Some ("Bearer " ++ anonymousToken)) noon2025 dbMarie)
      as (_ & Hanonymous & _).
    destruct (Hanonymous anonymousToken
                (mkPayload None "nobody@example.com" CUSTOMER) mariesRow)
      as (v & Hv & _).
    + reflexivity.
    + vm_compute. reflexivity.
    + reflexivity.
    + vm_compute. left. reflexivity.
    + vm_compute. reflexivity.
    + exists v. exact Hv.
  - destruct (authMiddleware_lets_through None noon2025 dbMarie)
      as (_ & _ & Hnone).
    apply Hnone. intros header Heq. discriminate Heq.
Defined.

(** Witness of X5: Marie gives the three legal consents. *)
Lemma registerStoreOwner_audit_trail_witness :
  map auditKind (auditLogs dbMarie)
  = [USER_REGISTRATION; STORE_REGISTRATION; CONSENT_ACCEPTANCE "terms";
     CONSENT_ACCEPTANCE "privacy"; CONSENT_ACCEPTANCE "data_processing"].
Proof.
  pose proof (registerStoreOwner_audit_trail marie noon2025 emptyDb) as H.
  cbv zeta in H. destruct H as (_ & Hreturned).
  unfold dbMarie. erewrite Hreturned.
  - vm_compute. reflexivity.
  - vm_compute. reflexivity.
Defined.

(** Witness of X6, X7 and X8: the sample history from the empty state. *)
Lemma consents_stay_stamped_witness :
  List.Forall consentsStamped (users (run sampleHistory emptyDb)).
Proof.
  destruct (consents_stay_stamped sampleHistory emptyDb) as (Hkept & _).
  apply Hkept. constructor.
Defined.

Lemma slugs_stay_distinct_witness :
  slugsDistinct (run sampleHistory emptyDb).
Proof.
  apply (slugs_stay_distinct sampleHistory emptyDb). constructor.
Defined.

Lemma stores_stay_owned_witness : storesOwned (run sampleHistory emptyDb).
Proof.
  apply (stores_stay_owned sampleHistory emptyDb). constructor.
Defined.

(** Witness of X9: Alice completes her onboarding beside Marie; under a
    date that does not parse nothing is written. *)
Lemma completeOnboarding_rewrites_in_place_witness :
  List.length
    (users (final (completeOnboarding 3 paulOnboarding noon2025
                     dbMarieAlice)))
  = List.length (users dbMarieAlice)
  ∧ In mariesRow
      (users (final (completeOnboarding 3 paulOnboarding noon2025
                       dbMarieAlice)))
  ∧ final (completeOnboarding 3 undated noon2025 dbMarieAlice)
    = dbMarieAlice.
Proof.
  split; [|split].
  - edestruct (completeOnboarding_rewrites_in_place 3%nat paulOnboarding
                 noon2025 dbMarieAlice) as (_ & _ & Hlength & _).
    + vm_compute. reflexivity.
    + exact Hlength.
  - edestruct (completeOnboarding_rewrites_in_place 3%nat paulOnboarding
                 noon2025 dbMarieAlice) as (_ & _ & _ & Hothers & _).
    + vm_compute. reflexivity.
    + apply Hothers.
      * vm_compute. left. reflexivity.
      * vm_compute. discriminate.
  - edestruct (completeOnboarding_rewrites_in_place 3%nat undated
                 noon2025 dbMarieAlice) as (_ & Hinvalid & _).
    + vm_compute. reflexivity.
    + destruct Hinvalid as [e He].
      * vm_compute. reflexivity.
      * rewrite He. reflexivity.
Defined.

(** Witness of X10: Alice completes her onboarding twice. *)
Lemma completeOnboarding_twice_witness :
  let db1 := final (completeOnboarding 1 paulOnboarding noon2025 dbAlice) in
  (∃ m, outcome (completeOnboarding 1 paulOnboarding autumn2025 db1)
        = inl (QueryFailedError m))
  ∧ stores (final (completeOnboarding 1 paulOnboarding autumn2025 db1))
    = stores db1.
Proof.
  edestruct (completeOnboarding_twice 1%nat paulOnboarding paulOnboarding
               noon2025 autumn2025 dbAlice)
    as (u & _ & _ & _ & Hthrows & Hstores & _).
  - vm_compute. reflexivity.
  - reflexivity.
  - split; [exact Hthrows|exact Hstores].
Defined.

(** Witness of X11: "Chez Marie" after Marie has registered. *)
Lemma name_unavailable_once_taken_witness :
  ∃ a, checkStoreNameAvailability "Chez Marie" dbMarie = (inr a, dbMarie)
       ∧ available a = false.
Proof.
  destruct name_unavailable_once_taken as (_ & Hregistered & _).
  edestruct (Hregistered marie noon2025 emptyDb) as (a & Hcheck & Hno).
  - vm_compute. reflexivity.
  - exists a. split; [exact Hcheck|exact Hno].
Defined.

(** Witness of X12: Alice, then Alice again. *)
Lemma customerRegister_answers_witness :
  (∃ res u,
     fst (customerRegister [] alice noon2025 emptyDb)
     = mkResponse 201 (mkBody "Registration successful" None (Some res))
     ∧ users (snd (customerRegister [] alice noon2025 emptyDb))
       = (users emptyDb ++ [u])%list)
  ∧ customerRegister [] alice' noon2025 dbAlice
    = (json 409 "Email already registered", dbAlice).
Proof.
  split.
  - destruct (customerRegister_answers [] alice noon2025 emptyDb)
      as (_ & _ & Hfresh).
    destruct Hfresh as (res & u & Hres & Hu & _).
    + reflexivity.
    + vm_compute. reflexivity.
    + exists res, u. split; [exact Hres|exact Hu].
  - destruct (customerRegister_answers [] alice' noon2025 dbAlice)
      as (_ & Htaken & _).
    apply Htaken; [reflexivity|]. vm_compute. eexists. reflexivity.
Defined.

(** Witness of X13: Marie with and without the acceptance of the terms, and
    with a street that is one no-break space. *)
Lemma storeOwnerRegister_consents_witness :
  snd (storeOwnerRegister [] reluctant None None noon2025 emptyDb) = emptyDb
  ∧ status (fst (storeOwnerRegister [] nowhere None None noon2025 emptyDb))
    = 400
  ∧ 18 ≤ storeOwnerAge marie noon2025.
Proof.
  split; [|split].
  - destruct (storeOwnerRegister_consents [] reluctant None None noon2025
                emptyDb) as (Hrefused & _).
    apply Hrefused. left. reflexivity.
  - destruct (storeOwnerRegister_consents [] nowhere None None noon2025
                emptyDb) as (_ & Hblank & _).
    apply Hblank. left. vm_compute. reflexivity.
  - destruct (storeOwnerRegister_consents [] marie None None noon2025
                emptyDb) as (_ & _ & Hcreated).
    destruct Hcreated as (_ & _ & _ & _ & _ & Hage & _).
    + vm_compute. reflexivity.
    + exact Hage.
Defined.

(** Witness of X14: Paul asks for Marie's store name. *)
Lemma storeOwnerRegister_slug_collision_witness :
  ∃ m, fst (storeOwnerRegister [] paul None None noon2025 dbMarie)
       = json 500 m.
Proof.
  destruct (storeOwnerRegister_slug_collision paul None None noon2025
              dbMarie) as ((m & _ & Hanswer) & _).
  - vm_compute. reflexivity.
  - vm_compute. reflexivity.
  - vm_compute. reflexivity.
  - exists m. exact Hanswer.
Defined.

(** Witness of X15: Alice, behind the guard, completes her onboarding. *)
Lemma completeOnboarding_route_witness :
  ∃ u u',
    authMiddleware (Some ("Bearer " ++ alicesToken)) noon2025 dbAlice
    = Next u (User.id u)
    ∧ find (byId (User.id u))
        (users (snd (routeCompleteOnboarding
                       (Some ("Bearer " ++ alicesToken)) alicesBody noon2025
                       dbAlice)))
      = Some u'
    ∧ User.role u' = STORE_OWNER
    ∧ User.termsAcceptedAt u' = Some (mkDate 1749988800000 2025).
Proof.
  destruct (completeOnboarding_route (Some ("Bearer " ++ alicesToken))
              alicesBody noon2025 dbAlice) as (_ & _ & _ & _ & _ & _ & Hdone).
  destruct Hdone
    as (u & u' & d & Hnext & _ & Hdate & Hfound & Hrole & _ & _ & Hat).
  - vm_compute. reflexivity.
  - exists u, u'. split; [exact Hnext|]. split; [exact Hfound|].
    split; [exact Hrole|].
    rewrite Hat, <- Hdate. vm_compute. reflexivity.
Defined.

(** Witness of X16: a second store for Marie; a store for nobody. *)
Lemma createStore_atomic_witness :
  (∃ e, createStore orphan dbMarie = (inl e, dbMarie))
  ∧ ∃ s, stores (final (createStore annex dbMarie))
         = (stores dbMarie ++ [s])%list
         ∧ Store.slug s = None.
Proof.
  split.
  - destruct (createStore_atomic orphan dbMarie) as (_ & Hmissing & _).
    apply Hmissing. vm_compute. reflexivity.
  - destruct (createStore_atomic annex dbMarie) as (_ & _ & Hfound).
    destruct (Hfound mariesRow)
      as (s & _ & Hs & _ & _ & _ & _ & _ & Hslug & _).
    + vm_compute. reflexivity.
    + exists s. split; [exact Hs|exact Hslug].
Defined.

(** Witness of X17: Marie's store goes on holiday and comes back. *)
Lemma toggleHolidayMode_twice_witness :
  let db1 := final (toggleHolidayMode 2 (Some "Back in May") dbMarie) in
  let db2 := final (toggleHolidayMode 2 None db1) in
  outcome (toggleHolidayMode 2 None db1)
  = inr (Store_withHoliday false None mariesStore)
  ∧ find (storeByIdActive 2) (stores db2)
    = Some (Store_withHoliday false (Some "Back in May") mariesStore).
Proof.
  destruct (toggleHolidayMode_twice 2%nat (Some "Back in May") None
              dbMarie mariesStore)
    as (_ & _ & Hreply & Hback & _).
  - vm_compute. reflexivity.
  - split; [rewrite Hreply; reflexivity|exact Hback].
Defined.

(** Witness of X18: Marie's store is deleted, and still served by slug. *)
Lemma deleteStore_is_soft_witness :
  getStoreById 2 (final (deleteStore 2 dbMarie))
  = (inr None, final (deleteStore 2 dbMarie))
  ∧ getStoreBySlug "chez-marie" (final (deleteStore 2 dbMarie))
    = (inr (Some (pageOf (Store_withActive false mariesStore))),
       final (deleteStore 2 dbMarie)).
Proof.
  destruct (deleteStore_is_soft 2%nat dbMarie mariesStore)
    as (_ & _ & _ & _ & Hgone & _ & _ & _ & _ & Hslug).
  - vm_compute. reflexivity.
  - split; [exact Hgone|]. apply Hslug. vm_compute. reflexivity.
Defined.

(** Witness of X19: a key no store has, Marie's store, and a key that is
    no UUID. *)
Lemma store_handlers_not_found_witness :
  deleteStoreHandler (IsUuid 7) dbMarie = (say 404 "Store not found", dbMarie)
  ∧ replyStatus (fst (deleteStoreHandler (IsUuid 2) dbMarie)) = 200
  ∧ replyStatus (fst (deleteStoreHandler (NotUuid "seven") dbMarie)) = 500.
Proof.
  split; [|split].
  - destruct (store_handlers_not_found (IsUuid 7) rename None dbMarie)
      as (Hnone & _).
    destruct (Hnone 7%nat) as (_ & _ & _ & Hdelete).
    + reflexivity.
    + vm_compute. reflexivity.
    + exact Hdelete.
  - destruct (store_handlers_not_found (IsUuid 2) rename None dbMarie)
      as (_ & Hsome & _).
    destruct (Hsome 2%nat) as (_ & _ & Hdelete).
    + reflexivity.
    + vm_compute. eexists. reflexivity.
    + exact Hdelete.
  - destruct (store_handlers_not_found (NotUuid "seven") rename None dbMarie)
      as (_ & _ & Hother).
    destruct (Hother "seven" eq_refl) as (_ & _ & _ & Hdelete & _).
    exact Hdelete.
Defined.


(** Witness of X21: three digits are not a SIRET. *)
Lemma fetchSiretData_local_errors_witness :
  fetchSiretData sirene remote "123"
  = inl (Error "Erreur lors de la récupération des données").
Proof.
  destruct (fetchSiretData_local_errors sirene remote "123") as (Hlocal & _).
  apply Hlocal. left. vm_compute. reflexivity.
Defined.

(** Witness of X22: a SIRET written in groups. *)
Lemma fetchSiretData_ignores_spaces_witness :
  fetchSiretData sirene remote "123 456 789 01234"
  = fetchSiretData sirene remote "12345678901234"
  ∧ fetchSiretData sirene remote "123 456 789 01234"
    = inr (businessInfoOf boulangerie).
Proof.
  destruct (fetchSiretData_ignores_spaces sirene remote "123 456 789 01234")
    as (_ & Hvalid).
  destruct Hvalid as (Hclean & Hasked).
  - vm_compute. reflexivity.
  - split.
    + rewrite Hclean. vm_compute. reflexivity.
    + rewrite Hasked.
      * vm_compute. reflexivity.
      * vm_compute. discriminate.
Defined.

